(** * bp-simulator: scoring engine and idempotent save

    A shallow embedding of [business_plan_simulator_full.py]: the
    module-level scoring block, the save signature ([_canonicalize_number],
    [_make_signature]) and the save path ([_email_valid],
    [_inputs_ok_for_save], [_save_to_sheet_if_possible],
    [append_in_header_order]) and the prospects editor of section 3,
    together with the parts of the Python runtime and of the libraries
    they rest on (binary64 floats, their decimal formatting and parsing,
    [str.strip], [json.dumps], SHA-256, the column sum of a data frame).

    Conventions.
    - A Python [float] is a primitive binary64 [float]; a Python [int] is a
      [Z]; a Python [str] is a [string] holding its UTF-8 bytes.
    - A Python [dict] is an association list in insertion order with
      pairwise distinct keys.
    - [st.session_state] is a finite map from keys to values; the prospect
      list it holds is kept next to it.
    - The spreadsheet is a header row and the rows below it; every remote
      call consumes one scripted outcome, so that a failing call can be
      replayed. *)

From Stdlib Require Import ZArith List String Ascii Bool Lia Floats Permutation.
From stdpp Require Import gmap strings.
Import ListNotations.

Local Open Scope string_scope.
Local Open Scope Z_scope.

(** ** Python built-ins used by the program *)

Module Py.

(** *** Strings *)

Definition chr (n : Z) : ascii := ascii_of_N (Z.to_N n).
Definition ord (c : ascii) : Z := Z.of_N (N_of_ascii c).

(** [c in s] for a one-character [c]. *)
Fixpoint contains (c : ascii) (s : string) : bool :=
  match s with
  | EmptyString => false
  | String a r => if Ascii.eqb a c then true else contains c r
  end.

(** [s.split(c)] for a one-character separator: the list of the pieces,
    never empty. *)
Fixpoint split (c : ascii) (s : string) : list string :=
  match s with
  | EmptyString => [EmptyString]
  | String a r =>
      if Ascii.eqb a c then EmptyString :: split c r
      else match split c r with
           | p :: ps => String a p :: ps
           | [] => [String a EmptyString]
           end
  end.

(** [l[-1]] on a list of strings; the program only indexes the result of
    [split], which is never empty. *)
Definition last_item (l : list string) : string := List.last l EmptyString.

(** [sep.join(l)]. *)
Fixpoint join (sep : string) (l : list string) : string :=
  match l with
  | [] => EmptyString
  | [x] => x
  | x :: r => x ++ sep ++ join sep r
  end.

Fixpoint repeat_char (c : ascii) (n : nat) : string :=
  match n with
  | O => EmptyString
  | S k => String c (repeat_char c k)
  end.

Fixpoint take (n : nat) (s : string) : string :=
  match n, s with
  | S k, String a r => String a (take k r)
  | _, _ => EmptyString
  end.

Fixpoint drop (n : nat) (s : string) : string :=
  match n, s with
  | S k, String _ r => drop k r
  | _, _ => s
  end.

(** *** Integers to decimal text *)

Definition digit_char (d : Z) : ascii := chr (48 + d).

Fixpoint digits_fuel (fuel : nat) (n : Z) (acc : string) : string :=
  match fuel with
  | O => acc
  | S f =>
      let acc' := String (digit_char (n mod 10)) acc in
      if n <? 10 then acc' else digits_fuel f (n / 10) acc'
  end.

(** Decimal digits of a non-negative integer. *)
Definition str_nonneg (n : Z) : string :=
  digits_fuel (S (Z.to_nat (Z.log2 n))) n EmptyString.

(** [str(z)] for an [int]. *)
Definition str_int (z : Z) : string :=
  if z <? 0 then String "-" (str_nonneg (- z)) else str_nonneg z.

(** *** binary64 *)

Definition sign_str (s : bool) : string := if s then "-" else "".

(** Nearest integer to [a / b], ties to even ([0 <= a], [0 < b]). *)
Definition div_half_even (a b : Z) : Z :=
  let q := a / b in
  let r := a mod b in
  match 2 * r ?= b with
  | Lt => q
  | Gt => q + 1
  | Eq => if Z.even q then q else q + 1
  end.

(** The positive rational [m * 2^e * 10^d] as a fraction. *)
Definition scaled_num (m e d : Z) : Z :=
  m * (if 0 <=? e then 2 ^ e else 1) * (if 0 <=? d then 10 ^ d else 1).
Definition scaled_den (e d : Z) : Z :=
  (if 0 <=? e then 1 else 2 ^ (- e)) * (if 0 <=? d then 1 else 10 ^ (- d)).

(** Digits of the integer [n] with a decimal point before the last [d]. *)
Definition fixed_digits (d : nat) (n : Z) : string :=
  let s := str_nonneg n in
  let s := repeat_char "0" (S d - String.length s) ++ s in
  match d with
  | O => s
  | _ => take (String.length s - d) s ++ "." ++ drop (String.length s - d) s
  end.

(** [format(x, ".<d>f")]: the exact binary value rounded to [d] decimals,
    ties to even. *)
Definition format_f (d : nat) (x : float) : string :=
  match Prim2SF x with
  | S754_nan => "nan"
  | S754_infinity s => sign_str s ++ "inf"
  | S754_zero s => sign_str s ++ fixed_digits d 0
  | S754_finite s m e =>
      let d' := Z.of_nat d in
      sign_str s ++
      fixed_digits d (div_half_even (scaled_num (Zpos m) e d') (scaled_den e d'))
  end.

(** The binary64 nearest to [(-1)^s * a / b], ties to even; overflow gives
    an infinity. *)
Definition SF_of_ratio (s : bool) (a b : Z) : spec_float :=
  match a, b with
  | Zpos pa, Zpos pb =>
      SFdiv prec emax (S754_finite s pa 0) (S754_finite false pb 0)
  | _, _ => S754_zero s
  end.

(** The binary64 nearest to [(-1)^s * n * 10^k]. *)
Definition SF_of_decimal (s : bool) (n k : Z) : spec_float :=
  if 0 <=? k then SF_of_ratio s (n * 10 ^ k) 1
  else SF_of_ratio s n (10 ^ (- k)).

Definition float_of_decimal (s : bool) (n k : Z) : float :=
  SF2Prim (SF_of_decimal s n k).

(** [float(z)] for an [int]: the nearest binary64, or [OverflowError]. *)
Definition float_of_int (z : Z) : option float :=
  match SF_of_ratio (z <? 0) (Z.abs z) 1 with
  | S754_infinity _ => None
  | sf => Some (SF2Prim sf)
  end.

(** *** [repr] of a float: the shortest decimal that reads back *)

(** [10^k <= a / b], for positive [a] and [b]. *)
Definition ge_pow10 (a b k : Z) : bool :=
  if 0 <=? k then b * 10 ^ k <=? a else b <=? a * 10 ^ (- k).

Fixpoint adjust_exp (fuel : nat) (a b k : Z) : Z :=
  match fuel with
  | O => k
  | S f => if ge_pow10 a b (k + 1) then adjust_exp f a b (k + 1) else k
  end.

(** The largest [E] with [10^E <= a / b]: an estimate from the binary
    logarithms that is at most three below, then adjusted. *)
Definition decimal_exponent (a b : Z) : Z :=
  adjust_exp 4 a b (((Z.log2 a - Z.log2 b) * 30103) / 100000 - 1).

Definition reads_back (x : spec_float) (s : bool) (n k : Z) : bool :=
  SFeqb (SF_of_decimal s n k) x.

(** The [p]-digit decimals next to [m * 2^e], below and above; the one that
    reads back as [x], the nearer of the two when both do. *)
Definition shortest_at (x : spec_float) (s : bool) (m e E p : Z)
  : option (Z * Z) :=
  let q := E - p + 1 in
  let num := scaled_num m e (- q) in
  let den := scaled_den e (- q) in
  let lo := num / den in
  let hi := lo + 1 in
  match reads_back x s lo q, reads_back x s hi q with
  | true, true =>
      match 2 * (num mod den) ?= den with
      | Lt => Some (lo, q)
      | Gt => Some (hi, q)
      | Eq => Some (if Z.even lo then lo else hi, q)
      end
  | true, false => Some (lo, q)
  | false, true => Some (hi, q)
  | false, false => None
  end.

Fixpoint shortest_from (fuel : nat) (x : spec_float) (s : bool) (m e E p : Z)
  : Z * Z :=
  match fuel with
  | O => (div_half_even (scaled_num m e (16 - E)) (scaled_den e (16 - E)), E - 16)
  | S f =>
      match shortest_at x s m e E p with
      | Some r => r
      | None => shortest_from f x s m e E (p + 1)
      end
  end.

Fixpoint strip_zeros (fuel : nat) (n k : Z) : Z * Z :=
  match fuel with
  | O => (n, k)
  | S f => if (n mod 10 =? 0) && (0 <? n) then strip_zeros f (n / 10) (k + 1)
           else (n, k)
  end.

(** Shortest digits [n] and exponent [k] with [n * 10^k] reading back as
    the finite non-zero float [(-1)^s * m * 2^e]. *)
Definition shortest_digits (s : bool) (m : positive) (e : Z) : Z * Z :=
  let x := S754_finite s m e in
  let E := decimal_exponent (scaled_num (Zpos m) e 0) (scaled_den e 0) in
  let '(n, k) := shortest_from 17 x s (Zpos m) e E 1 in
  strip_zeros 20 n k.

Definition exp_str (x : Z) : string :=
  let a := str_nonneg (Z.abs x) in
  (if x <? 0 then "-" else "+") ++
  (if (String.length a <? 2)%nat then String "0" a else a).

(** Layout of [repr]: plain notation while the decimal point falls within
    (-4, 16], scientific notation otherwise. *)
Definition repr_layout (n k : Z) : string :=
  let ds := str_nonneg n in
  let nd := Z.of_nat (String.length ds) in
  let decpt := nd + k in
  if (decpt <=? -4) || (16 <? decpt) then
    take 1 ds ++ (if 1 <? nd then "." ++ drop 1 ds else "") ++
    "e" ++ exp_str (decpt - 1)
  else if decpt <=? 0 then
    "0." ++ repeat_char "0" (Z.to_nat (- decpt)) ++ ds
  else if nd <=? decpt then
    ds ++ repeat_char "0" (Z.to_nat (decpt - nd)) ++ ".0"
  else
    take (Z.to_nat decpt) ds ++ "." ++ drop (Z.to_nat decpt) ds.

(** [repr(x)] and [str(x)] for a float. *)
Definition repr_float (x : float) : string :=
  match Prim2SF x with
  | S754_nan => "nan"
  | S754_infinity s => sign_str s ++ "inf"
  | S754_zero s => sign_str s ++ "0.0"
  | S754_finite s m e =>
      let '(n, k) := shortest_digits s m e in
      sign_str s ++ repr_layout n k
  end.

(** *** Text as a sequence of characters *)

(** A string holds the UTF-8 bytes of a text. [chars] cuts it into its
    characters, each with its code point and its bytes. A byte that does
    not start a well-formed sequence counts as a character of its own
    (Python strings never hold such bytes). *)
Definition cont (b : Z) : bool := (128 <=? b) && (b <? 192).

Fixpoint chars (s : string) : list (Z * string) :=
  match s with
  | EmptyString => []
  | String a0 r0 =>
      let b0 := ord a0 in
      let single := (b0, String a0 EmptyString) in
      if b0 <? 128 then single :: chars r0
      else
        match r0 with
        | String a1 r1 =>
            let b1 := ord a1 in
            if (192 <=? b0) && (b0 <? 224) && cont b1 then
              ((b0 - 192) * 64 + (b1 - 128), String a0 (String a1 EmptyString))
                :: chars r1
            else
              match r1 with
              | String a2 r2 =>
                  let b2 := ord a2 in
                  if (224 <=? b0) && (b0 <? 240) && cont b1 && cont b2 then
                    ((b0 - 224) * 4096 + (b1 - 128) * 64 + (b2 - 128),
                     String a0 (String a1 (String a2 EmptyString)))
                      :: chars r2
                  else
                    match r2 with
                    | String a3 r3 =>
                        let b3 := ord a3 in
                        if (240 <=? b0) && (b0 <? 248)
                           && cont b1 && cont b2 && cont b3 then
                          ((b0 - 240) * 262144 + (b1 - 128) * 4096
                           + (b2 - 128) * 64 + (b3 - 128),
                           String a0 (String a1 (String a2
                             (String a3 EmptyString))))
                            :: chars r3
                        else single :: chars r0
                    | EmptyString => single :: chars r0
                    end
              | EmptyString => single :: chars r0
              end
        | EmptyString => [single]
        end
  end.

(** The text made of the given characters. *)
Fixpoint text (l : list (Z * string)) : string :=
  match l with
  | [] => EmptyString
  | (_, b) :: r => b ++ text r
  end.

(** The white space of [str.isspace], [str.strip] and [str.split], by
    code point. *)
Definition is_whitespace (c : Z) : bool :=
  ((9 <=? c) && (c <=? 13)) || ((28 <=? c) && (c <=? 32))
  || (c =? 133) || (c =? 160) || (c =? 5760)
  || ((8192 <=? c) && (c <=? 8202))
  || (c =? 8232) || (c =? 8233) || (c =? 8239) || (c =? 8287)
  || (c =? 12288).

(** The code points of the digits zero of the decimal number systems
    (Unicode 14.0); the nine digits that follow each of them have the
    values 1 to 9. *)
Definition decimal_zeros : list Z :=
  [ 48; 1632; 1776; 1984; 2406; 2534; 2662; 2790; 2918; 3046; 3174; 3302;
    3430; 3558; 3664; 3792; 3872; 4160; 4240; 6112; 6160; 6470; 6608; 6784;
    6800; 6992; 7088; 7232; 7248; 42528; 43216; 43264; 43472; 43504; 43600;
    44016; 65296; 66720; 68912; 69734; 69872; 69942; 70096; 70384; 70736;
    70864; 71248; 71360; 71472; 71904; 72016; 72784; 73040; 73120; 92768;
    92864; 93008; 120782; 120792; 120802; 120812; 120822; 123200; 123632;
    125264; 130032 ].

(** The decimal value of a character, if it is a decimal digit. *)
Definition to_decimal (c : Z) : option Z :=
  match List.find (fun z => (z <=? c) && (c <? z + 10)) decimal_zeros with
  | Some z => Some (c - z)
  | None => None
  end.

(** [s.strip()]: white space removed at both ends. *)
Fixpoint lstrip_chars (l : list (Z * string)) : list (Z * string) :=
  match l with
  | (c, b) :: r => if is_whitespace c then lstrip_chars r else l
  | [] => []
  end.

Fixpoint rstrip_chars (l : list (Z * string)) : list (Z * string) :=
  match l with
  | [] => []
  | (c, b) :: r =>
      match rstrip_chars r with
      | [] => if is_whitespace c then [] else [(c, b)]
      | r' => (c, b) :: r'
      end
  end.

Definition strip (s : string) : string :=
  text (rstrip_chars (lstrip_chars (chars s))).

(** *** [float(s)] for a string *)

(** The text that [float] parses: a text with a character outside ASCII
    has its white space replaced by blanks and its decimal digits by the
    ASCII digits, and is cut after a question mark put for the first
    character that is neither; an ASCII text is taken as it is. *)
Fixpoint is_ascii (s : string) : bool :=
  match s with
  | EmptyString => true
  | String a r => (ord a <? 128) && is_ascii r
  end.

Fixpoint to_ascii_chars (l : list (Z * string)) : string :=
  match l with
  | [] => EmptyString
  | (c, _) :: r =>
      if c <? 127 then String (chr c) (to_ascii_chars r)
      else if is_whitespace c then String " " (to_ascii_chars r)
      else
        match to_decimal c with
        | Some d => String (digit_char d) (to_ascii_chars r)
        | None => "?"
        end
  end.

Definition decimal_and_space_to_ascii (s : string) : string :=
  if is_ascii s then s else to_ascii_chars (chars s).

(** The white space that the parser skips at both ends of that text:
    blank, tab, line feed, vertical tab, form feed, carriage return. *)
Definition is_space (c : ascii) : bool :=
  let n := ord c in
  ((9 <=? n) && (n <=? 13)) || (n =? 32).

Definition is_digit (c : ascii) : bool :=
  let n := ord c in (48 <=? n) && (n <=? 57).

Definition lower (c : ascii) : ascii :=
  let n := ord c in
  if (65 <=? n) && (n <=? 90) then chr (n + 32) else c.

Fixpoint lstrip (s : string) : string :=
  match s with
  | String a r => if is_space a then lstrip r else s
  | EmptyString => s
  end.

Fixpoint rstrip (s : string) : string :=
  match s with
  | EmptyString => EmptyString
  | String a r =>
      match rstrip r with
      | EmptyString => if is_space a then EmptyString else String a EmptyString
      | r' => String a r'
      end
  end.

Fixpoint map_str (f : ascii -> ascii) (s : string) : string :=
  match s with
  | EmptyString => EmptyString
  | String a r => String (f a) (map_str f r)
  end.

(** After a first digit: further digits, each optionally preceded by one
    underscore. Returns the digits read (most significant first, appended
    to [acc] in reverse) and the rest. *)
Fixpoint digit_tail (s : string) (acc : list Z) : list Z * string :=
  match s with
  | String a r =>
      if is_digit a then digit_tail r ((ord a - 48) :: acc)
      else if Ascii.eqb a "_" then
        match r with
        | String b r' =>
            if is_digit b then digit_tail r' ((ord b - 48) :: acc)
            else (acc, s)
        | EmptyString => (acc, s)
        end
      else (acc, s)
  | EmptyString => (acc, s)
  end.

(** [digitpart]: at least one digit. Digits come back least significant
    first. *)
Definition digitpart (s : string) : option (list Z * string) :=
  match s with
  | String a r =>
      if is_digit a then Some (digit_tail r [ord a - 48]) else None
  | EmptyString => None
  end.

(** Value of a digit list given least significant first. *)
Fixpoint digits_value (ds : list Z) : Z :=
  match ds with
  | [] => 0
  | d :: r => d + 10 * digits_value r
  end.

(** [number]: [[digitpart] "." digitpart | digitpart ["."]]. Returns the
    digits as an integer, the count of fraction digits, and the rest. *)
Definition number (s : string) : option (Z * Z * string) :=
  match digitpart s with
  | Some (ip, r) =>
      match r with
      | String "." r1 =>
          match digitpart r1 with
          | Some (fp, r2) =>
              Some (digits_value (fp ++ ip)%list, Z.of_nat (List.length fp), r2)
          | None => Some (digits_value ip, 0, r1)
          end
      | _ => Some (digits_value ip, 0, r)
      end
  | None =>
      match s with
      | String "." r1 =>
          match digitpart r1 with
          | Some (fp, r2) =>
              Some (digits_value fp, Z.of_nat (List.length fp), r2)
          | None => None
          end
      | _ => None
      end
  end.

(** [exponent]: [("e" | "E") [sign] digitpart], or nothing. *)
Definition exponent (s : string) : option (Z * string) :=
  match s with
  | EmptyString => Some (0, s)
  | String c r =>
      if Ascii.eqb (lower c) "e" then
        let '(neg, r1) :=
          match r with
          | String "-" r' => (true, r')
          | String "+" r' => (false, r')
          | _ => (false, r)
          end in
        match digitpart r1 with
        | Some (ds, r2) =>
            Some (if neg then - digits_value ds else digits_value ds, r2)
        | None => None
        end
      else None
  end.

(** The float for the decimal [(-1)^neg * n * 10^k]; decimals far outside
    the binary64 range are settled without computing the power. *)
Definition decimal_to_float (neg : bool) (n k : Z) : float :=
  if n =? 0 then SF2Prim (S754_zero neg)
  else
    let p := Z.of_nat (String.length (str_nonneg n)) + k in
    if 400 <? p then SF2Prim (S754_infinity neg)
    else if p <? -400 then SF2Prim (S754_zero neg)
    else float_of_decimal neg n k.

(** What [float] does with the text [u] that follows the sign. *)
Definition float_of_unsigned (neg : bool) (u : string) : option float :=
  let lu := map_str lower u in
  if String.eqb lu "inf" || String.eqb lu "infinity" then
    Some (SF2Prim (S754_infinity neg))
  else if String.eqb lu "nan" then Some nan
  else
    match number u with
    | Some (n, fl, r) =>
        match exponent r with
        | Some (ex, EmptyString) => Some (decimal_to_float neg n (ex - fl))
        | _ => None
        end
    | None => None
    end.

(** The parser on the ASCII text. *)
Definition float_of_ascii (s : string) : option float :=
  let t := rstrip (lstrip s) in
  match t with
  | String "-" r => float_of_unsigned true r
  | String "+" r => float_of_unsigned false r
  | _ => float_of_unsigned false t
  end.

(** [float(s)]: [None] stands for [ValueError]. *)
Definition float_of_str (s : string) : option float :=
  float_of_ascii (decimal_and_space_to_ascii s).

(** Strings of decimal digits, and strings without white space. *)
Fixpoint all_digits (s : string) : bool :=
  match s with
  | EmptyString => true
  | String a r => is_digit a && all_digits r
  end.

Fixpoint no_space (s : string) : bool :=
  match s with
  | EmptyString => true
  | String a r => negb (is_space a) && no_space r
  end.

End Py.

(** ** SHA-256 ([hashlib.sha256]) over a byte string *)

Module Sha256.

Definition w32 (x : Z) : Z := x mod 2 ^ 32.
Definition add32 (x y : Z) : Z := w32 (x + y).
Definition rotr (n x : Z) : Z :=
  Z.lor (Z.shiftr x n) (w32 (Z.shiftl x (32 - n))).
Definition not32 (x : Z) : Z := Z.lxor x (2 ^ 32 - 1).

Definition Ch (x y z : Z) : Z := Z.lxor (Z.land x y) (Z.land (not32 x) z).
Definition Maj (x y z : Z) : Z :=
  Z.lxor (Z.lxor (Z.land x y) (Z.land x z)) (Z.land y z).
Definition Sigma0 (x : Z) : Z :=
  Z.lxor (Z.lxor (rotr 2 x) (rotr 13 x)) (rotr 22 x).
Definition Sigma1 (x : Z) : Z :=
  Z.lxor (Z.lxor (rotr 6 x) (rotr 11 x)) (rotr 25 x).
Definition sigma0 (x : Z) : Z :=
  Z.lxor (Z.lxor (rotr 7 x) (rotr 18 x)) (Z.shiftr x 3).
Definition sigma1 (x : Z) : Z :=
  Z.lxor (Z.lxor (rotr 17 x) (rotr 19 x)) (Z.shiftr x 10).

(** The constants are the leading fraction bits of the square roots (for
    the initial state) and cube roots (for the rounds) of the first
    primes; they are computed here instead of tabulated. *)

Definition is_prime (n : Z) : bool :=
  (1 <? n) &&
  forallb (fun d => negb (n mod d =? 0) || (n <=? d))
          (List.map Z.of_nat (seq 2 18)).

Definition primes64 : list Z :=
  Eval vm_compute in List.filter is_prime (List.map Z.of_nat (seq 2 310)).

(** Largest [r] with [r^3 <= n], one bit at a time from bit [b - 1]. *)
Fixpoint icbrt (b : nat) (n r : Z) : Z :=
  match b with
  | O => r
  | S b' =>
      let c := r + 2 ^ Z.of_nat b' in
      icbrt b' n (if c * c * c <=? n then c else r)
  end.

Definition H0 : list Z :=
  Eval vm_compute in
    List.map (fun p => w32 (Z.sqrt (p * 2 ^ 64))) (firstn 8 primes64).

Definition K : list Z :=
  Eval vm_compute in
    List.map (fun p => w32 (icbrt 36 (p * 2 ^ 96) 0)) primes64.

(** Padding: a one bit, zeros up to 56 modulo 64, the bit length on eight
    bytes. *)
Definition be_bytes (n : nat) (x : Z) : list Z :=
  List.map (fun i => (Z.shiftr x (8 * Z.of_nat i)) mod 256) (rev (seq 0 n)).

Definition pad (msg : list Z) : list Z :=
  let len := Z.of_nat (List.length msg) in
  let zeros := Z.to_nat ((55 - len) mod 64) in
  (msg ++ 128 :: repeat 0 zeros ++ be_bytes 8 (8 * len))%list.

Definition word_of (a b c d : Z) : Z :=
  Z.lor (Z.lor (Z.shiftl a 24) (Z.shiftl b 16)) (Z.lor (Z.shiftl c 8) d).

Fixpoint words (bs : list Z) : list Z :=
  match bs with
  | a :: b :: c :: d :: r => word_of a b c d :: words r
  | _ => []
  end.

Fixpoint chunks (fuel : nat) (ws : list Z) : list (list Z) :=
  match fuel, ws with
  | S f, _ :: _ => firstn 16 ws :: chunks f (skipn 16 ws)
  | _, _ => []
  end.

(** Message schedule: [win] holds the last sixteen words, oldest first. *)
Fixpoint schedule (n : nat) (win : list Z) : list Z :=
  match n with
  | O => []
  | S n' =>
      let w := add32 (add32 (sigma1 (nth 14 win 0)) (nth 9 win 0))
                     (add32 (sigma0 (nth 1 win 0)) (nth 0 win 0)) in
      w :: schedule n' (tl win ++ [w])%list
  end.

Record regs := Regs { ra : Z; rb : Z; rc : Z; rd : Z;
                      re : Z; rf : Z; rg : Z; rh : Z }.

Definition round (s : regs) (kw : Z * Z) : regs :=
  let t1 := add32 (add32 (add32 (rh s) (Sigma1 (re s)))
                         (add32 (Ch (re s) (rf s) (rg s)) (fst kw))) (snd kw) in
  let t2 := add32 (Sigma0 (ra s)) (Maj (ra s) (rb s) (rc s)) in
  Regs (add32 t1 t2) (ra s) (rb s) (rc s) (add32 (rd s) t1) (re s) (rf s) (rg s).

Definition regs_of (l : list Z) : regs :=
  Regs (nth 0 l 0) (nth 1 l 0) (nth 2 l 0) (nth 3 l 0)
       (nth 4 l 0) (nth 5 l 0) (nth 6 l 0) (nth 7 l 0).

Definition list_of (s : regs) : list Z :=
  [ra s; rb s; rc s; rd s; re s; rf s; rg s; rh s].

Definition compress (h : list Z) (block : list Z) : list Z :=
  let w := (block ++ schedule 48 block)%list in
  let s := fold_left round (combine K w) (regs_of h) in
  List.map (fun p => add32 (fst p) (snd p)) (combine h (list_of s)).

Definition digest (msg : list Z) : list Z :=
  let ws := words (pad msg) in
  fold_left compress (chunks (List.length ws) ws) H0.

Definition hex_digit (d : Z) : ascii :=
  if d <? 10 then Py.chr (48 + d) else Py.chr (87 + d).

Fixpoint hex_fixed (n : nat) (x : Z) (acc : string) : string :=
  match n with
  | O => acc
  | S n' => hex_fixed n' (x / 16) (String (hex_digit (x mod 16)) acc)
  end.

Fixpoint bytes_of (s : string) : list Z :=
  match s with
  | EmptyString => []
  | String a r => Py.ord a :: bytes_of r
  end.

(** [hashlib.sha256(b).hexdigest()] for the bytes of [s]. *)
Definition hexdigest (s : string) : string :=
  fold_right (fun w acc => hex_fixed 8 w acc) EmptyString (digest (bytes_of s)).

End Sha256.

(** ** Python values and dictionaries *)

(** The values the program stores in its record and in the session:
    strings, integers, floats, and (for the auto-save key) lists. *)
#[warnings="-register-all"]
Inductive pyval :=
| VStr (s : string)
| VInt (z : Z)
| VFloat (f : float)
| VList (l : list pyval).

(** A [dict]: key/value pairs in insertion order, keys pairwise distinct. *)
Definition dict := list (string * pyval).

Definition keys (d : dict) : list string := List.map fst d.

Definition wf_dict (d : dict) : Prop := List.NoDup (keys d).

Fixpoint lookup_key (d : dict) (k : string) : option pyval :=
  match d with
  | [] => None
  | (k', v) :: r => if String.eqb k' k then Some v else lookup_key r k
  end.

(** [d.get(k, default)]. *)
Definition get (d : dict) (k : string) (default : pyval) : pyval :=
  match lookup_key d k with
  | Some v => v
  | None => default
  end.

(** [d[k] = v]: an existing key keeps its place, a new one goes last. *)
Fixpoint setitem (d : dict) (k : string) (v : pyval) : dict :=
  match d with
  | [] => [(k, v)]
  | (k', v') :: r =>
      if String.eqb k' k then (k, v) :: r else (k', v') :: setitem r k v
  end.

(** Truth value of a Python value. *)
Definition truthy (v : pyval) : bool :=
  match v with
  | VStr s => negb (String.eqb s "")
  | VInt z => negb (z =? 0)
  | VFloat f => negb (PrimFloat.eqb f 0%float)
  | VList l => match l with [] => false | _ => true end
  end.

(** [v == s] where [v] is an optional value ([None] when absent) and [s] a
    string: only an equal string compares equal. *)
Definition eq_str (v : option pyval) (s : string) : bool :=
  match v with
  | Some (VStr t) => String.eqb t s
  | _ => false
  end.

(** ** [json.dumps] *)

Module Json.

(** Code points of a UTF-8 byte string. A byte that does not start a
    well-formed sequence is passed through as its own code point (Python
    strings never hold such bytes). *)
Definition cont (b : Z) : bool := (128 <=? b) && (b <? 192).

Fixpoint code_points (bs : list Z) : list Z :=
  match bs with
  | [] => []
  | b0 :: r0 =>
      if b0 <? 128 then b0 :: code_points r0
      else
        match r0 with
        | b1 :: r1 =>
            if (192 <=? b0) && (b0 <? 224) && cont b1 then
              ((b0 - 192) * 64 + (b1 - 128)) :: code_points r1
            else
              match r1 with
              | b2 :: r2 =>
                  if (224 <=? b0) && (b0 <? 240) && cont b1 && cont b2 then
                    ((b0 - 224) * 4096 + (b1 - 128) * 64 + (b2 - 128))
                      :: code_points r2
                  else
                    match r2 with
                    | b3 :: r3 =>
                        if (240 <=? b0) && (b0 <? 248)
                           && cont b1 && cont b2 && cont b3 then
                          ((b0 - 240) * 262144 + (b1 - 128) * 4096
                           + (b2 - 128) * 64 + (b3 - 128)) :: code_points r3
                        else b0 :: code_points r0
                    | [] => b0 :: code_points r0
                    end
              | [] => b0 :: code_points r0
              end
        | [] => [b0]
        end
  end.

Definition u_escape (c : Z) : string :=
  String "\" (String "u" (Sha256.hex_fixed 4 c EmptyString)).

(** One character of a JSON string with [ensure_ascii=True]. *)
Definition escape_char (c : Z) : string :=
  if c =? 34 then String "\" (String (Py.chr 34) EmptyString)
  else if c =? 92 then String "\" (String "\" EmptyString)
  else if c =? 10 then String "\" "n"
  else if c =? 13 then String "\" "r"
  else if c =? 9 then String "\" "t"
  else if c =? 8 then String "\" "b"
  else if c =? 12 then String "\" "f"
  else if (32 <=? c) && (c <=? 126) then String (Py.chr c) EmptyString
  else if c <? 65536 then u_escape c
  else
    let v := c - 65536 in
    u_escape (55296 + v / 1024) ++ u_escape (56320 + v mod 1024).

Definition quote (s : string) : string :=
  let q := String (Py.chr 34) EmptyString in
  q ++ fold_right (fun c acc => escape_char c ++ acc) EmptyString
         (code_points (Sha256.bytes_of s)) ++ q.

(** A float: [repr], except for the three non-finite spellings. *)
Definition dumps_float (x : float) : string :=
  match Prim2SF x with
  | S754_nan => "NaN"
  | S754_infinity s => Py.sign_str s ++ "Infinity"
  | _ => Py.repr_float x
  end.

Fixpoint dumps_value (item_sep : string) (v : pyval) : string :=
  match v with
  | VStr s => quote s
  | VInt z => Py.str_int z
  | VFloat f => dumps_float f
  | VList l =>
      "[" ++
      (fix items (l : list pyval) : string :=
         match l with
         | [] => EmptyString
         | [x] => dumps_value item_sep x
         | x :: r => dumps_value item_sep x ++ item_sep ++ items r
         end) l ++ "]"
  end.

(** Order of strings by code point, which on UTF-8 is the order by
    byte. *)
Fixpoint str_leb (a b : string) : bool :=
  match a, b with
  | EmptyString, _ => true
  | String _ _, EmptyString => false
  | String x a', String y b' =>
      if Py.ord x <? Py.ord y then true
      else if Py.ord y <? Py.ord x then false
      else str_leb a' b'
  end.

Fixpoint insert_sorted (kv : string * pyval) (l : dict) : dict :=
  match l with
  | [] => [kv]
  | kv' :: r =>
      if str_leb (fst kv') (fst kv) then kv' :: insert_sorted kv r
      else kv :: l
  end.

Definition sort_items (d : dict) : dict :=
  fold_left (fun acc kv => insert_sorted kv acc) d [].

(** [json.dumps(d, sort_keys=True, separators=(item_sep, key_sep))]. *)
Definition dumps (item_sep key_sep : string) (d : dict) : string :=
  "{" ++
  Py.join item_sep
    (List.map (fun kv => quote (fst kv) ++ key_sep ++ dumps_value item_sep (snd kv))
              (sort_items d)) ++ "}".

End Json.

(** ** Configuration *)

Definition HEADER_ORDER : list string :=
  [ "Timestamp"; "Candidate Name"; "Candidate Email"; "Current Role";
    "Candidate Location"; "Current Employer"; "Current Market"; "Currency";
    "Base Salary"; "Last Bonus"; "Current Number of Clients";
    "Current AUM (M CHF)";
    "NNM Year 1 (M CHF)"; "NNM Year 2 (M CHF)"; "NNM Year 3 (M CHF)";
    "Revenue Year 1 (CHF)"; "Revenue Year 2 (CHF)"; "Revenue Year 3 (CHF)";
    "Total Revenue 3Y (CHF)"; "Profit Margin (%)"; "Total Profit 3Y (CHF)";
    "Score"; "AI Evaluation Notes" ].

(** ** Stable signature for idempotent saves *)

(** [_canonicalize_number]: [float(x)] printed with six decimals and read
    back; [x] itself when one of the conversions raises. *)
Definition _canonicalize_number (x : pyval) : pyval :=
  let as_float :=
    match x with
    | VFloat f => Some f
    | VInt z => Py.float_of_int z
    | VStr s => Py.float_of_str s
    | VList _ => None
    end in
  match as_float with
  | Some f =>
      match Py.float_of_str (Py.format_f 6 f) with
      | Some r => VFloat r
      | None => x
      end
  | None => x
  end.

(** The local list [fields] of [_make_signature]. *)
Definition signature_fields : list string :=
  [ "Candidate Name"; "Candidate Email"; "Current Role"; "Candidate Location";
    "Current Employer"; "Current Market"; "Currency"; "Base Salary";
    "Last Bonus"; "Current Number of Clients"; "Current AUM (M CHF)";
    "NNM Year 1 (M CHF)"; "NNM Year 2 (M CHF)"; "NNM Year 3 (M CHF)";
    "Revenue Year 1 (CHF)"; "Revenue Year 2 (CHF)"; "Revenue Year 3 (CHF)";
    "Total Revenue 3Y (CHF)"; "Profit Margin (%)"; "Total Profit 3Y (CHF)" ].

(** The dictionary [payload] of [_make_signature]. *)
Definition signature_payload (candidate_dict : dict) : dict :=
  List.map
    (fun k => (k, _canonicalize_number (get candidate_dict k (VStr ""))))
    signature_fields.

(** [_make_signature]; the serialized text is ASCII, so its UTF-8 encoding
    is the text itself. *)
Definition _make_signature (candidate_dict : dict) : string :=
  let payload := signature_payload candidate_dict in
  let raw := Json.dumps "," ":" payload in
  Sha256.hexdigest raw.

(** ** Form inputs *)

(** The widget values of one run of the script. Integer widgets are
    confined by the form library to the range in which every integer is a
    binary64 value. *)
Record Form := {
  candidate_name : string;
  candidate_email : string;
  years_experience : Z;
  current_role : string;
  candidate_location : string;
  current_employer : string;
  current_market : string;
  currency : string;
  base_salary : Z;
  last_bonus : Z;
  current_number_clients : Z;
  current_assets : float;
  nnm_y1 : float;
  nnm_y2 : float;
  nnm_y3 : float;
  roa_y1 : float;
  roa_y2 : float;
  roa_y3 : float
}.

(** An entry of [st.session_state.prospects_list]. *)
Record Prospect := {
  p_name : string;
  p_source : string;
  p_wealth : float;
  p_best : float;
  p_worst : float
}.

(** ** Float helpers of the scoring block *)

(** Decimal literals denote the nearest binary64, as in the source. *)
Local Set Warnings "-inexact-float".
Local Open Scope float_scope.

(** [x or 0.0]. *)
Definition or_zero (x : float) : float :=
  if PrimFloat.eqb x 0 then 0 else x.

(** [max(a, b)] on two floats: [b] when [b > a], else [a]. *)
Definition py_max (a b : float) : float :=
  if PrimFloat.ltb a b then b else a.

(** An [int] operand of float arithmetic. *)
Definition of_int (z : Z) : float :=
  SF2Prim (Py.SF_of_ratio (z <? 0)%Z (Z.abs z) 1).

(** The sum of a float array as the array library computes it. Fewer
    than eight entries are added one after the other; up to 128 entries
    feed eight running sums in turn, the eight sums are added in pairs,
    and the entries left over are added one after the other; a longer
    array is cut in two, the first part a multiple of eight next below
    half the length, and the sums of the two parts are added. *)
Definition add_all (acc : float) (l : list float) : float :=
  fold_left PrimFloat.add l acc.

Fixpoint add_lanes (r a : list float) : list float :=
  match r, a with
  | x :: r', y :: a' => (x + y) :: add_lanes r' a'
  | _, _ => r
  end.

Fixpoint unrolled (groups : nat) (r l : list float)
  : list float * list float :=
  match groups with
  | O => (r, l)
  | S g => unrolled g (add_lanes r (firstn 8 l)) (skipn 8 l)
  end.

Definition block_sum (l : list float) : float :=
  let '(r, rest) :=
    unrolled (List.length l / 8 - 1)%nat (firstn 8 l) (skipn 8 l) in
  match r with
  | [r0; r1; r2; r3; r4; r5; r6; r7] =>
      add_all (((r0 + r1) + (r2 + r3)) + ((r4 + r5) + (r6 + r7))) rest
  | _ => add_all neg_zero l
  end.

Fixpoint pairwise_sum (fuel : nat) (l : list float) : float :=
  let n := List.length l in
  if (n <? 8)%nat then add_all neg_zero l
  else if (n <=? 128)%nat then block_sum l
  else
    match fuel with
    | O => block_sum l
    | S fuel' =>
        let n2 := (n / 2 - (n / 2) mod 8)%nat in
        pairwise_sum fuel' (firstn n2 l) + pairwise_sum fuel' (skipn n2 l)
    end.

(** The column sum of the prospects table (a reduction of the data-frame
    library): a missing value counts as [0.0], and the sum of the array is
    added to the starting value [0.0]. *)
Definition column_sum (l : list float) : float :=
  let values := List.map (fun x => if PrimFloat.is_nan x then 0 else x) l in
  0 + pairwise_sum (List.length values) values.

(** [best_sum]: the sum of the best-case column, [0.0] for an empty
    table. *)
Definition best_sum (prospects_list : list Prospect) : float :=
  match prospects_list with
  | [] => 0
  | _ => column_sum (List.map p_best prospects_list)
  end.

(** ** Scoring block *)

Record Scoring := {
  score : Z;
  reasons_pos : list string;
  reasons_neg : list string;
  flags : list string
}.

Definition add_pos (d : Z) (r : string) (s : Scoring) : Scoring :=
  {| score := (score s + d)%Z; reasons_pos := (reasons_pos s ++ [r])%list;
     reasons_neg := reasons_neg s; flags := flags s |}.

Definition add_neg (d : Z) (r : string) (s : Scoring) : Scoring :=
  {| score := (score s + d)%Z; reasons_pos := reasons_pos s;
     reasons_neg := (reasons_neg s ++ [r])%list; flags := flags s |}.

Definition add_flag (r : string) (s : Scoring) : Scoring :=
  {| score := score s; reasons_pos := reasons_pos s;
     reasons_neg := reasons_neg s; flags := (flags s ++ [r])%list |}.

Definition avg_roa (f : Form) : float :=
  (or_zero (roa_y1 f) + or_zero (roa_y2 f) + or_zero (roa_y3 f)) / 3.

(** Thresholds: both branches assign the same value. *)
Definition aum_min (current_market : string) : float :=
  if String.eqb current_market "CH Onshore" then 200 else 200.

Definition score_experience (years_experience : Z) (s : Scoring) : Scoring :=
  if (7 <=? years_experience)%Z then
    add_pos 2 "Experience ≥7 years in market" s
  else if (6 <=? years_experience)%Z then
    add_pos 1 "Experience 6 years" s
  else add_neg 0 "Experience <6 years" s.

Definition score_aum (current_market : string) (current_assets : float)
    (s : Scoring) : Scoring :=
  let aum_min := aum_min current_market in
  if PrimFloat.leb aum_min current_assets then
    if String.eqb current_market "CH Onshore"
       && PrimFloat.leb 250 current_assets then
      add_pos 2 "AUM meets CH 250M target" s
    else
      add_pos 2 ("AUM ≥ " ++ Py.repr_float aum_min ++ "M") s
  else
    add_neg 0
      ("AUM shortfall: "
       ++ Py.format_f 0 (py_max 0 (aum_min - current_assets)) ++ "M") s.

Definition score_comp (base_salary last_bonus : Z) (s : Scoring) : Scoring :=
  if (200000 <? base_salary)%Z && (100000 <? last_bonus)%Z then
    add_pos 2 "Comp indicates hunter profile" s
  else if (base_salary <=? 150000)%Z && (last_bonus <=? 50000)%Z then
    add_neg (-1) "Low comp indicates inherited/low portability" s
  else add_flag "Comp neutral – clarify origin of book" s.

Definition score_roa (avg_roa : float) (s : Scoring) : Scoring :=
  if PrimFloat.leb 1 avg_roa then
    add_pos 2 ("Avg ROA " ++ Py.format_f 2 avg_roa ++ "% (excellent)") s
  else if PrimFloat.leb 0.8 avg_roa then
    add_pos 1 ("Avg ROA " ++ Py.format_f 2 avg_roa ++ "% (acceptable)") s
  else
    add_neg 0 ("Avg ROA " ++ Py.format_f 2 avg_roa ++ "% is low") s.

Definition score_clients (current_number_clients : Z) (s : Scoring)
  : Scoring :=
  if (current_number_clients =? 0)%Z then add_flag "Clients not provided" s
  else if (80 <? current_number_clients)%Z then
    add_neg 0
      ("High client count (" ++ Py.str_int current_number_clients
       ++ ") – likely lower segment") s
  else add_pos 1 "Client load appropriate (≤80)" s.

Definition tolerance_pct : Z := 10.

(** [tol = tolerance_pct / 100.0]. *)
Definition tol : float := of_int tolerance_pct / 100.

Definition score_prospects (nnm_y1 : float) (prospects_list : list Prospect)
    (s : Scoring) : Scoring :=
  let nnm_y1_val := or_zero nnm_y1 in
  let best_sum := best_sum prospects_list in
  if PrimFloat.eqb nnm_y1_val 0 && PrimFloat.eqb best_sum 0 then
    add_flag "Prospects & NNM Y1 both zero" s
  else if PrimFloat.leb (abs (best_sum - nnm_y1_val))
                        (tol * py_max nnm_y1_val 1e-9) then
    add_pos 1
      ("Prospects Best NNM " ++ Py.format_f 1 best_sum ++ "M ≈ NNM Y1 "
       ++ Py.format_f 1 nnm_y1_val ++ "M") s
  else
    add_neg 0
      ("Prospects " ++ Py.format_f 1 best_sum ++ "M vs NNM Y1 "
       ++ Py.format_f 1 nnm_y1_val ++ "M (> " ++ Py.str_int tolerance_pct
       ++ "% dev)") s.

Definition verdict (score : Z) : string :=
  if (7 <=? score)%Z then "🟢 Strong Candidate"
  else if (4 <=? score)%Z then "🟡 Medium Potential"
  else "🔴 Weak Candidate".

Definition scoring_start : Scoring :=
  {| score := 0; reasons_pos := []; reasons_neg := []; flags := [] |}.

(** The scoring block from [score = 0] to the last criterion. *)
Definition scoring (f : Form) (prospects_list : list Prospect) : Scoring :=
  score_prospects (nnm_y1 f) prospects_list
    (score_clients (current_number_clients f)
      (score_roa (avg_roa f)
        (score_comp (base_salary f) (last_bonus f)
          (score_aum (current_market f) (current_assets f)
            (score_experience (years_experience f) scoring_start))))).


(** ** Record sent to the sheet *)

(** [_build_data_dict]; [now] is the formatted clock reading, [score] and
    [verdict] are the values read back from the session. *)
Definition _build_data_dict (f : Form) (now : string) (score verdict : pyval)
  : dict :=
  let rev (nnm roa : float) := nnm * roa / 100 * 1000000 in
  let costs := of_int (base_salary f) * 1.25 * 3 in
  let total_rev_3y :=
    ((nnm_y1 f * roa_y1 f) + (nnm_y2 f * roa_y2 f) + (nnm_y3 f * roa_y3 f))
    / 100 * 1000000 in
  let profit_margin_pct :=
    if PrimFloat.ltb 0 total_rev_3y
    then ((total_rev_3y - costs) / total_rev_3y) * 100
    else 0 in
  let total_profit_3y :=
    (rev (nnm_y1 f) (roa_y1 f) + rev (nnm_y2 f) (roa_y2 f)
     + rev (nnm_y3 f) (roa_y3 f)) - costs in
  [ ("Timestamp", VStr now);
    ("Candidate Name", VStr (candidate_name f));
    ("Candidate Email", VStr (candidate_email f));
    ("Current Role", VStr (current_role f));
    ("Candidate Location", VStr (candidate_location f));
    ("Current Employer", VStr (current_employer f));
    ("Current Market", VStr (current_market f));
    ("Currency", VStr (currency f));
    ("Base Salary", VInt (base_salary f));
    ("Last Bonus", VInt (last_bonus f));
    ("Current Number of Clients", VInt (current_number_clients f));
    ("Current AUM (M CHF)", VFloat (current_assets f));
    ("NNM Year 1 (M CHF)", VFloat (nnm_y1 f));
    ("NNM Year 2 (M CHF)", VFloat (nnm_y2 f));
    ("NNM Year 3 (M CHF)", VFloat (nnm_y3 f));
    ("Revenue Year 1 (CHF)", VFloat (rev (nnm_y1 f) (roa_y1 f)));
    ("Revenue Year 2 (CHF)", VFloat (rev (nnm_y2 f) (roa_y2 f)));
    ("Revenue Year 3 (CHF)", VFloat (rev (nnm_y3 f) (roa_y3 f)));
    ("Total Revenue 3Y (CHF)", VFloat total_rev_3y);
    ("Profit Margin (%)", VFloat profit_margin_pct);
    ("Total Profit 3Y (CHF)", VFloat total_profit_3y);
    ("Score", score);
    ("AI Evaluation Notes", verdict) ].

Local Close Scope float_scope.

(** ** The sheet, the session and the messages *)

(** The worksheet: its first row and the rows below it. *)
Record Worksheet := {
  header : list string;
  rows : list (list pyval)
}.

(** The remote end: the worksheet and the outcomes of the coming remote
    calls, [Some e] for a call that raises with text [e]; calls beyond the
    script succeed. *)
Record Remote := {
  sheet : Worksheet;
  outcomes : list (option string)
}.

Inductive result (A : Type) :=
| Ok (a : A)
| Raise (e : string).
Arguments Ok {A} a.
Arguments Raise {A} e.

Definition remote_call {A : Type} (op : Worksheet -> A * Worksheet)
    (r : Remote) : result A * Remote :=
  match outcomes r with
  | Some e :: rest => (Raise e, {| sheet := sheet r; outcomes := rest |})
  | o =>
      let '(a, ws) := op (sheet r) in
      (Ok a, {| sheet := ws; outcomes := List.tl o |})
  end.

(** [ws.row_values(1)]. *)
Definition row_values_1 (ws : Worksheet) : list string * Worksheet :=
  (header ws, ws).

(** [ws.append_row(row, ...)]. *)
Definition append_row (row : list pyval) (ws : Worksheet) : unit * Worksheet :=
  (tt, {| header := header ws; rows := (rows ws ++ [row])%list |}).

(** [append_in_header_order]. *)
Definition append_in_header_order (data_dict : dict) (r : Remote)
  : result unit * Remote :=
  match remote_call row_values_1 r with
  | (Raise e, r1) => (Raise e, r1)
  | (Ok hs, r1) =>
      let headers := match hs with [] => HEADER_ORDER | _ => hs end in
      let row := List.map (fun h => get data_dict h (VStr "")) headers in
      remote_call (append_row row) r1
  end.

(** What the page shows: [st.info], [st.success], [st.warning],
    [st.error]. *)
Inductive message :=
| Info (s : string)
| Success (s : string)
| Warning (s : string)
| Error (s : string).

Record State := {
  session_state : gmap string pyval;
  prospects_list : list Prospect;
  remote : Remote;
  ui : list message
}.

Definition show (m : message) (st : State) : State :=
  {| session_state := session_state st; prospects_list := prospects_list st;
     remote := remote st; ui := (ui st ++ [m])%list |}.

Definition set_session (k : string) (v : pyval) (st : State) : State :=
  {| session_state := <[k := v]> (session_state st);
     prospects_list := prospects_list st;
     remote := remote st; ui := ui st |}.

Definition set_remote (r : Remote) (st : State) : State :=
  {| session_state := session_state st; prospects_list := prospects_list st;
     remote := r; ui := ui st |}.

(** ** Validation and save *)

Definition _email_valid (e : string) : bool :=
  Py.contains "@" e
  && Py.contains "."
       (if Py.contains "@" e then Py.last_item (Py.split "@" e) else "").

Definition _inputs_ok_for_save (f : Form) : bool * string :=
  let missing := [] in
  let missing :=
    if negb (_email_valid (candidate_email f))
    then (missing ++ ["Candidate Email (valid)"])%list else missing in
  let missing :=
    if String.eqb (candidate_location f) "— Select —"
    then (missing ++ ["Candidate Location"])%list else missing in
  ((List.length missing =? 0)%nat, Py.join ", " missing).

(** [_save_to_sheet_if_possible]; [worksheet] tells whether the connection
    gave a worksheet. *)
Definition _save_to_sheet_if_possible (worksheet : bool) (data_dict : dict)
    (reason : string) (st : State) : bool * State :=
  if negb worksheet then
    (false, show (Warning "⚠️ Google Sheet connection not available.") st)
  else
    let sig := _make_signature data_dict in
    if eq_str (session_state st !! "_last_sig") sig then
      (false, show (Info "Already saved. No duplicate entry created.") st)
    else
      match append_in_header_order data_dict (remote st) with
      | (Ok _, r) =>
          let st := set_session "_last_sig" (VStr sig) (set_remote r st) in
          (true,
           show (Success (if negb (String.eqb reason "")
                          then "✅ Saved to Google Sheet (" ++ reason ++ ")."
                          else "✅ Saved to Google Sheet.")) st)
      | (Raise e, r) =>
          (false,
           show (Error ("Error saving to Google Sheet: " ++ e))
                (set_remote r st))
      end.

(** The key of the always-on auto-save. *)
Definition current_hash (f : Form) : string :=
  Json.dumps ", " ": "
    [ ("email", VStr (candidate_email f));
      ("nnm", VList [VFloat (nnm_y1 f); VFloat (nnm_y2 f); VFloat (nnm_y3 f)]);
      ("aum", VFloat (current_assets f));
      ("base", VInt (base_salary f)) ].

(** The block "Validation + actions" at the end of the script. *)
Definition save_actions (AUTO_SAVE_MODE : string) (worksheet : bool)
    (f : Form) (candidate_dict : dict)
    (download_clicked manual_clicked : bool) (st : State) : State :=
  let '(ok_to_save, missing_msg) := _inputs_ok_for_save f in
  let st :=
    if String.eqb AUTO_SAVE_MODE "always" && ok_to_save then
      let st :=
        if negb (match session_state st !! "_autosaved_hash" with
                 | Some v => truthy v
                 | None => false
                 end)
        then set_session "_autosaved_hash" (VStr "") st else st in
      if negb (eq_str (session_state st !! "_autosaved_hash") (current_hash f))
      then
        match _save_to_sheet_if_possible worksheet candidate_dict
                "AUTO (always)" st with
        | (true, st') =>
            set_session "_autosaved_hash" (VStr (current_hash f)) st'
        | (false, st') => st'
        end
      else st
    else st in
  let st :=
    if String.eqb AUTO_SAVE_MODE "on_pdf" && download_clicked then
      if ok_to_save then
        snd (_save_to_sheet_if_possible worksheet candidate_dict
               "PDF generated" st)
      else show (Warning ("Not saved — missing: " ++ missing_msg)) st
    else st in
  if manual_clicked then
    if ok_to_save then
      snd (_save_to_sheet_if_possible worksheet candidate_dict "manual" st)
    else show (Error ("Please complete the required fields: " ++ missing_msg)) st
  else st.

(** One run of the script from the scoring block on: the score and the
    verdict go through the session, the record is built once, and the
    save triggers fire. *)
Definition script_run (AUTO_SAVE_MODE : string) (worksheet : bool)
    (now : string) (f : Form) (download_clicked manual_clicked : bool)
    (st : State) : State :=
  let s := scoring f (prospects_list st) in
  let st := set_session "_score" (VInt (score s)) st in
  let st := set_session "_verdict" (VStr (verdict (score s))) st in
  let score := default (VInt 0) (session_state st !! "_score") in
  let verdict := default (VStr "") (session_state st !! "_verdict") in
  let candidate_dict := _build_data_dict f now score verdict in
  save_actions AUTO_SAVE_MODE worksheet f candidate_dict
    download_clicked manual_clicked st.

(** ** Relations between records *)

(** [d2] holds the items of [d1], supplied in another order. *)
Definition reordered (d1 d2 : dict) : Prop :=
  wf_dict d1 /\ Permutation d1 d2.

(** [d1] and [d2] agree on every key outside [ks]. *)
Definition differ_only_on (ks : list string) (d1 d2 : dict) : Prop :=
  forall k, ~ List.In k ks -> lookup_key d1 k = lookup_key d2 k.

(** Two values are alike for the signature when they are equal, or are
    floats that print alike with six decimals. *)
Definition alike (v1 v2 : pyval) : Prop :=
  v1 = v2 \/
  exists x y, v1 = VFloat x /\ v2 = VFloat y
              /\ Py.format_f 6 x = Py.format_f 6 y.

(** The two records hold alike values on every signature field. *)
Definition same_after_rounding (d1 d2 : dict) : Prop :=
  forall k, List.In k signature_fields ->
    alike (get d1 k (VStr "")) (get d2 k (VStr "")).

(** Two floats less than [1e-6] apart. *)
Definition noise_below_1e6 (x y : float) : Prop :=
  PrimFloat.ltb (abs (x - y)) 1e-6 = true.

(** An address with an at sign and, somewhere after it, a dot. *)
Definition plausible_email (e : string) : Prop :=
  exists a b c, e = a ++ "@" ++ b ++ "." ++ c.

(** The notice shown for a duplicate. *)
Definition already_saved : message :=
  Info "Already saved. No duplicate entry created.".

(** ** Sample inputs *)

(** The candidate of the end-to-end example, with the current assets left
    open. *)
Definition sample_form (assets : float) : Form :=
  {| candidate_name := "Jane Smith";
     candidate_email := "jane.smith@bank.ch";
     years_experience := 7;
     current_role := "Director";
     candidate_location := "Zurich";
     current_employer := "UBS";
     current_market := "CH Onshore";
     currency := "CHF";
     base_salary := 250000;
     last_bonus := 150000;
     current_number_clients := 40;
     current_assets := assets;
     nnm_y1 := 10%float;
     nnm_y2 := 12%float;
     nnm_y3 := 15%float;
     roa_y1 := 1.2%float;
     roa_y2 := 1.1%float;
     roa_y3 := 1.0%float |}.

(** Two prospects whose best cases add up to 10.5. *)
Definition sample_prospects : list Prospect :=
  [ {| p_name := "Family office A"; p_source := "Self Acquired";
       p_wealth := 80%float; p_best := 4%float; p_worst := 1%float |};
    {| p_name := "Entrepreneur B"; p_source := "Finder";
       p_wealth := 120%float; p_best := 6.5%float; p_worst := 2%float |} ].

Definition sample_record (assets : float) (now : string) : dict :=
  _build_data_dict (sample_form assets) now (VInt 10)
    (VStr "🟢 Strong Candidate").

Definition empty_sheet : Worksheet :=
  {| header := HEADER_ORDER; rows := [] |}.

(** A fresh session in front of a sheet whose coming calls follow
    [script]. *)
Definition fresh_state (script : list (option string)) : State :=
  {| session_state := ∅; prospects_list := sample_prospects;
     remote := {| sheet := empty_sheet; outcomes := script |};
     ui := [] |}.

(** Records for the signature: the sample at two instants, and with
    current assets that differ by small amounts. *)
Definition record_at_10h : dict := sample_record 260 "2025-03-01 10:00:00".
Definition record_at_11h : dict := sample_record 260 "2025-03-01 11:00:00".
Definition record_260_0000001 : dict :=
  sample_record 260.0000001 "2025-03-01 10:00:00".
Definition record_260_0000004 : dict :=
  sample_record 260.0000004 "2025-03-01 10:00:00".
Definition record_260_0000006 : dict :=
  sample_record 260.0000006 "2025-03-01 10:00:00".

(** The fresh state after one manual save of the sample record. *)
Definition saved_once : State :=
  snd (_save_to_sheet_if_possible true record_at_10h "manual" (fresh_state [])).

(** A sheet whose header can be read but whose next append fails. *)
Definition failing_state : State :=
  fresh_state [None; Some "APIError: [429] quota exceeded"].

Definition after_failure : State :=
  snd (_save_to_sheet_if_possible true record_at_10h "manual" failing_state).

(** The sample record with another score. *)
Definition record_rescored : dict :=
  setitem record_at_10h "Score" (VInt 4).

(** A junior candidate with a small book and low compensation. *)
Definition weak_form : Form :=
  {| candidate_name := "John Doe";
     candidate_email := "john.doe@bank.co.uk";
     years_experience := 3;
     current_role := "Assistant Relationship Manager";
     candidate_location := "London";
     current_employer := "Barclays";
     current_market := "UK";
     currency := "CHF";
     base_salary := 90000;
     last_bonus := 10000;
     current_number_clients := 150;
     current_assets := 35.5%float;
     nnm_y1 := 20%float;
     nnm_y2 := 25%float;
     nnm_y3 := 30%float;
     roa_y1 := 0.6%float;
     roa_y2 := 0.7%float;
     roa_y3 := 0.7%float |}.

(** The sample form before the location is chosen, with no address. *)
Definition incomplete_form : Form :=
  {| candidate_name := "Jane Smith";
     candidate_email := "";
     years_experience := 7;
     current_role := "Director";
     candidate_location := "— Select —";
     current_employer := "UBS";
     current_market := "CH Onshore";
     currency := "CHF";
     base_salary := 250000;
     last_bonus := 150000;
     current_number_clients := 40;
     current_assets := 260%float;
     nnm_y1 := 10%float;
     nnm_y2 := 12%float;
     nnm_y3 := 15%float;
     roa_y1 := 1.2%float;
     roa_y2 := 1.1%float;
     roa_y3 := 1.0%float |}.

(** Keys pairwise distinct, as a check. *)
Fixpoint distinct_keys (l : list string) : bool :=
  match l with
  | [] => true
  | k :: r => forallb (fun k' => negb (String.eqb k k')) r && distinct_keys r
  end.

(** ** Further parts of the script *)

(** The columns of the sheet that the signature leaves out. *)
Definition unsigned_columns : list string :=
  ["Timestamp"; "Score"; "AI Evaluation Notes"].

(** Lower-case hexadecimal digits. *)
Definition is_hex_lower (c : ascii) : bool :=
  let n := Py.ord c in
  ((48 <=? n) && (n <=? 57)) || ((97 <=? n) && (n <=? 102)).

Fixpoint all_hex_lower (s : string) : bool :=
  match s with
  | EmptyString => true
  | String a r => is_hex_lower a && all_hex_lower r
  end.

(** [needle in hay] for two strings. *)
Fixpoint str_in (needle hay : string) : bool :=
  String.prefix needle hay
  || match hay with
     | EmptyString => false
     | String _ r => str_in needle r
     end.

(** The fit indicator of the sidebar, from the verdict kept in the
    session. The sidebar is drawn before the scoring block of the run. *)
Definition _verdict_preview (v : string) : string :=
  if str_in "🟢" v then "🟢 Strong"
  else if str_in "🟡" v then "🟡 Medium"
  else if str_in "🔴" v then "🔴 Weak"
  else "—".

(** [None] stands for the [TypeError] of [in] on a stored value that is
    not a string. *)
Definition fit_indicator (st : State) : option string :=
  match session_state st !! "_verdict" with
  | None => Some (_verdict_preview "")
  | Some (VStr v) => Some (_verdict_preview v)
  | Some _ => None
  end.

(** The label of the tier of a score. *)
Definition tier_label (sc : Z) : string :=
  if 7 <=? sc then "🟢 Strong"
  else if 4 <=? sc then "🟡 Medium"
  else "🔴 Weak".

(** The sample record with the salary typed as text, and with the name
    field taken away. *)
Definition record_salary_as_text : dict :=
  setitem record_at_10h "Base Salary" (VStr " 250_000.0 ").

Definition record_salary_as_float : dict :=
  setitem record_at_10h "Base Salary" (VFloat 250000%float).

Definition record_without_role : dict :=
  List.filter (fun kv => negb (String.eqb (fst kv) "Current Role"))
    record_at_10h.

(** The row that an append of [d] writes under the header [hs]. *)
Definition row_of (d : dict) (hs : list string) : list pyval :=
  List.map (fun h => get d h (VStr ""))
    (match hs with [] => HEADER_ORDER | _ => hs end).

(** What the save triggers of one run keep true, from the state [st0] at
    their start, for the record [d] of the run: the header, the prospect
    list and the session keys other than the two of the save path are
    untouched, the messages shown so far stay, and either no row has been
    added, or the row of [d] has been added once and the signature of [d]
    is the stored one. *)
Definition run_invariant (st0 : State) (d : dict) (st : State) : Prop :=
  header (sheet (remote st)) = header (sheet (remote st0))
  /\ prospects_list st = prospects_list st0
  /\ (exists ms, ui st = (ui st0 ++ ms)%list)
  /\ (forall k, k <> "_last_sig" -> k <> "_autosaved_hash" ->
        session_state st !! k = session_state st0 !! k)
  /\ (rows (sheet (remote st)) = rows (sheet (remote st0))
      \/ (rows (sheet (remote st))
          = (rows (sheet (remote st0))
             ++ [row_of d (header (sheet (remote st0)))])%list
          /\ eq_str (session_state st !! "_last_sig") (_make_signature d)
             = true)).

(** ** The prospects editor (section 3 of the script) *)

Local Open Scope float_scope.

(** [float(v)]; [None] stands for the exception raised. *)
Definition py_float (v : pyval) : option float :=
  match v with
  | VFloat f => Some f
  | VInt z => Py.float_of_int z
  | VStr s => Py.float_of_str s
  | VList _ => None
  end.

(** [s.strip()]. *)
Definition str_strip (s : string) : string := Py.strip s.

(** The three sources a prospect can have. *)
Definition SOURCES : list string := ["Self Acquired"; "Inherited"; "Finder"].

(** One turn of the loop over the three amounts of [_validate_row]. *)
Definition check_amount (errs : list string) (lv : string * pyval)
  : list string :=
  match py_float (snd lv) with
  | Some x =>
      if PrimFloat.ltb x 0
      then (errs ++ [(fst lv ++ " must be ≥ 0.")%string])%list
      else errs
  | None => (errs ++ [(fst lv ++ " must be a number.")%string])%list
  end.

Definition _validate_row (name source : string) (wealth best worst : pyval)
  : list string :=
  let errs := [] in
  let errs :=
    if String.eqb name "" || String.eqb (str_strip name) ""
    then (errs ++ ["Name is required."])%list else errs in
  let errs :=
    if negb (existsb (String.eqb source) SOURCES)
    then (errs ++ ["Source must be Self Acquired / Inherited / Finder."])%list
    else errs in
  fold_left check_amount
    [("Wealth (M)", wealth); ("Best NNM (M)", best); ("Worst NNM (M)", worst)]
    errs.

(** The values the five entry widgets return in one run. *)
Record Widgets := {
  p_name_input : string;
  p_source_input : string;
  p_wealth_input : float;
  p_best_input : float;
  p_worst_input : float
}.

(** The button pressed in one run, if any; the row buttons carry the
    position of their row. A disabled button cannot be pressed: a press
    on it counts for nothing. *)
Inductive Click :=
| NoClick
| AddClick
| UpdateClick
| CancelClick
| EditClick (i : nat)
| DeleteClick (i : nat).

Definition set_prospects (l : list Prospect) (st : State) : State :=
  {| session_state := session_state st; prospects_list := l;
     remote := remote st; ui := ui st |}.

(** A row of an uploaded table: the name and the source as read, and for
    each amount the number that [pd.to_numeric] finds in the cell, if it
    finds one. The model covers tables whose names and sources are texts;
    an amount read as an integer is taken at its float value. *)
Record CsvRow := {
  c_name : string;
  c_source : string;
  c_wealth : option float;
  c_best : option float;
  c_worst : option float
}.

(** What the uploader and [pd.read_csv] hand to the script in one run: no
    file; an exception raised inside the [try] block, with its text; or
    the table read, with its column labels and its rows. *)
Inductive Upload :=
| NoFile
| Unreadable (e : string)
| Table (columns : list string) (table_rows : list CsvRow).

Definition needed : list string :=
  ["Name"; "Source"; "Wealth (M)"; "Best NNM (M)"; "Worst NNM (M)"].

(** [pd.to_numeric(..., errors="coerce").fillna(0.0)] on one cell. *)
Definition to_numeric_fillna (cell : option float) : float :=
  match cell with
  | Some x => if PrimFloat.is_nan x then 0 else x
  | None => 0
  end.

(** One entry of [df_up[needed].to_dict(orient="records")]. *)
Definition record_of (r : CsvRow) : Prospect :=
  {| p_name := c_name r; p_source := c_source r;
     p_wealth := to_numeric_fillna (c_wealth r);
     p_best := to_numeric_fillna (c_best r);
     p_worst := to_numeric_fillna (c_worst r) |}.

(** The first needed column that the table lacks, once the labels have
    been stripped. *)
Definition missing_column (columns : list string) : option string :=
  let columns := List.map str_strip columns in
  List.find (fun c => negb (existsb (String.eqb c) columns)) needed.

(** The import block. *)
Definition import_csv (up : Upload) (st : State) : State :=
  match up with
  | NoFile => st
  | Unreadable e => show (Error ("Import failed: " ++ e)) st
  | Table columns table_rows =>
      match missing_column columns with
      | Some c => show (Error ("Missing column in CSV: " ++ c)) st
      | None =>
          show (Success ("Imported "
                         ++ Py.str_int (Z.of_nat (List.length table_rows))
                         ++ " prospects."))
            (set_prospects
               (prospects_list st ++ List.map record_of table_rows)%list st)
      end
  end.

(** The rows that the import block adds to the list. *)
Definition imported (up : Upload) : list Prospect :=
  match up with
  | Table columns table_rows =>
      match missing_column columns with
      | Some _ => []
      | None => List.map record_of table_rows
      end
  | _ => []
  end.

(** [if k not in st.session_state: st.session_state[k] = v]. *)
Definition set_default (k : string) (v : pyval) (st : State) : State :=
  match session_state st !! k with
  | None => set_session k v st
  | Some _ => st
  end.

(** The defaults set at the top of the section. The prospect list is a
    list from the start in this model. *)
Definition init_editor (st : State) : State :=
  set_default "p_worst" (VFloat 0)
    (set_default "p_best" (VFloat 0)
      (set_default "p_wealth" (VFloat 0)
        (set_default "p_source" (VStr "Self Acquired")
          (set_default "p_name" (VStr "")
            (set_default "edit_index" (VInt (-1)) st))))).

(** The entry widgets: each keeps its value under its own key, and the
    script copies the value into the entry field. *)
Definition editor_widgets (w : Widgets) (st : State) : State :=
  set_session "p_worst" (VFloat (p_worst_input w))
    (set_session "p_worst_input" (VFloat (p_worst_input w))
      (set_session "p_best" (VFloat (p_best_input w))
        (set_session "p_best_input" (VFloat (p_best_input w))
          (set_session "p_wealth" (VFloat (p_wealth_input w))
            (set_session "p_wealth_input" (VFloat (p_wealth_input w))
              (set_session "p_source" (VStr (p_source_input w))
                (set_session "p_source_input" (VStr (p_source_input w))
                  (set_session "p_name" (VStr (p_name_input w))
                    (set_session "p_name_input" (VStr (p_name_input w))
                       st))))))))).

Definition _reset_form (st : State) : State :=
  set_session "p_worst" (VFloat 0)
    (set_session "p_best" (VFloat 0)
      (set_session "p_wealth" (VFloat 0)
        (set_session "p_source" (VStr "Self Acquired")
          (set_session "p_name" (VStr "") st)))).

(** [st.session_state.edit_index] as an integer; [None] when the key
    holds something else. *)
Definition edit_index (st : State) : option Z :=
  match session_state st !! "edit_index" with
  | Some (VInt z) => Some z
  | _ => None
  end.

(** The result of [_validate_row] on the entry fields; [None] when a
    field is missing or the name or source is not a string. *)
Definition entry_errors (st : State) : option (list string) :=
  match session_state st !! "p_name", session_state st !! "p_source",
        session_state st !! "p_wealth", session_state st !! "p_best",
        session_state st !! "p_worst" with
  | Some (VStr n), Some (VStr s), Some w, Some b, Some x =>
      Some (_validate_row n s w b x)
  | _, _, _, _, _ => None
  end.

(** The dictionary that the add and update branches build from the entry
    fields. *)
Definition entry_prospect (st : State) : option Prospect :=
  match session_state st !! "p_name", session_state st !! "p_source",
        session_state st !! "p_wealth", session_state st !! "p_best",
        session_state st !! "p_worst" with
  | Some (VStr n), Some (VStr s), Some w, Some b, Some x =>
      match py_float w, py_float b, py_float x with
      | Some fw, Some fb, Some fx =>
          Some {| p_name := str_strip n; p_source := s; p_wealth := fw;
                  p_best := fb; p_worst := fx |}
      | _, _, _ => None
      end
  | _, _, _, _, _ => None
  end.

(** ["\n".join(f"• {e}" for e in errs)]. *)
Definition bullet_list (errs : list string) : string :=
  Py.join (String (Py.chr 10) "") (List.map (fun e => "• " ++ e) errs).

(** [l[idx] = v] on a list: a negative index counts from the end; [None]
    stands for [IndexError]. *)
Definition list_setitem {A : Type} (l : list A) (idx : Z) (v : A)
  : option (list A) :=
  let n := Z.of_nat (List.length l) in
  let i := if (idx <? 0)%Z then (idx + n)%Z else idx in
  if (0 <=? i)%Z && (i <? n)%Z then Some (<[Z.to_nat i := v]> l) else None.

Definition on_add (st : State) : option State :=
  match entry_errors st with
  | None => None
  | Some [] =>
      match entry_prospect st with
      | Some p =>
          Some (show (Success "Prospect added.")
                  (_reset_form
                     (set_prospects (prospects_list st ++ [p])%list st)))
      | None => None
      end
  | Some errs => Some (show (Error (bullet_list errs)) st)
  end.

Definition on_update (st : State) : option State :=
  match edit_index st with
  | None => None
  | Some idx =>
      match entry_errors st with
      | None => None
      | Some [] =>
          match entry_prospect st with
          | Some p =>
              match list_setitem (prospects_list st) idx p with
              | Some l =>
                  Some (show (Success "Prospect updated.")
                          (_reset_form
                             (set_session "edit_index" (VInt (-1))
                                (set_prospects l st))))
              | None => None
              end
          | None => None
          end
      | Some errs => Some (show (Error (bullet_list errs)) st)
      end
  end.

Definition on_cancel (st : State) : State :=
  show (Info "Edit cancelled.")
    (_reset_form (set_session "edit_index" (VInt (-1)) st)).

Definition on_edit (i : nat) (row : Prospect) (st : State) : State :=
  set_session "p_worst" (VFloat (or_zero (p_worst row)))
    (set_session "p_best" (VFloat (or_zero (p_best row)))
      (set_session "p_wealth" (VFloat (or_zero (p_wealth row)))
        (set_session "p_source"
           (VStr (if existsb (String.eqb (p_source row)) SOURCES
                  then p_source row else "Self Acquired"))
          (set_session "p_name" (VStr (p_name row))
            (set_session "edit_index" (VInt (Z.of_nat i)) st))))).

(** Section 3 in one run: defaults, import, entry widgets, the add,
    update and cancel branches, then the row buttons. The result is [None]
    when the run stops on an exception; the flag tells whether the run was
    cut short by [st.rerun()]. *)
Definition section3 (up : Upload) (w : Widgets) (c : Click) (st : State)
  : option (State * bool) :=
  let st := editor_widgets w (import_csv up (init_editor st)) in
  match edit_index st with
  | None => None
  | Some ei =>
      let editing := negb (ei =? -1)%Z in
      let handled :=
        match c with
        | AddClick => if editing then Some st else on_add st
        | UpdateClick => if editing then on_update st else Some st
        | CancelClick => if editing then Some (on_cancel st) else Some st
        | _ => Some st
        end in
      match handled with
      | None => None
      | Some st =>
          match c with
          | EditClick i =>
              match prospects_list st !! i with
              | Some row => Some (on_edit i row st, true)
              | None => Some (st, false)
              end
          | DeleteClick i =>
              match prospects_list st !! i with
              | Some _ =>
                  Some (set_prospects (delete i (prospects_list st)) st, true)
              | None => Some (st, false)
              end
          | _ => Some (st, false)
          end
      end
  end.

(** A prospect as the entry form lets it through. *)
Definition well_formed (p : Prospect) : Prop :=
  p_name p <> ""
  /\ List.In (p_source p) SOURCES
  /\ PrimFloat.ltb (p_wealth p) 0 = false
  /\ PrimFloat.ltb (p_best p) 0 = false
  /\ PrimFloat.ltb (p_worst p) 0 = false.

(** An amount that [_validate_row] lets through. *)
Definition amount_ok (v : pyval) : Prop :=
  exists x, py_float v = Some x /\ PrimFloat.ltb x 0 = false.

Local Close Scope float_scope.

(** Entries for the editor. *)
Definition entry_c : Widgets :=
  {| p_name_input := "  Trust C ";
     p_source_input := "Inherited";
     p_wealth_input := 60%float;
     p_best_input := 3%float;
     p_worst_input := 0.5%float |}.

Definition entry_blank : Widgets :=
  {| p_name_input := "   ";
     p_source_input := "Finder";
     p_wealth_input := 0%float;
     p_best_input := 0%float;
     p_worst_input := 0%float |}.

(** Texts with characters outside ASCII, byte by byte: a no-break space
    followed by an ideographic space; the fullwidth digits one and two. *)
Definition wide_blanks : string :=
  String (Py.chr 194) (String (Py.chr 160)
    (String (Py.chr 227) (String (Py.chr 128) (String (Py.chr 128) "")))).

Definition fullwidth_12 : string :=
  String (Py.chr 239) (String (Py.chr 188) (String (Py.chr 145)
    (String (Py.chr 239) (String (Py.chr 188) (String (Py.chr 146) ""))))).

(** An uploaded table of two rows: one complete, one with a blank name, a
    source outside the list, an amount below zero and an empty cell. *)
Definition sample_columns : list string :=
  ["Name"; " Source"; "Wealth (M) "; "Best NNM (M)"; "Worst NNM (M)";
   "Comment"].

Definition sample_rows : list CsvRow :=
  [ {| c_name := "Pension fund D"; c_source := "Inherited";
       c_wealth := Some 200%float; c_best := Some 8%float;
       c_worst := Some 2.5%float |};
    {| c_name := " "; c_source := "Referral";
       c_wealth := Some (-5)%float; c_best := None;
       c_worst := Some nan |} ].

Definition sample_upload : Upload := Table sample_columns sample_rows.

(** Prospect lists for the consistency criterion: nine prospects with a
    best case of 0.1 each; one prospect with a best case of 5e-11; one
    prospect whose best case is missing. *)
Definition prospect_with_best (x : float) : Prospect :=
  {| p_name := "P"; p_source := "Finder"; p_wealth := 1%float;
     p_best := x; p_worst := 0%float |}.

Definition nine_prospects : list Prospect :=
  List.repeat (prospect_with_best 0.1%float) 9.



(** * Properties *)

(** ** The Python model on known values *)

Example sha256_abc :
  Sha256.hexdigest "abc"
  = "ba7816bf8f01cfea414140de5dae2223b00361a396177a9cb410ff61f20015ad".
Proof. vm_compute. reflexivity. Qed.

Example sha256_empty :
  Sha256.hexdigest ""
  = "e3b0c44298fc1c149afbf4c8996fb92427ae41e4649b934ca495991b7852b855".
Proof. vm_compute. reflexivity. Qed.

Example format_six_decimals :
  Py.format_f 6 10.0000004%float = "10.000000"
  /\ Py.format_f 6 10.0000006%float = "10.000001"
  /\ Py.format_f 6 (-0.0000001)%float = "-0.000000"
  /\ Py.format_f 0 2.5%float = "2"
  /\ Py.format_f 2 1.005%float = "1.00".
Proof. vm_compute. repeat split. Qed.

Example repr_examples :
  Py.repr_float 1e-6%float = "1e-06"
  /\ Py.repr_float 250000%float = "250000.0"
  /\ Py.repr_float 1e16%float = "1e+16"
  /\ Py.repr_float ((1.2 + 1.1 + 1.0) / 3)%float = "1.0999999999999999".
Proof. vm_compute. repeat split. Qed.

Example float_of_str_examples :
  Py.float_of_str "1_000.5" = Some 1000.5%float
  /\ Py.float_of_str " 2 " = Some 2%float
  /\ Py.float_of_str "Jane" = None
  /\ Py.float_of_str "" = None
  /\ Py.float_of_str "1e400" = Some infinity.
Proof. vm_compute. repeat split. Qed.

Example float_of_str_unicode :
  Py.float_of_str fullwidth_12 = Some 12%float
  /\ Py.float_of_str (wide_blanks ++ "5") = Some 5%float
  /\ Py.float_of_str (String (Py.chr 28) "5") = None
  /\ Py.float_of_str (String (Py.chr 28) fullwidth_12) = None
  /\ Py.float_of_str ("5" ++ String (Py.chr 11) "") = Some 5%float
  /\ Py.float_of_str "5é" = None
  /\ Py.float_of_str "1__0" = None
  /\ Py.float_of_str "1e1_0" = Some 1e10%float
  /\ _canonicalize_number (VStr fullwidth_12) = VFloat 12%float
  /\ _canonicalize_number (VStr (String (Py.chr 28) "5"))
     = VStr (String (Py.chr 28) "5").
Proof. vm_compute. repeat split. Qed.

Example strip_examples :
  str_strip (wide_blanks ++ " Trust C" ++ String (Py.chr 28) "") = "Trust C"
  /\ str_strip wide_blanks = ""
  /\ str_strip " é à " = "é à"
  /\ str_strip (String (Py.chr 127) "") = String (Py.chr 127) "".
Proof. vm_compute. repeat split. Qed.

Example canonicalize_examples :
  _canonicalize_number (VInt 250000) = VFloat 250000%float
  /\ _canonicalize_number (VStr "Jane Smith") = VStr "Jane Smith"
  /\ _canonicalize_number (VStr "") = VStr ""
  /\ _canonicalize_number (VFloat 1.23456789%float) = VFloat 1.234568%float
  /\ _canonicalize_number (VStr "42") = VFloat 42%float.
Proof. vm_compute. repeat split. Qed.

Example json_dumps_example :
  Json.dumps "," ":"
    [("b", VStr "— Select —"); ("a", VFloat 1e-6%float); ("C", VInt (-5));
     ("v", VStr "🟢 ok"); ("n", VList [VFloat 10%float; VFloat nan])]
  = "{" ++ Json.quote "C" ++ ":-5," ++ Json.quote "a" ++ ":1e-06,"
    ++ Json.quote "b" ++ ":" ++ Json.quote "— Select —" ++ ","
    ++ Json.quote "n" ++ ":[10.0,NaN]," ++ Json.quote "v" ++ ":"
    ++ Json.quote "🟢 ok" ++ "}"
  /\ Json.quote "— Select —"
     = String (Py.chr 34) "\u2014 Select \u2014" ++ String (Py.chr 34) ""
  /\ Json.quote "🟢 ok"
     = String (Py.chr 34) "\ud83d\udfe2 ok" ++ String (Py.chr 34) "".
Proof. vm_compute. repeat split. Qed.

(** The signature of the sample record, as the interpreter computes
    it. *)
Example signature_of_sample :
  _make_signature record_at_10h
  = "2624e5869b9a48ff4fba70e584b68160571a45423dec39bfe4a8ba9571a6fd3a".
Proof. vm_compute. reflexivity. Qed.

(** The characters of a text and the code points that [json.dumps] escapes
    are the same sequence. *)
Lemma chars_code_points (s : string) :
  List.map fst (Py.chars s) = Json.code_points (Sha256.bytes_of s).
Proof.
  assert (H : forall n s, (String.length s <= n)%nat ->
                List.map fst (Py.chars s)
                = Json.code_points (Sha256.bytes_of s)).
  { clear s. induction n as [|n IH]; intros s Hn.
    - destruct s; [reflexivity|simpl in Hn; lia].
    - destruct s as [|a0 r0]; [reflexivity|].
      cbn [Py.chars Sha256.bytes_of Json.code_points]. cbv zeta.
      unfold Py.cont, Json.cont.
      destruct (Py.ord a0 <? 128);
        [cbn [List.map fst]; f_equal; apply IH; simpl in *; lia|].
      destruct r0 as [|a1 r1]; [reflexivity|].
      cbn [Sha256.bytes_of].
      destruct (_ && _ && _);
        [cbn [List.map fst]; f_equal; apply IH; simpl in *; lia|].
      destruct r1 as [|a2 r2];
        [cbn [List.map fst Sha256.bytes_of]; f_equal;
         apply (IH (String a1 "")); simpl in *; lia|].
      cbn [Sha256.bytes_of].
      destruct (_ && _ && _ && _);
        [cbn [List.map fst]; f_equal; apply IH; simpl in *; lia|].
      destruct r2 as [|a3 r3];
        [cbn [List.map fst Sha256.bytes_of]; f_equal;
         apply (IH (String a1 (String a2 ""))); simpl in *; lia|].
      cbn [Sha256.bytes_of].
      destruct (_ && _ && _ && _ && _);
        cbn [List.map fst]; f_equal.
      + apply IH; simpl in *; lia.
      + apply (IH (String a1 (String a2 (String a3 r3)))). simpl in *; lia. }
  now apply (H (String.length s)).
Qed.

(** ** Dictionaries *)

Lemma lookup_key_perm (d1 d2 : dict) (k : string) :
  Permutation d1 d2 -> wf_dict d1 -> lookup_key d1 k = lookup_key d2 k.
Proof.
  unfold wf_dict, keys.
  induction 1 as [|[k' v] l l' Hp IH|[k1 v1] [k2 v2] l|l l' l'' H1 IH1 H2 IH2];
    intros Hnd.
  - reflexivity.
  - simpl in *. inversion Hnd; subst.
    destruct (String.eqb k' k); [reflexivity|]. now apply IH.
  - simpl in *. inversion Hnd as [|? ? Hnotin Hnd']; subst.
    destruct (String.eqb_spec k1 k) as [->|H1k];
      destruct (String.eqb_spec k2 k) as [->|H2k]; try reflexivity.
    exfalso. apply Hnotin. now left.
  - rewrite IH1 by assumption. apply IH2.
    eapply Permutation_NoDup; [|exact Hnd].
    now apply Permutation_map.
Qed.

Lemma lookup_key_setitem_eq (d : dict) (k : string) (v : pyval) :
  lookup_key (setitem d k v) k = Some v.
Proof.
  induction d as [|[k' v'] r IH]; simpl.
  - now rewrite String.eqb_refl.
  - destruct (String.eqb_spec k' k) as [->|Hne]; simpl.
    + now rewrite String.eqb_refl.
    + destruct (String.eqb_spec k' k); [contradiction|]. exact IH.
Qed.

Lemma lookup_key_setitem_ne (d : dict) (k k' : string) (v : pyval) :
  k <> k' -> lookup_key (setitem d k v) k' = lookup_key d k'.
Proof.
  intros Hne. induction d as [|[k0 v0] r IH]; simpl.
  - destruct (String.eqb_spec k k'); [contradiction|reflexivity].
  - destruct (String.eqb_spec k0 k) as [->|H0]; simpl.
    + destruct (String.eqb_spec k k'); [contradiction|reflexivity].
    + destruct (String.eqb k0 k'); [reflexivity|exact IH].
Qed.

(** ** Reading back a printed float *)

Lemma is_digit_cases (c : ascii) :
  Py.is_digit c = true ->
  List.In c ["0"; "1"; "2"; "3"; "4"; "5"; "6"; "7"; "8"; "9"]%char.
Proof.
  destruct c as [[] [] [] [] [] [] [] []]; intros H; vm_compute in H;
    try discriminate H; simpl; tauto.
Qed.

Lemma is_digit_digit_char (d : Z) :
  0 <= d < 10 -> Py.is_digit (Py.digit_char d) = true.
Proof.
  intros H.
  assert (Hc : d = 0 \/ d = 1 \/ d = 2 \/ d = 3 \/ d = 4 \/ d = 5 \/ d = 6
               \/ d = 7 \/ d = 8 \/ d = 9) by lia.
  repeat (destruct Hc as [->|Hc]; [reflexivity|]). subst. reflexivity.
Qed.

Lemma all_digits_app (a b : string) :
  Py.all_digits (a ++ b) = Py.all_digits a && Py.all_digits b.
Proof.
  induction a as [|c r IH]; simpl; [reflexivity|].
  now rewrite IH, andb_assoc.
Qed.

Lemma all_digits_digits_fuel (fuel : nat) (n : Z) (acc : string) :
  Py.all_digits acc = true -> Py.all_digits (Py.digits_fuel fuel n acc) = true.
Proof.
  revert n acc. induction fuel as [|f IH]; simpl; intros n acc H; [exact H|].
  assert (Hd : Py.all_digits (String (Py.digit_char (n mod 10)) acc) = true).
  { simpl. rewrite H, is_digit_digit_char; [reflexivity|].
    apply Z.mod_pos_bound. lia. }
  destruct (n <? 10); [exact Hd|]. now apply IH.
Qed.

Lemma digits_fuel_nonempty (fuel : nat) (n : Z) (acc : string) :
  (0 < String.length (Py.digits_fuel (S fuel) n acc))%nat.
Proof.
  revert n acc. induction fuel as [|f IH]; intros n acc.
  - simpl. destruct (n <? 10); simpl; lia.
  - change (Py.digits_fuel (S (S f)) n acc)
      with (let acc' := String (Py.digit_char (n mod 10)) acc in
            if n <? 10 then acc' else Py.digits_fuel (S f) (n / 10) acc').
    simpl. destruct (n <? 10); [simpl; lia|]. apply IH.
Qed.

Lemma all_digits_str_nonneg (n : Z) : Py.all_digits (Py.str_nonneg n) = true.
Proof. unfold Py.str_nonneg. now apply all_digits_digits_fuel. Qed.

Lemma str_nonneg_nonempty (n : Z) : (0 < String.length (Py.str_nonneg n))%nat.
Proof. unfold Py.str_nonneg. apply digits_fuel_nonempty. Qed.

Lemma all_digits_repeat_zero (k : nat) :
  Py.all_digits (Py.repeat_char "0" k) = true.
Proof. induction k; simpl; [reflexivity|exact IHk]. Qed.

Lemma length_repeat_char (c : ascii) (k : nat) :
  String.length (Py.repeat_char c k) = k.
Proof. induction k as [|k IH]; simpl; [reflexivity|now rewrite IH]. Qed.

Lemma length_app (a b : string) :
  String.length (a ++ b) = (String.length a + String.length b)%nat.
Proof. induction a as [|c r IH]; simpl; [reflexivity|now rewrite IH]. Qed.

Lemma all_digits_take (n : nat) (s : string) :
  Py.all_digits s = true -> Py.all_digits (Py.take n s) = true.
Proof.
  revert s. induction n as [|n IH]; intros [|c r]; simpl; try reflexivity.
  intros H. apply andb_prop in H as [H1 H2]. now rewrite H1, IH.
Qed.

Lemma all_digits_drop (n : nat) (s : string) :
  Py.all_digits s = true -> Py.all_digits (Py.drop n s) = true.
Proof.
  revert s. induction n as [|n IH]; intros [|c r]; simpl; try tauto.
  intros H. apply andb_prop in H as [H1 H2]. now apply IH.
Qed.

Lemma length_take (n : nat) (s : string) :
  (n <= String.length s)%nat -> String.length (Py.take n s) = n.
Proof.
  revert s. induction n as [|n IH]; intros [|c r]; simpl; try lia.
  intros H. rewrite IH; lia.
Qed.

Lemma length_drop (n : nat) (s : string) :
  String.length (Py.drop n s) = (String.length s - n)%nat.
Proof.
  revert s. induction n as [|n IH]; intros [|c r]; simpl; try lia. apply IH.
Qed.

(** Reading digits. *)

Lemma digit_tail_all_digits (ds : string) (acc : list Z) :
  Py.all_digits ds = true ->
  exists acc', Py.digit_tail ds acc = (acc', EmptyString).
Proof.
  revert acc. induction ds as [|c r IH]; simpl; intros acc H.
  - now exists acc.
  - apply andb_prop in H as [H1 H2]. rewrite H1. now apply IH.
Qed.

Lemma digit_tail_until_dot (ds rest : string) (acc : list Z) :
  Py.all_digits ds = true ->
  exists acc', Py.digit_tail (ds ++ String "." rest) acc
               = (acc', String "." rest).
Proof.
  revert acc. induction ds as [|c r IH]; simpl; intros acc H.
  - now exists acc.
  - apply andb_prop in H as [H1 H2]. rewrite H1. now apply IH.
Qed.

Lemma number_fixed (i f : string) :
  Py.all_digits i = true -> (0 < String.length i)%nat ->
  Py.all_digits f = true -> (0 < String.length f)%nat ->
  exists n fl, Py.number (i ++ String "." f) = Some (n, fl, EmptyString).
Proof.
  intros Hi Li Hf Lf.
  destruct i as [|c r]; [simpl in Li; lia|].
  destruct f as [|c' r']; [simpl in Lf; lia|].
  simpl in Hi, Hf. apply andb_prop in Hi as [Hc Hr].
  apply andb_prop in Hf as [Hc' Hr'].
  unfold Py.number. simpl Py.digitpart at 1. cbn [append Py.digitpart].
  rewrite Hc.
  destruct (digit_tail_until_dot r (String c' r') [Py.ord c - 48] Hr)
    as [ip Hip].
  rewrite Hip. cbn [Py.digitpart]. rewrite Hc'.
  destruct (digit_tail_all_digits r' [Py.ord c' - 48] Hr') as [fp Hfp].
  rewrite Hfp. eauto.
Qed.

Lemma rstrip_no_space (s : string) : Py.no_space s = true -> Py.rstrip s = s.
Proof.
  induction s as [|c r IH]; simpl; intros H; [reflexivity|].
  apply andb_prop in H as [H1 H2]. rewrite (IH H2).
  destruct r; [|reflexivity].
  now destruct (Py.is_space c).
Qed.

Lemma no_space_app (a b : string) :
  Py.no_space (a ++ b) = Py.no_space a && Py.no_space b.
Proof.
  induction a as [|c r IH]; simpl; [reflexivity|].
  now rewrite IH, andb_assoc.
Qed.

Lemma digit_not_space (c : ascii) :
  Py.is_digit c = true -> Py.is_space c = false.
Proof.
  intros H.
  destruct (is_digit_cases c H) as [<-|[<-|[<-|[<-|[<-|[<-|[<-|[<-|[<-|[<-|[]]]]]]]]]]];
    reflexivity.
Qed.

Lemma all_digits_no_space (s : string) :
  Py.all_digits s = true -> Py.no_space s = true.
Proof.
  induction s as [|c r IH]; simpl; intros H; [reflexivity|].
  apply andb_prop in H as [H1 H2].
  now rewrite (digit_not_space c H1), IH.
Qed.

Lemma float_of_unsigned_digit (neg : bool) (c : ascii) (r : string) :
  Py.is_digit c = true ->
  Py.float_of_unsigned neg (String c r)
  = match Py.number (String c r) with
    | Some (n, fl, r) =>
        match Py.exponent r with
        | Some (ex, EmptyString) => Some (Py.decimal_to_float neg n (ex - fl))
        | _ => None
        end
    | None => None
    end.
Proof.
  intros H. unfold Py.float_of_unsigned.
  generalize (Py.number (String c r)) as nm. intros nm.
  destruct (is_digit_cases c H) as [<-|[<-|[<-|[<-|[<-|[<-|[<-|[<-|[<-|[<-|[]]]]]]]]]]];
    reflexivity.
Qed.

Lemma float_of_ascii_digits (s : bool) (c : ascii) (r : string) :
  Py.is_digit c = true -> Py.no_space r = true ->
  Py.float_of_ascii (Py.sign_str s ++ String c r)
  = Py.float_of_unsigned s (String c r).
Proof.
  intros Hc Hr. unfold Py.float_of_ascii.
  assert (Hns : Py.no_space (Py.sign_str s ++ String c r) = true).
  { rewrite no_space_app. simpl. rewrite Hr, (digit_not_space c Hc).
    now destruct s. }
  assert (Hl : Py.lstrip (Py.sign_str s ++ String c r)
               = Py.sign_str s ++ String c r).
  { destruct s; simpl; [reflexivity|]. now rewrite (digit_not_space c Hc). }
  rewrite Hl, (rstrip_no_space _ Hns).
  destruct s; simpl Py.sign_str; cbn [append].
  - reflexivity.
  - destruct (is_digit_cases c Hc) as [<-|[<-|[<-|[<-|[<-|[<-|[<-|[<-|[<-|[<-|[]]]]]]]]]]];
      reflexivity.
Qed.

Lemma fixed_digits_shape (d : nat) (n : Z) :
  exists i f, Py.fixed_digits (S d) n = i ++ String "." f
              /\ Py.all_digits i = true /\ (0 < String.length i)%nat
              /\ Py.all_digits f = true /\ (0 < String.length f)%nat.
Proof.
  unfold Py.fixed_digits.
  set (s := Py.repeat_char "0" (S (S d) - String.length (Py.str_nonneg n))
            ++ Py.str_nonneg n).
  assert (Hs : Py.all_digits s = true).
  { unfold s. now rewrite all_digits_app, all_digits_repeat_zero,
      all_digits_str_nonneg. }
  assert (Hl : (S (S d) <= String.length s)%nat).
  { unfold s. rewrite length_app, length_repeat_char. lia. }
  exists (Py.take (String.length s - S d) s),
         (Py.drop (String.length s - S d) s).
  split; [reflexivity|].
  rewrite length_take by lia. rewrite length_drop.
  repeat split; try lia.
  - now apply all_digits_take.
  - now apply all_digits_drop.
Qed.

(** A text of ASCII characters is parsed as it is. *)
Lemma float_of_str_ascii (s : string) :
  Py.is_ascii s = true -> Py.float_of_str s = Py.float_of_ascii s.
Proof.
  intros H. unfold Py.float_of_str, Py.decimal_and_space_to_ascii.
  now rewrite H.
Qed.

Lemma is_ascii_app (a b : string) :
  Py.is_ascii (a ++ b) = Py.is_ascii a && Py.is_ascii b.
Proof.
  induction a as [|c r IH]; simpl; [reflexivity|].
  now rewrite IH, andb_assoc.
Qed.

Lemma all_digits_is_ascii (s : string) :
  Py.all_digits s = true -> Py.is_ascii s = true.
Proof.
  induction s as [|c r IH]; simpl; intros H; [reflexivity|].
  apply andb_prop in H as [H1 H2]. rewrite (IH H2), andb_true_r.
  destruct (is_digit_cases c H1) as [<-|[<-|[<-|[<-|[<-|[<-|[<-|[<-|[<-|[<-|[]]]]]]]]]]];
    reflexivity.
Qed.

Lemma float_of_str_fixed (s : bool) (d : nat) (n : Z) :
  exists r, Py.float_of_str (Py.sign_str s ++ Py.fixed_digits (S d) n) = Some r.
Proof.
  destruct (fixed_digits_shape d n) as (i & f & -> & Hi & Li & Hf & Lf).
  destruct (number_fixed i f Hi Li Hf Lf) as (m & fl & Hn).
  rewrite float_of_str_ascii.
  2:{ rewrite !is_ascii_app, (all_digits_is_ascii i Hi). simpl.
      rewrite (all_digits_is_ascii f Hf). now destruct s. }
  destruct i as [|c r]; [simpl in Li; lia|].
  simpl in Hi. apply andb_prop in Hi as [Hc Hr].
  change (String c r ++ String "." f) with (String c (r ++ String "." f)) in *.
  rewrite float_of_ascii_digits; [|exact Hc|].
  - rewrite (float_of_unsigned_digit s c _ Hc), Hn. simpl. eauto.
  - rewrite no_space_app, (all_digits_no_space r Hr). simpl.
    now rewrite (all_digits_no_space f Hf).
Qed.

(** A float printed with at least one decimal always reads back. *)
Lemma float_of_str_format_f (d : nat) (x : float) :
  exists r, Py.float_of_str (Py.format_f (S d) x) = Some r.
Proof.
  unfold Py.format_f. destruct (Prim2SF x) as [s|s| |s m e].
  - apply float_of_str_fixed.
  - destruct s; eexists; reflexivity.
  - eexists; reflexivity.
  - apply float_of_str_fixed.
Qed.

(** The canonical form of a float is the float read back from its
    six-decimal text; the fall-back of the source is never taken. *)
Lemma canonical_float (x : float) :
  exists r, Py.float_of_str (Py.format_f 6 x) = Some r
            /\ _canonicalize_number (VFloat x) = VFloat r.
Proof.
  destruct (float_of_str_format_f 5 x) as [r Hr].
  exists r. split; [exact Hr|].
  unfold _canonicalize_number. now rewrite Hr.
Qed.

(** ** The signature reads the signature fields only *)

Lemma alike_canonical (v1 v2 : pyval) :
  alike v1 v2 -> _canonicalize_number v1 = _canonicalize_number v2.
Proof.
  intros [->|(x & y & -> & -> & H)]; [reflexivity|].
  destruct (canonical_float x) as (r & Hx & ->).
  destruct (canonical_float y) as (r' & Hy & ->).
  rewrite H, Hy in Hx. congruence.
Qed.

Lemma signature_payload_ext (d1 d2 : dict) :
  same_after_rounding d1 d2 -> signature_payload d1 = signature_payload d2.
Proof.
  intros H. unfold signature_payload. apply map_ext_in.
  intros k Hk. f_equal. apply alike_canonical. exact (H k Hk).
Qed.

Lemma make_signature_ext (d1 d2 : dict) :
  same_after_rounding d1 d2 -> _make_signature d1 = _make_signature d2.
Proof.
  intros H. unfold _make_signature. now rewrite (signature_payload_ext d1 d2 H).
Qed.

Lemma same_lookup_same_rounding (d1 d2 : dict) :
  (forall k, List.In k signature_fields -> lookup_key d1 k = lookup_key d2 k) ->
  same_after_rounding d1 d2.
Proof.
  intros H k Hk. left. unfold get. now rewrite (H k Hk).
Qed.

Lemma differ_only_on_outside (ks : list string) (d1 d2 : dict) :
  (forall k, List.In k ks -> ~ List.In k signature_fields) ->
  differ_only_on ks d1 d2 -> same_after_rounding d1 d2.
Proof.
  intros Hks Hd. apply same_lookup_same_rounding. intros k Hk.
  apply Hd. intros Hin. exact (Hks k Hin Hk).
Qed.

Lemma not_signature_field (k : string) :
  forallb (fun k' => negb (String.eqb k' k)) signature_fields = true ->
  ~ List.In k signature_fields.
Proof.
  intros H Hin. rewrite forallb_forall in H. specialize (H k Hin).
  now rewrite String.eqb_refl in H.
Qed.

Lemma lookup_signature_payload (d : dict) (k : string) :
  List.In k signature_fields ->
  lookup_key (signature_payload d) k
  = Some (_canonicalize_number (get d k (VStr ""))).
Proof.
  unfold signature_payload. generalize signature_fields as l.
  induction l as [|k' r IH]; simpl; intros Hin; [contradiction|].
  destruct (String.eqb_spec k' k) as [->|Hne]; [reflexivity|].
  destruct Hin as [->|Hin]; [contradiction|]. now apply IH.
Qed.

Lemma distinct_keys_sound (l : list string) :
  distinct_keys l = true -> List.NoDup l.
Proof.
  induction l as [|k r IH]; simpl; intros H; [constructor|].
  apply andb_prop in H as [H1 H2]. constructor; [|now apply IH].
  intros Hin. rewrite forallb_forall in H1. specialize (H1 k Hin).
  now rewrite String.eqb_refl in H1.
Qed.

Lemma setitem_differ_only_on (d : dict) (k : string) (v : pyval) :
  differ_only_on [k] d (setitem d k v).
Proof.
  intros k' Hk'. symmetry. apply lookup_key_setitem_ne.
  intros ->. apply Hk'. now left.
Qed.

Lemma reordered_same_rounding (d1 d2 : dict) :
  reordered d1 d2 -> same_after_rounding d1 d2.
Proof.
  intros [Hwf Hp]. apply same_lookup_same_rounding. intros k _.
  now apply lookup_key_perm.
Qed.

(** ** C3: what the signature is invariant under *)

(** C3, amended. The save signature of two records is the same when
    they hold the same items in a different order, or hold alike values on
    every signature field (equal values, or floats that print alike with
    six decimals), or differ only in "Timestamp" or "AI Evaluation Notes".
    Moreover the serialized payload maps every signature field to the
    canonical form of the record's value: a float is printed with six
    decimals and read back (this never falls back to the value itself),
    and an integer is first turned into a float. *)
Theorem signature_invariance (d1 d2 : dict) :
  reordered d1 d2
  \/ same_after_rounding d1 d2
  \/ differ_only_on ["Timestamp"; "AI Evaluation Notes"] d1 d2 ->
  _make_signature d1 = _make_signature d2
  /\ (forall k, List.In k signature_fields ->
        lookup_key (signature_payload d1) k
        = Some (_canonicalize_number (get d1 k (VStr ""))))
  /\ (forall x, exists r,
        Py.float_of_str (Py.format_f 6 x) = Some r
        /\ _canonicalize_number (VFloat x) = VFloat r)
  /\ (forall z x, Py.float_of_int z = Some x ->
        _canonicalize_number (VInt z) = _canonicalize_number (VFloat x)).
Proof.
  intros H. split; [|split; [|split]].
  - apply make_signature_ext.
    destruct H as [H|[H|H]].
    + now apply reordered_same_rounding.
    + exact H.
    + apply (differ_only_on_outside ["Timestamp"; "AI Evaluation Notes"]);
        [|exact H].
      intros k [<-|[<-|[]]]; apply not_signature_field; reflexivity.
  - intros k Hk. now apply lookup_signature_payload.
  - apply canonical_float.
  - intros z x Hz. destruct (canonical_float x) as (r & Hr & ->).
    unfold _canonicalize_number. now rewrite Hz, Hr.
Qed.

Lemma differ_only_on_weaken (ks ks' : list string) (d1 d2 : dict) :
  List.incl ks ks' -> differ_only_on ks d1 d2 -> differ_only_on ks' d1 d2.
Proof.
  intros Hi H k Hk. apply H. intros Hin. apply Hk. now apply Hi.
Qed.

Lemma signature_fields_cases (P : string -> Prop) :
  List.Forall P signature_fields ->
  forall k, List.In k signature_fields -> P k.
Proof. intros H k Hk. rewrite List.Forall_forall in H. now apply H. Qed.

(** Witness for [signature_invariance]: the sample record with its items
    reversed, with the assets moved by 1e-7 within one six-decimal cell,
    and at another instant. *)
Lemma signature_invariance_witness :
  (reordered record_at_10h (rev record_at_10h)
   /\ _make_signature record_at_10h = _make_signature (rev record_at_10h))
  /\ (same_after_rounding record_at_10h record_260_0000001
      /\ _make_signature record_at_10h = _make_signature record_260_0000001)
  /\ (differ_only_on ["Timestamp"; "AI Evaluation Notes"]
        record_at_10h record_at_11h
      /\ _make_signature record_at_10h = _make_signature record_at_11h).
Proof.
  assert (H1 : reordered record_at_10h (rev record_at_10h)).
  { split; [|apply Permutation_rev].
    apply distinct_keys_sound. vm_compute. reflexivity. }
  assert (H2 : same_after_rounding record_at_10h record_260_0000001).
  { refine (signature_fields_cases
              (fun k => alike (get record_at_10h k (VStr ""))
                              (get record_260_0000001 k (VStr ""))) _).
    unfold signature_fields.
    repeat (apply List.Forall_cons;
            [first [ left; vm_compute; reflexivity
                   | right; eexists _, _;
                     split; [vm_compute; reflexivity|];
                     split; [vm_compute; reflexivity|];
                     vm_compute; reflexivity ]|]).
    apply List.Forall_nil. }
  assert (H3 : differ_only_on ["Timestamp"; "AI Evaluation Notes"]
                 record_at_10h record_at_11h).
  { apply (differ_only_on_weaken ["Timestamp"]).
    - intros k [<-|[]]. now left.
    - change record_at_11h
        with (setitem record_at_10h "Timestamp" (VStr "2025-03-01 11:00:00")).
      apply setitem_differ_only_on. }
  split; [|split].
  - split; [exact H1|].
    exact (proj1 (signature_invariance _ _ (or_introl H1))).
  - split; [exact H2|].
    exact (proj1 (signature_invariance _ _ (or_intror (or_introl H2)))).
  - split; [exact H3|].
    exact (proj1 (signature_invariance _ _ (or_intror (or_intror H3)))).
Defined.

(** C3, counterexample: two records that differ only in the current
    assets, by less than 1e-6, have different signatures. *)
Lemma signature_noise_counterexample :
  differ_only_on ["Current AUM (M CHF)"] record_260_0000004 record_260_0000006
  /\ lookup_key record_260_0000004 "Current AUM (M CHF)"
     = Some (VFloat 260.0000004%float)
  /\ lookup_key record_260_0000006 "Current AUM (M CHF)"
     = Some (VFloat 260.0000006%float)
  /\ noise_below_1e6 260.0000004%float 260.0000006%float
  /\ _make_signature record_260_0000004 <> _make_signature record_260_0000006.
Proof.
  split; [|split; [|split; [|split]]].
  - change record_260_0000006
      with (setitem record_260_0000004 "Current AUM (M CHF)"
              (VFloat 260.0000006%float)).
    apply setitem_differ_only_on.
  - reflexivity.
  - reflexivity.
  - vm_compute. reflexivity.
  - intros H. vm_compute in H. discriminate H.
Qed.

(** ** The save path *)

Lemma remote_call_sheet_on_raise {A : Type} (op : Worksheet -> A * Worksheet)
    (r r' : Remote) (e : string) :
  remote_call op r = (Raise e, r') -> sheet r' = sheet r.
Proof.
  unfold remote_call. destruct (outcomes r) as [|[e'|] rest];
    try (destruct (op (sheet r)); discriminate).
  now intros [= _ <-].
Qed.

Lemma remote_call_ok {A : Type} (op : Worksheet -> A * Worksheet)
    (r r' : Remote) (a : A) :
  remote_call op r = (Ok a, r') -> (a, sheet r') = op (sheet r).
Proof.
  unfold remote_call. destruct (outcomes r) as [|[e'|] rest];
    try discriminate; destruct (op (sheet r)) as [a' ws];
    now intros [= <- <-].
Qed.

(** A successful append adds one row at the bottom and leaves the header
    alone. *)
Lemma append_ok_rows (d : dict) (r r' : Remote) (u : unit) :
  append_in_header_order d r = (Ok u, r') ->
  header (sheet r') = header (sheet r)
  /\ exists row, rows (sheet r') = (rows (sheet r) ++ [row])%list.
Proof.
  unfold append_in_header_order.
  destruct (remote_call row_values_1 r) as [[hs|e] r1] eqn:E1;
    [|discriminate].
  intros E2. apply remote_call_ok in E1, E2.
  unfold row_values_1 in E1. unfold append_row in E2.
  injection E1 as _ E1. injection E2 as _ E2.
  rewrite E2, E1. simpl. eauto.
Qed.

(** A failed append leaves the worksheet as it was. *)
Lemma append_raise_sheet (d : dict) (r r' : Remote) (e : string) :
  append_in_header_order d r = (Raise e, r') -> sheet r' = sheet r.
Proof.
  unfold append_in_header_order.
  destruct (remote_call row_values_1 r) as [[hs|e1] r1] eqn:E1.
  - intros E2. apply remote_call_sheet_on_raise in E2.
    apply remote_call_ok in E1. unfold row_values_1 in E1.
    injection E1 as _ E1. congruence.
  - intros [= _ <-]. now apply remote_call_sheet_on_raise in E1.
Qed.

Lemma eq_str_stored (ss : gmap string pyval) (sig : string) :
  eq_str (<["_last_sig" := VStr sig]> ss !! "_last_sig") sig = true.
Proof. rewrite lookup_insert_eq. simpl. apply String.eqb_refl. Qed.

(** A save whose signature is the stored one is answered with the
    notice, and nothing else changes. *)
Lemma save_duplicate (d : dict) (reason : string) (st : State) :
  eq_str (session_state st !! "_last_sig") (_make_signature d) = true ->
  _save_to_sheet_if_possible true d reason st = (false, show already_saved st).
Proof.
  intros H. unfold _save_to_sheet_if_possible. simpl. now rewrite H.
Qed.

(** A save that is not a duplicate follows the append. *)
Lemma save_fresh (d : dict) (reason : string) (st : State) :
  eq_str (session_state st !! "_last_sig") (_make_signature d) = false ->
  _save_to_sheet_if_possible true d reason st
  = match append_in_header_order d (remote st) with
    | (Ok _, r) =>
        (true,
         show (Success (if negb (String.eqb reason "")
                        then "✅ Saved to Google Sheet (" ++ reason ++ ")."
                        else "✅ Saved to Google Sheet."))
              (set_session "_last_sig" (VStr (_make_signature d))
                 (set_remote r st)))
    | (Raise e, r) =>
        (false,
         show (Error ("Error saving to Google Sheet: " ++ e)) (set_remote r st))
    end.
Proof.
  intros H. unfold _save_to_sheet_if_possible. simpl. now rewrite H.
Qed.

(** What a successful save did. *)
Lemma save_success_inv (worksheet : bool) (d : dict) (reason : string)
    (st st1 : State) :
  _save_to_sheet_if_possible worksheet d reason st = (true, st1) ->
  worksheet = true
  /\ session_state st1
     = <["_last_sig" := VStr (_make_signature d)]> (session_state st)
  /\ header (sheet (remote st1)) = header (sheet (remote st))
  /\ (exists row,
        rows (sheet (remote st1)) = (rows (sheet (remote st)) ++ [row])%list)
  /\ exists m, ui st1 = (ui st ++ [Success m])%list.
Proof.
  unfold _save_to_sheet_if_possible.
  destruct worksheet; simpl; [|discriminate].
  destruct (eq_str _ _); [discriminate|].
  destruct (append_in_header_order d (remote st)) as [[u|e] r] eqn:E;
    [|discriminate].
  intros [= <-]. simpl. apply append_ok_rows in E as [Hh Hr].
  repeat split; eauto.
Qed.

(** After a successful save, a record with the same signature is a
    duplicate. *)
Lemma save_then_duplicate (worksheet : bool) (d d' : dict)
    (reason reason' : string) (st st1 : State) :
  _save_to_sheet_if_possible worksheet d reason st = (true, st1) ->
  _make_signature d' = _make_signature d ->
  _save_to_sheet_if_possible worksheet d' reason' st1
  = (false, show already_saved st1).
Proof.
  intros H Hs. apply save_success_inv in H as (-> & Hss & _).
  apply save_duplicate. rewrite Hss, Hs. apply eq_str_stored.
Qed.

(** With a worksheet at hand, no duplicate and no failure scripted for
    the coming calls, the save goes through. *)
Lemma save_succeeds (d : dict) (reason : string) (st : State) :
  eq_str (session_state st !! "_last_sig") (_make_signature d) = false ->
  outcomes (remote st) = [] ->
  exists st1, _save_to_sheet_if_possible true d reason st = (true, st1).
Proof.
  intros Hfresh Hout. rewrite save_fresh by exact Hfresh.
  unfold append_in_header_order, remote_call. rewrite Hout. simpl.
  eauto.
Qed.

(** ** C4: saving twice appends once *)

(** C4. When a save of a record succeeds, the signature of the record is
    stored and exactly one row is added to the sheet; a second save of the
    unchanged record right after finds its signature equal to the stored
    one, makes no remote call, adds no row, and answers with the notice
    "Already saved. No duplicate entry created." (an information message,
    not an error), leaving the session as it was. The validity of the
    record is checked upstream and plays no part. *)
Theorem save_twice_appends_once (worksheet : bool) (d : dict)
    (reason reason' : string) (st st1 : State) :
  _save_to_sheet_if_possible worksheet d reason st = (true, st1) ->
  session_state st1 !! "_last_sig" = Some (VStr (_make_signature d))
  /\ (exists row,
        rows (sheet (remote st1)) = (rows (sheet (remote st)) ++ [row])%list)
  /\ exists st2,
       _save_to_sheet_if_possible worksheet d reason' st1 = (false, st2)
       /\ ui st2 = (ui st1 ++ [already_saved])%list
       /\ remote st2 = remote st1
       /\ session_state st2 = session_state st1
       /\ List.length (rows (sheet (remote st2)))
          = S (List.length (rows (sheet (remote st)))).
Proof.
  intros H.
  pose proof (save_then_duplicate worksheet d d reason reason' st st1 H eq_refl)
    as H2.
  apply save_success_inv in H as (_ & Hss & _ & [row Hrow] & _).
  split; [|split].
  - rewrite Hss. apply lookup_insert_eq.
  - now exists row.
  - exists (show already_saved st1). repeat split; try exact H2.
    simpl. rewrite Hrow, List.length_app. simpl. lia.
Qed.

(** Witness for [save_twice_appends_once]: the sample record saved into an
    empty sheet. *)
Lemma save_twice_appends_once_witness :
  _save_to_sheet_if_possible true record_at_10h "manual" (fresh_state [])
  = (true, saved_once)
  /\ session_state saved_once !! "_last_sig"
     = Some (VStr (_make_signature record_at_10h)).
Proof.
  assert (H : _save_to_sheet_if_possible true record_at_10h "manual"
                (fresh_state []) = (true, saved_once))
    by (vm_compute; reflexivity).
  split; [exact H|].
  exact (proj1 (save_twice_appends_once true record_at_10h "manual" "manual"
                  (fresh_state []) saved_once H)).
Defined.

(** Two runs of the script with a manual save, an hour apart: the second
    record carries another timestamp and is still a duplicate. *)
Example manual_save_twice_one_row :
  ui (script_run "on_pdf" true "2025-03-01 11:00:00" (sample_form 260)
        false true
        (script_run "on_pdf" true "2025-03-01 10:00:00" (sample_form 260)
           false true (fresh_state [])))
  = [Success "✅ Saved to Google Sheet (manual)."; already_saved]
  /\ List.length
       (rows (sheet (remote
          (script_run "on_pdf" true "2025-03-01 11:00:00" (sample_form 260)
             false true
             (script_run "on_pdf" true "2025-03-01 10:00:00" (sample_form 260)
                false true (fresh_state [])))))) = 1%nat.
Proof. vm_compute. split; reflexivity. Qed.

(** ** C5: a failed append keeps the stored signature *)

(** C5. When a save reaches the append and the append raises, the error is
    caught: the save returns [False], shows "Error saving to Google Sheet:"
    with the text of the error, and leaves the session (with the stored
    signature) and the worksheet as they were. A retry of the same record
    is therefore not a duplicate: it runs the append again, and its outcome
    is the outcome of that append, a new row and the stored signature when
    it goes through. *)
Theorem failed_append_keeps_signature (d : dict) (reason reason' : string)
    (st : State) (e : string) (r : Remote) :
  eq_str (session_state st !! "_last_sig") (_make_signature d) = false ->
  append_in_header_order d (remote st) = (Raise e, r) ->
  exists st1,
    _save_to_sheet_if_possible true d reason st = (false, st1)
    /\ session_state st1 = session_state st
    /\ sheet (remote st1) = sheet (remote st)
    /\ ui st1 = (ui st ++ [Error ("Error saving to Google Sheet: " ++ e)])%list
    /\ eq_str (session_state st1 !! "_last_sig") (_make_signature d) = false
    /\ (forall u r2,
          append_in_header_order d (remote st1) = (Ok u, r2) ->
          exists st2 row,
            _save_to_sheet_if_possible true d reason' st1 = (true, st2)
            /\ rows (sheet (remote st2))
               = (rows (sheet (remote st)) ++ [row])%list
            /\ session_state st2 !! "_last_sig"
               = Some (VStr (_make_signature d)))
    /\ (forall e2 r2,
          append_in_header_order d (remote st1) = (Raise e2, r2) ->
          exists st2,
            _save_to_sheet_if_possible true d reason' st1 = (false, st2)
            /\ ui st2
               = (ui st1 ++ [Error ("Error saving to Google Sheet: " ++ e2)])%list).
Proof.
  intros Hfresh Happ.
  exists (show (Error ("Error saving to Google Sheet: " ++ e)) (set_remote r st)).
  assert (Hsheet : sheet r = sheet (remote st))
    by (eapply append_raise_sheet; exact Happ).
  split; [|split; [|split; [|split; [|split; [|split]]]]].
  - rewrite save_fresh by exact Hfresh. now rewrite Happ.
  - reflexivity.
  - exact Hsheet.
  - reflexivity.
  - exact Hfresh.
  - intros u r2 Hok.
    pose proof (save_fresh d reason'
                  (show (Error ("Error saving to Google Sheet: " ++ e))
                        (set_remote r st)) Hfresh) as Hs.
    rewrite Hok in Hs.
    destruct (append_ok_rows d _ _ u Hok) as [_ [row Hrow]].
    eexists _, row. split; [exact Hs|]. split.
    + simpl. simpl in Hrow. rewrite Hrow. now rewrite Hsheet.
    + simpl. apply lookup_insert_eq.
  - intros e2 r2 Hraise.
    pose proof (save_fresh d reason'
                  (show (Error ("Error saving to Google Sheet: " ++ e))
                        (set_remote r st)) Hfresh) as Hs.
    rewrite Hraise in Hs.
    eexists. split; [exact Hs|]. reflexivity.
Qed.

(** Witness for [failed_append_keeps_signature]: the append of the sample
    record fails with a quota error. *)
Lemma failed_append_keeps_signature_witness :
  eq_str (session_state failing_state !! "_last_sig")
         (_make_signature record_at_10h) = false
  /\ append_in_header_order record_at_10h (remote failing_state)
     = (Raise "APIError: [429] quota exceeded",
        {| sheet := empty_sheet; outcomes := [] |})
  /\ exists st1,
       _save_to_sheet_if_possible true record_at_10h "manual" failing_state
       = (false, st1)
       /\ session_state st1 = session_state failing_state.
Proof.
  assert (H1 : eq_str (session_state failing_state !! "_last_sig")
                      (_make_signature record_at_10h) = false)
    by reflexivity.
  assert (H2 : append_in_header_order record_at_10h (remote failing_state)
               = (Raise "APIError: [429] quota exceeded",
                  {| sheet := empty_sheet; outcomes := [] |}))
    by reflexivity.
  split; [exact H1|]. split; [exact H2|].
  destruct (failed_append_keeps_signature record_at_10h "manual" "manual"
              failing_state _ _ H1 H2) as (st1 & Hs & Hss & _).
  exists st1. split; [exact Hs|exact Hss].
Defined.

Example retry_after_failure_appends :
  fst (_save_to_sheet_if_possible true record_at_10h "manual" failing_state)
  = false
  /\ rows (sheet (remote after_failure)) = []
  /\ fst (_save_to_sheet_if_possible true record_at_10h "manual" after_failure)
     = true
  /\ List.length
       (rows (sheet (remote
          (snd (_save_to_sheet_if_possible true record_at_10h "manual"
                  after_failure))))) = 1%nat.
Proof. vm_compute. repeat split. Qed.

(** ** C9: the score is not part of the signature *)

(** C9. "Score", like "Timestamp" and "AI Evaluation Notes", is not among
    the signature fields. Two records that differ only in "Score" (or only
    in "Score" and "AI Evaluation Notes", the verdict) have the same
    signature; the signature of the record built from a form does not
    depend on the score and the verdict put into it; and once a record is
    saved, a record that differs from it only in "Score" is skipped as a
    duplicate, so that no row is appended for it. *)
Theorem signature_ignores_score (d1 d2 : dict) :
  differ_only_on ["Score"; "AI Evaluation Notes"] d1 d2 ->
  _make_signature d1 = _make_signature d2
  /\ ~ List.In "Score" signature_fields
  /\ ~ List.In "Timestamp" signature_fields
  /\ ~ List.In "AI Evaluation Notes" signature_fields
  /\ (forall f now score verdict score' verdict',
        _make_signature (_build_data_dict f now score verdict)
        = _make_signature (_build_data_dict f now score' verdict'))
  /\ (forall worksheet reason reason' st st1,
        _save_to_sheet_if_possible worksheet d1 reason st = (true, st1) ->
        _save_to_sheet_if_possible worksheet d2 reason' st1
        = (false, show already_saved st1)).
Proof.
  intros H.
  assert (Hsig : _make_signature d1 = _make_signature d2).
  { apply make_signature_ext.
    apply (differ_only_on_outside ["Score"; "AI Evaluation Notes"]);
      [|exact H].
    intros k [<-|[<-|[]]]; apply not_signature_field; reflexivity. }
  split; [exact Hsig|].
  split; [apply not_signature_field; reflexivity|].
  split; [apply not_signature_field; reflexivity|].
  split; [apply not_signature_field; reflexivity|].
  split.
  - intros f now sc v sc' v'. apply make_signature_ext.
    apply same_lookup_same_rounding.
    refine (signature_fields_cases _ _). unfold signature_fields.
    repeat (apply List.Forall_cons; [reflexivity|]). apply List.Forall_nil.
  - intros worksheet reason reason' st st1 Hsave.
    eapply save_then_duplicate; [exact Hsave|]. now symmetry.
Qed.

(** Witness for [signature_ignores_score]: the sample record scored 10 and
    scored 4. *)
Lemma signature_ignores_score_witness :
  differ_only_on ["Score"; "AI Evaluation Notes"] record_at_10h record_rescored
  /\ _make_signature record_at_10h = _make_signature record_rescored.
Proof.
  assert (H : differ_only_on ["Score"; "AI Evaluation Notes"]
                record_at_10h record_rescored).
  { apply (differ_only_on_weaken ["Score"]).
    - intros k [<-|[]]. now left.
    - apply setitem_differ_only_on. }
  split; [exact H|].
  exact (proj1 (signature_ignores_score _ _ H)).
Defined.

(** ** C8: the verdict *)

(** C8. The verdict is computed from the total score alone: a score of 7
    or more gives the Strong verdict, a score from 4 to 6 the Medium one,
    a score below 4 the Weak one. *)
Theorem verdict_tiers (sc : Z) :
  (7 <= sc -> verdict sc = "🟢 Strong Candidate")
  /\ (4 <= sc <= 6 -> verdict sc = "🟡 Medium Potential")
  /\ (sc < 4 -> verdict sc = "🔴 Weak Candidate").
Proof.
  unfold verdict. repeat split; intros H.
  - destruct (Z.leb_spec 7 sc); [reflexivity|lia].
  - destruct (Z.leb_spec 7 sc); [lia|].
    destruct (Z.leb_spec 4 sc); [reflexivity|lia].
  - destruct (Z.leb_spec 7 sc); [lia|].
    destruct (Z.leb_spec 4 sc); [lia|reflexivity].
Qed.

(** Witness for [verdict_tiers]: the scores 9, 5 and -1. *)
Lemma verdict_tiers_witness :
  verdict 9 = "🟢 Strong Candidate"
  /\ verdict 5 = "🟡 Medium Potential"
  /\ verdict (-1) = "🔴 Weak Candidate".
Proof.
  split; [|split].
  - apply (proj1 (verdict_tiers 9)). lia.
  - apply (proj1 (proj2 (verdict_tiers 5))). lia.
  - apply (proj2 (proj2 (verdict_tiers (-1)))). lia.
Defined.

(** ** C10: range of the score *)

Lemma score_experience_range (y : Z) (s : Scoring) :
  score s <= score (score_experience y s) <= score s + 2.
Proof.
  unfold score_experience.
  destruct (7 <=? y); [simpl; lia|]. destruct (6 <=? y); simpl; lia.
Qed.

Lemma score_aum_range (m : string) (a : float) (s : Scoring) :
  score s <= score (score_aum m a s) <= score s + 2.
Proof.
  unfold score_aum.
  destruct (PrimFloat.leb _ _); [|simpl; lia].
  destruct (_ && _); simpl; lia.
Qed.

Lemma score_comp_range (b l : Z) (s : Scoring) :
  score s - 1 <= score (score_comp b l s) <= score s + 2.
Proof.
  unfold score_comp.
  destruct (_ && _); [simpl; lia|]. destruct (_ && _); simpl; lia.
Qed.

Lemma score_roa_range (a : float) (s : Scoring) :
  score s <= score (score_roa a s) <= score s + 2.
Proof.
  unfold score_roa.
  destruct (PrimFloat.leb _ _); [simpl; lia|].
  destruct (PrimFloat.leb _ _); simpl; lia.
Qed.

Lemma score_clients_range (c : Z) (s : Scoring) :
  score s <= score (score_clients c s) <= score s + 1.
Proof.
  unfold score_clients.
  destruct (c =? 0); [simpl; lia|]. destruct (80 <? c); simpl; lia.
Qed.

Lemma score_prospects_range (n : float) (ps : list Prospect) (s : Scoring) :
  score s <= score (score_prospects n ps s) <= score s + 1.
Proof.
  unfold score_prospects.
  destruct (_ && _); [simpl; lia|].
  destruct (PrimFloat.leb _ _); simpl; lia.
Qed.

(** C10. The total score lies between -1 and 10. Only the compensation
    criterion can take a point away, and only one; experience, assets,
    compensation and return add at most 2 each, client load and prospect
    consistency at most 1 each. *)
Theorem score_range (f : Form) (prospects : list Prospect) :
  -1 <= score (scoring f prospects) <= 10
  /\ (forall s y, score s <= score (score_experience y s) <= score s + 2)
  /\ (forall s m a, score s <= score (score_aum m a s) <= score s + 2)
  /\ (forall s b l, score s - 1 <= score (score_comp b l s) <= score s + 2)
  /\ (forall s a, score s <= score (score_roa a s) <= score s + 2)
  /\ (forall s c, score s <= score (score_clients c s) <= score s + 1)
  /\ (forall s n ps, score s <= score (score_prospects n ps s) <= score s + 1).
Proof.
  split.
  - unfold scoring.
    pose proof (score_experience_range (years_experience f) scoring_start) as H1.
    set (s1 := score_experience _ _) in *.
    pose proof (score_aum_range (current_market f) (current_assets f) s1) as H2.
    set (s2 := score_aum _ _ _) in *.
    pose proof (score_comp_range (base_salary f) (last_bonus f) s2) as H3.
    set (s3 := score_comp _ _ _) in *.
    pose proof (score_roa_range (avg_roa f) s3) as H4.
    set (s4 := score_roa _ _) in *.
    pose proof (score_clients_range (current_number_clients f) s4) as H5.
    set (s5 := score_clients _ _) in *.
    pose proof (score_prospects_range (nnm_y1 f) prospects s5) as H6.
    change (score scoring_start) with 0 in H1. lia.
  - repeat split; intros;
      first [ apply score_experience_range | apply score_aum_range
            | apply score_comp_range | apply score_roa_range
            | apply score_clients_range | apply score_prospects_range ].
Qed.

(** Both ends of the range are reached. *)
Example score_range_attained :
  score (scoring (sample_form 260) sample_prospects) = 10
  /\ score (scoring weak_form []) = -1.
Proof. vm_compute. split; reflexivity. Qed.

(** ** The column sum *)

(** The sum of an array does not depend on the fuel, once the fuel covers
    the length of the array. *)
Lemma pairwise_sum_fuel (f1 f2 : nat) (l : list float) :
  (List.length l <= f1)%nat -> (List.length l <= f2)%nat ->
  pairwise_sum f1 l = pairwise_sum f2 l.
Proof.
  revert f2 l. induction f1 as [|f1 IH]; intros f2 l H1 H2.
  - destruct l; [|simpl in H1; lia]. now destruct f2.
  - destruct f2 as [|f2].
    + destruct l; [|simpl in H2; lia]. reflexivity.
    + cbn [pairwise_sum].
      destruct (Nat.ltb_spec (List.length l) 8) as [|H8]; [reflexivity|].
      destruct (Nat.leb_spec (List.length l) 128) as [|H128]; [reflexivity|].
      set (n2 := (List.length l / 2 - (List.length l / 2) mod 8)%nat).
      assert (Hn2 : (0 < n2 <= List.length l / 2)%nat).
      { unfold n2.
        pose proof (Nat.mod_upper_bound (List.length l / 2) 8 ltac:(lia)).
        assert (64 <= List.length l / 2)%nat
          by (apply Nat.div_le_lower_bound; lia).
        lia. }
      assert (Hhalf : (List.length l / 2 < List.length l)%nat)
        by (apply Nat.div_lt; lia).
      rewrite (IH f2 (firstn n2 l)), (IH f2 (skipn n2 l));
        rewrite ?List.length_firstn, ?List.length_skipn; try lia.
      reflexivity.
Qed.

(** ** C7: prospect consistency *)



(** The order of the additions decides the ninth prospect above: added
    one after the other, nine times 0.1 miss the tolerance around 1. *)
Example nine_tenths_left_to_right :
  let left_to_right :=
    fold_left PrimFloat.add (List.map p_best nine_prospects) 0%float in
  left_to_right = 0.8999999999999999%float
  /\ PrimFloat.leb (abs (left_to_right - 1)) (0.1 * 1)%float = false
  /\ PrimFloat.leb (abs (best_sum nine_prospects - 1)) (0.1 * 1)%float = true.
Proof. vm_compute. repeat split. Qed.

(** ** C2: the assets criterion *)

(** The amount printed as shortfall is never below zero. *)
Lemma shortfall_floored (x : float) :
  PrimFloat.ltb (py_max 0 x) 0 = false.
Proof.
  unfold py_max. destruct (PrimFloat.ltb 0 x) eqn:E; [|reflexivity].
  rewrite ltb_spec in *. change (Prim2SF 0) with (S754_zero false) in *.
  destruct (Prim2SF x) as [[]|[]| |[] m e]; try discriminate E; reflexivity.
Qed.

(** C2, amended. The threshold is 200 for every market. When the
    current assets reach it the criterion adds two points, in the
    "CH Onshore" market as in any other; there, assets of 250 or more
    change the reason recorded ("AUM meets CH 250M target" instead of
    "AUM ≥ 200.0M") and nothing else. When the assets are below the
    threshold no point is added and the shortfall, the threshold less the
    assets and never below zero, is recorded as a negative. *)
Theorem aum_criterion (current_market : string) (current_assets : float)
    (s : Scoring) :
  let s' := score_aum current_market current_assets s in
  let shortfall := py_max 0 (200 - current_assets)%float in
  aum_min current_market = 200%float
  /\ PrimFloat.ltb shortfall 0 = false
  /\ (PrimFloat.leb 200 current_assets = true ->
      score s' = score s + 2
      /\ reasons_pos s'
         = (reasons_pos s
            ++ [if String.eqb current_market "CH Onshore"
                   && PrimFloat.leb 250 current_assets
                then "AUM meets CH 250M target" else "AUM ≥ 200.0M"])%list
      /\ reasons_neg s' = reasons_neg s /\ flags s' = flags s)
  /\ (PrimFloat.leb 200 current_assets = false ->
      score s' = score s
      /\ reasons_neg s'
         = (reasons_neg s
            ++ [("AUM shortfall: " ++ Py.format_f 0 shortfall ++ "M")%string])%list
      /\ reasons_pos s' = reasons_pos s /\ flags s' = flags s).
Proof.
  cbv zeta.
  assert (Hmin : aum_min current_market = 200%float)
    by (unfold aum_min; now destruct (String.eqb _ _)).
  split; [exact Hmin|]. split; [apply shortfall_floored|].
  unfold score_aum. rewrite Hmin. split.
  - intros ->.
    destruct (String.eqb current_market "CH Onshore"
              && PrimFloat.leb 250 current_assets); simpl; repeat split.
  - intros ->. simpl. repeat split. lia.
Qed.

(** Witness for [aum_criterion]: 220 in the "CH Onshore" market, and
    120.6 in the "UK" market. *)
Lemma aum_criterion_witness :
  score (score_aum "CH Onshore" 220 scoring_start) = 2
  /\ reasons_neg (score_aum "UK" 120.6 scoring_start) = ["AUM shortfall: 79M"].
Proof.
  split.
  - apply (proj1 (proj1 (proj2 (proj2
             (aum_criterion "CH Onshore" 220 scoring_start))) eq_refl)).
  - apply (proj1 (proj2 (proj2 (proj2 (proj2
             (aum_criterion "UK" 120.6 scoring_start))) eq_refl))).
Defined.

(** C2, counterexample: in the "CH Onshore" market, assets of 220, below
    the 250 tier, earn the two points. *)
Lemma aum_ch_onshore_counterexample :
  PrimFloat.ltb 220 250 = true
  /\ score (score_aum "CH Onshore" 220 scoring_start)
     = score scoring_start + 2
  /\ reasons_pos (score_aum "CH Onshore" 220 scoring_start) = ["AUM ≥ 200.0M"].
Proof. vm_compute. repeat split. Qed.

(** The boundary of the criterion: 200 scores, the float just below does
    not. *)
Example aum_boundary :
  score (score_aum "UK" 200 scoring_start) = 2
  /\ score (score_aum "UK" 199.99999999999997 scoring_start) = 0
  /\ score (score_aum "CH Onshore" 250 scoring_start) = 2
  /\ score (score_aum "CH Onshore" 199 scoring_start) = 0.
Proof. vm_compute. repeat split. Qed.

(** ** C1: the end-to-end example *)

(** C1, amended. Seven years of experience, assets of 260 in the
    "CH Onshore" market, a base salary of 250000 with a last bonus of
    150000, returns of 1.2, 1.1 and 1.0 percent, 40 clients, a Year-1 NNM
    of 10 and prospects whose best cases add up to 10.5 score 10 points
    (2+2+2+2+1+1), with the verdict "🟢 Strong Candidate"; and after a save
    of the record built from that form has succeeded, a second save of
    the identical record is skipped as a duplicate. *)
Theorem end_to_end_example (f : Form) (prospects : list Prospect) :
  years_experience f = 7 ->
  current_assets f = 260%float ->
  current_market f = "CH Onshore" ->
  base_salary f = 250000 ->
  last_bonus f = 150000 ->
  roa_y1 f = 1.2%float -> roa_y2 f = 1.1%float -> roa_y3 f = 1.0%float ->
  current_number_clients f = 40 ->
  nnm_y1 f = 10%float ->
  best_sum prospects = 10.5%float ->
  score (scoring f prospects) = 10
  /\ verdict (score (scoring f prospects)) = "🟢 Strong Candidate"
  /\ reasons_neg (scoring f prospects) = []
  /\ flags (scoring f prospects) = []
  /\ forall worksheet now reason reason' st st1,
       let record :=
         _build_data_dict f now (VInt (score (scoring f prospects)))
           (VStr (verdict (score (scoring f prospects)))) in
       _save_to_sheet_if_possible worksheet record reason st = (true, st1) ->
       _save_to_sheet_if_possible worksheet record reason' st1
       = (false, show already_saved st1).
Proof.
  intros Hy Ha Hm Hb Hl H1 H2 H3 Hc Hn Hp.
  assert (Hs : scoring f prospects
               = {| score := 10;
                    reasons_pos :=
                      ["Experience ≥7 years in market";
                       "AUM meets CH 250M target";
                       "Comp indicates hunter profile";
                       "Avg ROA 1.10% (excellent)";
                       "Client load appropriate (≤80)";
                       "Prospects Best NNM 10.5M ≈ NNM Y1 10.0M"];
                    reasons_neg := []; flags := [] |}).
  { unfold scoring, avg_roa, score_prospects.
    rewrite Hy, Ha, Hm, Hb, Hl, H1, H2, H3, Hc, Hn, Hp.
    vm_compute. reflexivity. }
  rewrite Hs. simpl score. repeat split.
  intros worksheet now reason reason' st st1 record Hsave.
  eapply save_then_duplicate; [exact Hsave|reflexivity].
Qed.

(** Witness for [end_to_end_example]: the sample form and prospects. *)
Lemma end_to_end_example_witness :
  best_sum sample_prospects = 10.5%float
  /\ score (scoring (sample_form 260) sample_prospects) = 10
  /\ verdict (score (scoring (sample_form 260) sample_prospects))
     = "🟢 Strong Candidate".
Proof.
  assert (Hp : best_sum sample_prospects = 10.5%float)
    by (vm_compute; reflexivity).
  split; [exact Hp|].
  pose proof (end_to_end_example (sample_form 260) sample_prospects
                eq_refl eq_refl eq_refl eq_refl eq_refl eq_refl eq_refl
                eq_refl eq_refl eq_refl Hp) as (H1 & H2 & _).
  split; [exact H1|exact H2].
Defined.

(** C1, counterexample: on the input of the example the score is 10, not
    9. *)
Lemma end_to_end_score_counterexample :
  years_experience (sample_form 260) = 7
  /\ current_assets (sample_form 260) = 260%float
  /\ current_market (sample_form 260) = "CH Onshore"
  /\ base_salary (sample_form 260) = 250000
  /\ last_bonus (sample_form 260) = 150000
  /\ (roa_y1 (sample_form 260), roa_y2 (sample_form 260),
      roa_y3 (sample_form 260)) = (1.2, 1.1, 1.0)%float
  /\ current_number_clients (sample_form 260) = 40
  /\ nnm_y1 (sample_form 260) = 10%float
  /\ best_sum sample_prospects = 10.5%float
  /\ score (scoring (sample_form 260) sample_prospects) <> 9.
Proof.
  repeat (split; [reflexivity|]).
  vm_compute. discriminate.
Qed.

(** ** C6: the validation gate *)

Lemma append_cons (c : ascii) (a b : string) :
  String c a ++ b = String c (a ++ b).
Proof. reflexivity. Qed.

Lemma contains_decompose (c : ascii) (s : string) :
  Py.contains c s = true -> exists a b, s = a ++ String c b.
Proof.
  induction s as [|x r IH]; simpl; [discriminate|].
  destruct (Ascii.eqb_spec x c) as [->|Hne].
  - intros _. now exists EmptyString, r.
  - intros H. destruct (IH H) as (a & b & ->).
    now exists (String x a), b.
Qed.

Lemma split_no_separator (c : ascii) (s : string) :
  Py.contains c s = false -> Py.split c s = [s].
Proof.
  induction s as [|x r IH]; simpl; [reflexivity|].
  destruct (Ascii.eqb x c); [discriminate|].
  intros H. now rewrite (IH H).
Qed.

Lemma split_with_separator (c : ascii) (s : string) :
  Py.contains c s = true -> exists p q qs, Py.split c s = p :: q :: qs.
Proof.
  induction s as [|x r IH]; simpl; [discriminate|].
  destruct (Ascii.eqb x c).
  - intros _. destruct (Py.contains c r) eqn:E.
    + destruct (IH eq_refl) as (p & q & qs & ->). eauto.
    + rewrite (split_no_separator c r E). eauto.
  - intros H. destruct (IH H) as (p & q & qs & ->). eauto.
Qed.

(** The text after the last separator closes the string. *)
Lemma split_last_item (c : ascii) (s : string) :
  Py.contains c s = true ->
  exists a, s = a ++ String c (Py.last_item (Py.split c s)).
Proof.
  unfold Py.last_item.
  induction s as [|x r IH]; simpl; [discriminate|].
  destruct (Ascii.eqb_spec x c) as [->|Hne].
  - intros _. destruct (Py.contains c r) eqn:E.
    + destruct (IH eq_refl) as [a Ha].
      destruct (split_with_separator c r E) as (p & q & qs & Hs).
      rewrite Hs in *. exists (String c a).
      rewrite append_cons. f_equal. exact Ha.
    + rewrite (split_no_separator c r E). now exists EmptyString.
  - intros H. destruct (IH H) as [a Ha].
    destruct (split_with_separator c r H) as (p & q & qs & Hs).
    rewrite Hs in *. exists (String x a).
    rewrite append_cons. f_equal. exact Ha.
Qed.

(** An address the program accepts has an at sign with a dot after it. *)
Lemma email_valid_plausible (e : string) :
  _email_valid e = true -> plausible_email e.
Proof.
  unfold _email_valid, plausible_email.
  destruct (Py.contains "@" e) eqn:E; [|discriminate]. simpl.
  intros H.
  destruct (split_last_item "@" e E) as [a Ha].
  destruct (contains_decompose "." _ H) as (b & c & Hb).
  exists a, b, c. rewrite Ha at 1. now rewrite Hb.
Qed.

Lemma inputs_not_ok (f : Form) :
  _email_valid (candidate_email f) = false
  \/ candidate_location f = "— Select —" ->
  fst (_inputs_ok_for_save f) = false.
Proof.
  unfold _inputs_ok_for_save. intros [H| ->].
  - rewrite H. simpl. now destruct (String.eqb _ _).
  - now destruct (_email_valid _).
Qed.

(** C6. When the address has no at sign followed later by a dot, or the
    location is the placeholder "— Select —", the validation fails and its
    message lists what is missing ("Candidate Email (valid)" first,
    "Candidate Location" last). The save triggers then never reach
    [_save_to_sheet_if_possible]: the session (with the stored signature)
    and the remote end (worksheet and pending calls) are left as they
    were, whatever they hold; a download in "on_pdf" mode is answered with
    the warning and a manual save with the error, each listing the missing
    fields, and nothing else is shown. *)
Theorem invalid_inputs_refuse_save (AUTO_SAVE_MODE : string)
    (worksheet : bool) (f : Form) (d : dict)
    (download_clicked manual_clicked : bool) (st : State) :
  ~ plausible_email (candidate_email f)
  \/ candidate_location f = "— Select —" ->
  let missing := snd (_inputs_ok_for_save f) in
  let st' := save_actions AUTO_SAVE_MODE worksheet f d
               download_clicked manual_clicked st in
  fst (_inputs_ok_for_save f) = false
  /\ (~ plausible_email (candidate_email f) ->
      exists rest, missing = "Candidate Email (valid)" ++ rest)
  /\ (candidate_location f = "— Select —" ->
      exists pre, missing = pre ++ "Candidate Location")
  /\ session_state st' = session_state st
  /\ remote st' = remote st
  /\ ui st'
     = (ui st
        ++ (if String.eqb AUTO_SAVE_MODE "on_pdf" && download_clicked
            then [Warning ("Not saved — missing: " ++ missing)] else [])
        ++ (if manual_clicked
            then [Error ("Please complete the required fields: " ++ missing)]
            else []))%list.
Proof.
  intros H. cbv zeta.
  assert (Hv : _email_valid (candidate_email f) = false
               \/ candidate_location f = "— Select —").
  { destruct H as [H|H]; [left|now right].
    destruct (_email_valid (candidate_email f)) eqn:E; [|reflexivity].
    exfalso. apply H. now apply email_valid_plausible. }
  pose proof (inputs_not_ok f Hv) as Hok.
  split; [exact Hok|]. split; [|split].
  - intros Hne. unfold _inputs_ok_for_save.
    destruct (_email_valid (candidate_email f)) eqn:E.
    + exfalso. apply Hne. now apply email_valid_plausible.
    + simpl. destruct (String.eqb _ _); simpl; eauto.
  - intros Hloc. unfold _inputs_ok_for_save. rewrite Hloc. simpl.
    destruct (_email_valid (candidate_email f)); simpl.
    + now exists EmptyString.
    + now exists "Candidate Email (valid), ".
  - unfold save_actions.
    destruct (_inputs_ok_for_save f) as [ok missing]. simpl in Hok. subst ok.
    rewrite andb_false_r. simpl.
    destruct (String.eqb AUTO_SAVE_MODE "on_pdf" && download_clicked);
      destruct manual_clicked; simpl; repeat split;
      rewrite <- ?List.app_assoc, ?List.app_nil_r; reflexivity.
Qed.

(** Witness for [invalid_inputs_refuse_save]: a manual save of the
    incomplete form. *)
Lemma invalid_inputs_refuse_save_witness :
  candidate_location incomplete_form = "— Select —"
  /\ _inputs_ok_for_save incomplete_form
     = (false, "Candidate Email (valid), Candidate Location")
  /\ remote (save_actions "on_pdf" true incomplete_form record_at_10h
               false true (fresh_state [])) = remote (fresh_state []).
Proof.
  split; [reflexivity|]. split; [reflexivity|].
  exact (proj1 (proj2 (proj2 (proj2 (proj2
           (invalid_inputs_refuse_save "on_pdf" true incomplete_form
              record_at_10h false true (fresh_state [])
              (or_intror eq_refl))))))).
Defined.

Example refusal_messages :
  ui (save_actions "on_pdf" true incomplete_form record_at_10h
        true true (fresh_state []))
  = [ Warning "Not saved — missing: Candidate Email (valid), Candidate Location";
      Error ("Please complete the required fields: "
             ++ "Candidate Email (valid), Candidate Location") ]
  /\ ui (save_actions "always" true incomplete_form record_at_10h
           false false (fresh_state [])) = [].
Proof. vm_compute. split; reflexivity. Qed.

Example email_checks :
  _email_valid "jane.smith@bank.ch" = true
  /\ _email_valid "jane.smith" = false
  /\ _email_valid "jane.smith@bank" = false
  /\ _email_valid "" = false
  /\ _email_valid "a@b.c@d" = false.
Proof. vm_compute. repeat split. Qed.

(** * Further properties of the code *)

(** ** The record and the sheet share one schema *)

(** X1. The record built from a form has exactly the columns of the sheet
    header, in the order of the header; its keys are therefore pairwise
    distinct. *)
Theorem record_keys_are_header (f : Form) (now : string) (sc v : pyval) :
  keys (_build_data_dict f now sc v) = HEADER_ORDER
  /\ wf_dict (_build_data_dict f now sc v).
Proof.
  split; [reflexivity|].
  apply distinct_keys_sound. reflexivity.
Qed.

(** X2. The signature fields are the header columns less "Timestamp",
    "Score" and "AI Evaluation Notes", in header order: every other column
    of a saved row takes part in the signature. *)
Theorem signature_fields_cover_header :
  signature_fields
  = List.filter (fun h => negb (existsb (String.eqb h) unsigned_columns))
      HEADER_ORDER.
Proof. reflexivity. Qed.

(** What an append does to the sheet, for any record and any header found
    on the sheet. *)
Lemma append_in_header_order_ok (d : dict) (r r' : Remote) (u : unit) :
  append_in_header_order d r = (Ok u, r') ->
  let headers :=
    match header (sheet r) with [] => HEADER_ORDER | hs => hs end in
  header (sheet r') = header (sheet r)
  /\ rows (sheet r')
     = (rows (sheet r) ++ [List.map (fun h => get d h (VStr "")) headers])%list.
Proof.
  unfold append_in_header_order.
  destruct (remote_call row_values_1 r) as [[hs|e] r1] eqn:E1;
    [|discriminate].
  intros E2. apply remote_call_ok in E1, E2.
  unfold row_values_1 in E1. unfold append_row in E2.
  injection E1 as Eh E1. injection E2 as _ E2.
  rewrite E2, E1. simpl. subst hs. split; [reflexivity|].
  now destruct (header (sheet r)).
Qed.

(** X4. When the sheet carries the expected header (or none at all), a
    successful append of the record built from a form adds the values of
    the record, in the order they were written: the timestamp first, the
    verdict last, no cell blank for want of a column. *)
Theorem built_record_row (f : Form) (now : string) (sc v : pyval)
    (r r' : Remote) (u : unit) :
  header (sheet r) = HEADER_ORDER \/ header (sheet r) = [] ->
  append_in_header_order (_build_data_dict f now sc v) r = (Ok u, r') ->
  rows (sheet r')
  = (rows (sheet r) ++ [List.map snd (_build_data_dict f now sc v)])%list.
Proof.
  intros Hh E. apply append_in_header_order_ok in E as [_ Hr].
  rewrite Hr. destruct Hh as [-> | ->]; reflexivity.
Qed.

(** Witness for [built_record_row]: the sample form saved into an empty
    sheet with the expected header. *)
Lemma built_record_row_witness :
  header (sheet (remote (fresh_state []))) = HEADER_ORDER
  /\ rows (sheet (snd (append_in_header_order record_at_10h
                         (remote (fresh_state [])))))
     = [List.map snd record_at_10h].
Proof.
  split; [reflexivity|].
  exact (built_record_row (sample_form 260) "2025-03-01 10:00:00"
           (VInt 10) (VStr "🟢 Strong Candidate")
           (remote (fresh_state []))
           (snd (append_in_header_order record_at_10h (remote (fresh_state []))))
           tt (or_introl eq_refl) eq_refl).
Defined.

(** ** More on the signature *)

Lemma make_signature_canonical (d1 d2 : dict) :
  (forall k, List.In k signature_fields ->
     _canonicalize_number (get d1 k (VStr ""))
     = _canonicalize_number (get d2 k (VStr ""))) ->
  _make_signature d1 = _make_signature d2.
Proof.
  intros H. unfold _make_signature, signature_payload.
  f_equal. f_equal. apply map_ext_in. intros k Hk. now rewrite (H k Hk).
Qed.

Lemma get_setitem (d : dict) (k k' : string) (v dflt : pyval) :
  get (setitem d k v) k' dflt = if String.eqb k k' then v else get d k' dflt.
Proof.
  unfold get. destruct (String.eqb_spec k k') as [->|Hne].
  - now rewrite lookup_key_setitem_eq.
  - now rewrite lookup_key_setitem_ne.
Qed.

(** X5. A record that lacks a field signs like the record with that field
    set to the empty string. *)
Theorem missing_field_signs_as_empty (d : dict) (k : string) :
  lookup_key d k = None ->
  _make_signature (setitem d k (VStr "")) = _make_signature d.
Proof.
  intros Hk. apply make_signature_canonical. intros k' _.
  rewrite get_setitem. destruct (String.eqb_spec k k') as [<-|Hne];
    [|reflexivity].
  unfold get. now rewrite Hk.
Qed.

(** Witness for [missing_field_signs_as_empty]: the sample record without
    its role. *)
Lemma missing_field_signs_as_empty_witness :
  lookup_key record_without_role "Current Role" = None
  /\ _make_signature (setitem record_without_role "Current Role" (VStr ""))
     = _make_signature record_without_role.
Proof.
  split; [reflexivity|].
  exact (missing_field_signs_as_empty record_without_role "Current Role"
           eq_refl).
Defined.

(** X6. The signature does not tell a number from its spelling: a field
    holding a text that [float] accepts signs like the same field holding
    that float, and a field holding an integer signs like the field
    holding the integer as a float. *)
Theorem numeric_text_signs_as_number (d : dict) (k : string) (x : float) :
  (forall s, Py.float_of_str s = Some x ->
     _make_signature (setitem d k (VStr s))
     = _make_signature (setitem d k (VFloat x)))
  /\ (forall z, Py.float_of_int z = Some x ->
        _make_signature (setitem d k (VInt z))
        = _make_signature (setitem d k (VFloat x))).
Proof.
  split.
  - intros s Hs. apply make_signature_canonical. intros k' _.
    rewrite !get_setitem. destruct (String.eqb k k'); [|reflexivity].
    destruct (canonical_float x) as (r & Hr & ->).
    unfold _canonicalize_number. now rewrite Hs, Hr.
  - intros z Hz. apply make_signature_canonical. intros k' _.
    rewrite !get_setitem. destruct (String.eqb k k'); [|reflexivity].
    destruct (canonical_float x) as (r & Hr & ->).
    unfold _canonicalize_number. now rewrite Hz, Hr.
Qed.

(** Witness for [numeric_text_signs_as_number]: the salary as the text
    " 250_000.0 ", as the integer 250000 and as the float 250000.0. *)
Lemma numeric_text_signs_as_number_witness :
  Py.float_of_str " 250_000.0 " = Some 250000%float
  /\ Py.float_of_int 250000 = Some 250000%float
  /\ _make_signature record_salary_as_text
     = _make_signature record_salary_as_float
  /\ _make_signature (setitem record_at_10h "Base Salary" (VInt 250000))
     = _make_signature record_salary_as_float.
Proof.
  assert (H1 : Py.float_of_str " 250_000.0 " = Some 250000%float)
    by (vm_compute; reflexivity).
  assert (H2 : Py.float_of_int 250000 = Some 250000%float)
    by (vm_compute; reflexivity).
  split; [exact H1|]. split; [exact H2|]. split.
  - exact (proj1 (numeric_text_signs_as_number record_at_10h "Base Salary"
                    250000%float) _ H1).
  - exact (proj2 (numeric_text_signs_as_number record_at_10h "Base Salary"
                    250000%float) _ H2).
Defined.

(** The digest always has eight words. *)
Lemma length_compress (h block : list Z) :
  List.length h = 8%nat -> List.length (Sha256.compress h block) = 8%nat.
Proof.
  intros Hh. unfold Sha256.compress.
  rewrite List.length_map, List.length_combine, Hh. reflexivity.
Qed.

Lemma length_digest (msg : list Z) : List.length (Sha256.digest msg) = 8%nat.
Proof.
  unfold Sha256.digest.
  generalize (Sha256.chunks (List.length (Sha256.words (Sha256.pad msg)))
                (Sha256.words (Sha256.pad msg))) as bs.
  assert (H0 : List.length Sha256.H0 = 8%nat) by reflexivity.
  revert H0. generalize Sha256.H0 as h.
  intros h Hh bs. revert h Hh.
  induction bs as [|b bs IH]; simpl; intros h Hh; [exact Hh|].
  apply IH. now apply length_compress.
Qed.

Lemma is_hex_lower_hex_digit (d : Z) :
  0 <= d < 16 -> is_hex_lower (Sha256.hex_digit d) = true.
Proof.
  intros H.
  assert (Hc : d = 0 \/ d = 1 \/ d = 2 \/ d = 3 \/ d = 4 \/ d = 5 \/ d = 6
               \/ d = 7 \/ d = 8 \/ d = 9 \/ d = 10 \/ d = 11 \/ d = 12
               \/ d = 13 \/ d = 14 \/ d = 15) by lia.
  repeat (destruct Hc as [->|Hc]; [reflexivity|]). subst. reflexivity.
Qed.

Lemma hex_fixed_shape (n : nat) (x : Z) (acc : string) :
  String.length (Sha256.hex_fixed n x acc) = (n + String.length acc)%nat
  /\ (all_hex_lower acc = true ->
      all_hex_lower (Sha256.hex_fixed n x acc) = true).
Proof.
  revert x acc. induction n as [|n IH]; intros x acc; simpl.
  - split; [reflexivity|tauto].
  - destruct (IH (x / 16) (String (Sha256.hex_digit (x mod 16)) acc))
      as [Hl Hh].
    split.
    + rewrite Hl. simpl. lia.
    + intros Hacc. apply Hh. simpl. rewrite Hacc, is_hex_lower_hex_digit;
        [reflexivity|]. apply Z.mod_pos_bound. lia.
Qed.

Lemma hexdigest_words (ws : list Z) :
  String.length
    (fold_right (fun w acc => Sha256.hex_fixed 8 w acc) EmptyString ws)
  = (8 * List.length ws)%nat
  /\ all_hex_lower
       (fold_right (fun w acc => Sha256.hex_fixed 8 w acc) EmptyString ws)
     = true.
Proof.
  induction ws as [|w ws [IHl IHh]]; cbn [fold_right].
  - split; reflexivity.
  - destruct (hex_fixed_shape 8 w
                (fold_right (fun w acc => Sha256.hex_fixed 8 w acc)
                   EmptyString ws)) as [Hl Hh].
    split; [|now apply Hh]. rewrite Hl, IHl. cbn [List.length]. lia.
Qed.

(** X7. Whatever the record holds, its signature is a text of 64
    lower-case hexadecimal digits. *)
Theorem signature_is_64_hex (d : dict) :
  String.length (_make_signature d) = 64%nat
  /\ all_hex_lower (_make_signature d) = true.
Proof.
  unfold _make_signature, Sha256.hexdigest.
  destruct (hexdigest_words
              (Sha256.digest
                 (Sha256.bytes_of (Json.dumps "," ":" (signature_payload d)))))
    as [Hl Hh].
  split; [|exact Hh]. rewrite Hl, length_digest. reflexivity.
Qed.

(** ** Invariants of the save path *)

(** What one call of [_save_to_sheet_if_possible] does. *)
Lemma save_outcome (worksheet : bool) (d : dict) (reason : string)
    (st : State) :
  let b := fst (_save_to_sheet_if_possible worksheet d reason st) in
  let st' := snd (_save_to_sheet_if_possible worksheet d reason st) in
  header (sheet (remote st')) = header (sheet (remote st))
  /\ prospects_list st' = prospects_list st
  /\ (exists m, ui st' = (ui st ++ [m])%list)
  /\ (b = true ->
      worksheet = true
      /\ rows (sheet (remote st'))
         = (rows (sheet (remote st))
            ++ [row_of d (header (sheet (remote st)))])%list
      /\ session_state st'
         = <["_last_sig" := VStr (_make_signature d)]> (session_state st))
  /\ (b = false ->
      sheet (remote st') = sheet (remote st)
      /\ session_state st' = session_state st).
Proof.
  cbv zeta. unfold _save_to_sheet_if_possible, row_of.
  destruct worksheet; simpl negb; cbv iota.
  - destruct (eq_str _ _).
    + simpl. repeat split; eauto; intros; discriminate.
    + destruct (append_in_header_order d (remote st)) as [[u|e] r] eqn:E.
      * pose proof (append_in_header_order_ok d _ _ u E) as [Hh Hr].
        simpl. split; [exact Hh|]. split; [reflexivity|].
        split; [eauto|]. split; [|intros; discriminate].
        intros _. split; [reflexivity|]. split; [|reflexivity].
        rewrite Hr. now destruct (header (sheet (remote st))).
      * pose proof (append_raise_sheet d _ _ e E) as Hs.
        simpl. rewrite Hs. repeat split; eauto; intros; discriminate.
  - simpl. repeat split; eauto; intros; discriminate.
Qed.

(** X8. For every record and state, [_save_to_sheet_if_possible] shows
    exactly one message and leaves the header and the prospect list alone.
    It returns [True] exactly when it has added one row (the row of the
    record) and stored the signature of the record; when it returns
    [False] the worksheet and the session are as before. *)
Theorem save_effect (worksheet : bool) (d : dict) (reason : string)
    (st : State) :
  let b := fst (_save_to_sheet_if_possible worksheet d reason st) in
  let st' := snd (_save_to_sheet_if_possible worksheet d reason st) in
  header (sheet (remote st')) = header (sheet (remote st))
  /\ prospects_list st' = prospects_list st
  /\ (exists m, ui st' = (ui st ++ [m])%list)
  /\ (b = true ->
      worksheet = true
      /\ rows (sheet (remote st'))
         = (rows (sheet (remote st))
            ++ [row_of d (header (sheet (remote st)))])%list
      /\ session_state st'
         = <["_last_sig" := VStr (_make_signature d)]> (session_state st))
  /\ (b = false ->
      sheet (remote st') = sheet (remote st)
      /\ session_state st' = session_state st).
Proof. exact (save_outcome worksheet d reason st). Qed.

Lemma run_invariant_refl (st : State) (d : dict) : run_invariant st d st.
Proof.
  repeat split; auto. exists []. now rewrite List.app_nil_r.
Qed.

Lemma run_invariant_show (st0 st : State) (d : dict) (m : message) :
  run_invariant st0 d st -> run_invariant st0 d (show m st).
Proof.
  intros (Hh & Hp & [ms Hu] & Hk & Hr). repeat split; auto.
  exists (ms ++ [m])%list. simpl. now rewrite Hu, List.app_assoc.
Qed.

Lemma run_invariant_autosaved (st0 st : State) (d : dict) (v : pyval) :
  run_invariant st0 d st ->
  run_invariant st0 d (set_session "_autosaved_hash" v st).
Proof.
  intros (Hh & Hp & Hu & Hk & Hr). repeat split; auto.
  - intros k H1 H2. simpl. rewrite lookup_insert_ne by congruence.
    now apply Hk.
  - destruct Hr as [Hr|[Hr Hs]]; [now left|right]. split; [exact Hr|].
    simpl. now rewrite lookup_insert_ne by discriminate.
Qed.

Lemma run_invariant_save (st0 st : State) (d : dict) (worksheet : bool)
    (reason : string) :
  run_invariant st0 d st ->
  run_invariant st0 d (snd (_save_to_sheet_if_possible worksheet d reason st)).
Proof.
  intros Hinv.
  destruct worksheet; [|now apply run_invariant_show].
  destruct (eq_str (session_state st !! "_last_sig") (_make_signature d))
    eqn:Hdup.
  { rewrite (save_duplicate d reason st Hdup). now apply run_invariant_show. }
  destruct Hinv as (Hh & Hp & [ms Hu] & Hk & Hr).
  destruct Hr as [Hr|[_ Hs]]; [|congruence].
  destruct (save_outcome true d reason st) as (Hh' & Hp' & [m Hm] & Ht & Hf).
  destruct (_save_to_sheet_if_possible true d reason st) as [b st'].
  simpl in *.
  split; [congruence|]. split; [congruence|].
  split; [exists (ms ++ [m])%list; now rewrite Hm, Hu, List.app_assoc|].
  destruct b.
  - destruct (Ht eq_refl) as (_ & Hrows & Hss). split.
    + intros k H1 H2. rewrite Hss, lookup_insert_ne by congruence.
      now apply Hk.
    + right. split; [now rewrite Hrows, Hr, Hh|].
      rewrite Hss. apply eq_str_stored.
  - destruct (Hf eq_refl) as [Hsh Hss]. split.
    + intros k H1 H2. rewrite Hss. now apply Hk.
    + left. now rewrite Hsh.
Qed.

(** Walks down the nest of triggers, one step of the run at a time. *)
Ltac run_steps :=
  repeat first
    [ assumption
    | apply run_invariant_refl
    | apply run_invariant_show
    | apply run_invariant_autosaved
    | apply run_invariant_save
    | match goal with
      | |- run_invariant ?s0 ?d
             (let (_, _) := _save_to_sheet_if_possible ?w ?d ?r ?x in _) =>
          let H := fresh "Hsave" in
          assert (H : run_invariant s0 d
                        (snd (_save_to_sheet_if_possible w d r x)))
            by (apply run_invariant_save; run_steps);
          destruct (_save_to_sheet_if_possible w d r x) as [[] ?];
          simpl in H
      | |- run_invariant _ _ (if ?c then _ else _) => destruct c
      end ].

(** The save triggers keep the invariant of a run. *)
Lemma save_actions_invariant (AUTO_SAVE_MODE : string)
    (worksheet : bool) (f : Form) (d : dict)
    (download_clicked manual_clicked : bool) (st : State) :
  run_invariant st d
    (save_actions AUTO_SAVE_MODE worksheet f d
       download_clicked manual_clicked st).
Proof.
  unfold save_actions.
  destruct (_inputs_ok_for_save f) as [ok missing].
  cbv zeta. run_steps.
Qed.

(** X9. One run of the save triggers, whatever the mode and whichever
    buttons were pressed, adds at most one row: the header, the rows
    already there, the prospect list, the messages shown before and every
    session key other than "_last_sig" and "_autosaved_hash" are left
    alone; and when a row was added it is the row of the record of the
    run, whose signature is then the stored one. *)
Theorem save_actions_at_most_one_row (AUTO_SAVE_MODE : string)
    (worksheet : bool) (f : Form) (d : dict)
    (download_clicked manual_clicked : bool) (st : State) :
  run_invariant st d
    (save_actions AUTO_SAVE_MODE worksheet f d
       download_clicked manual_clicked st).
Proof. exact (save_actions_invariant AUTO_SAVE_MODE worksheet f d
                download_clicked manual_clicked st). Qed.

(** X10. Without a worksheet no save trigger reaches the sheet or the
    stored signature: whatever the mode, the form and the buttons pressed,
    the remote end (worksheet and pending calls) and "_last_sig" are as
    before the run. *)
Theorem offline_run_keeps_remote (AUTO_SAVE_MODE : string) (f : Form)
    (d : dict) (download_clicked manual_clicked : bool) (st : State) :
  let st' := save_actions AUTO_SAVE_MODE false f d
               download_clicked manual_clicked st in
  remote st' = remote st
  /\ session_state st' !! "_last_sig" = session_state st !! "_last_sig".
Proof.
  cbv zeta. unfold save_actions.
  destruct (_inputs_ok_for_save f) as [ok missing].
  unfold _save_to_sheet_if_possible. simpl negb. cbv iota zeta.
  destruct (String.eqb AUTO_SAVE_MODE "always" && ok);
    destruct (String.eqb AUTO_SAVE_MODE "on_pdf" && download_clicked);
    destruct manual_clicked; destruct ok;
    repeat match goal with
           | |- context [if ?c then _ else _] => destruct c
           end;
    simpl; split; try reflexivity;
    rewrite ?lookup_insert_ne by discriminate; reflexivity.
Qed.

Lemma current_hash_not_empty (f : Form) :
  String.eqb (current_hash f) "" = false.
Proof. reflexivity. Qed.

(** X11. The always-on auto-save fires once per key. In "always" mode,
    with valid inputs and no button pressed, a run that added a row has
    recorded the key of the form (address, NNM figures, assets, base
    salary); a further run with the same form then leaves the whole state
    as it is: no message, no remote call, no row. *)
Theorem always_mode_settles (worksheet : bool) (f : Form) (d d' : dict)
    (st : State) :
  fst (_inputs_ok_for_save f) = true ->
  let st1 := save_actions "always" worksheet f d false false st in
  rows (sheet (remote st1)) <> rows (sheet (remote st)) ->
  session_state st1 !! "_autosaved_hash" = Some (VStr (current_hash f))
  /\ save_actions "always" worksheet f d' false false st1 = st1.
Proof.
  intros Hok. cbv zeta.
  assert (Hskip : forall s d0,
            session_state s !! "_autosaved_hash" = Some (VStr (current_hash f)) ->
            save_actions "always" worksheet f d0 false false s = s).
  { intros s d0 Hs. unfold save_actions.
    destruct (_inputs_ok_for_save f) as [ok missing]. simpl in Hok. subst ok.
    change (String.eqb "always" "always" && true) with true.
    change (String.eqb "always" "on_pdf" && false) with false.
    cbv iota zeta. rewrite Hs. cbn [truthy negb].
    rewrite current_hash_not_empty. cbn [negb]. rewrite Hs.
    unfold eq_str. rewrite String.eqb_refl. reflexivity. }
  remember (save_actions "always" worksheet f d false false st) as st1 eqn:E1.
  unfold save_actions in E1.
  destruct (_inputs_ok_for_save f) as [ok missing]. simpl in Hok. subst ok.
  change (String.eqb "always" "always" && true) with true in E1.
  change (String.eqb "always" "on_pdf" && false) with false in E1.
  cbv iota zeta in E1.
  set (st0 := if negb _ then _ else st) in E1.
  assert (Hrows0 : rows (sheet (remote st0)) = rows (sheet (remote st)))
    by (unfold st0; now destruct (negb _)).
  destruct (negb (eq_str (session_state st0 !! "_autosaved_hash")
                    (current_hash f))).
  2: { subst st1. intros Hne. now rewrite Hrows0 in Hne. }
  pose proof (save_outcome worksheet d "AUTO (always)" st0)
    as (_ & _ & _ & _ & Hf).
  destruct (_save_to_sheet_if_possible worksheet d "AUTO (always)" st0)
    as [[] st'] eqn:E; simpl in Hf.
  - intros _.
    assert (Hh : session_state st1 !! "_autosaved_hash"
                 = Some (VStr (current_hash f)))
      by (subst st1; simpl; apply lookup_insert_eq).
    split; [exact Hh|]. now apply Hskip.
  - intros Hne. destruct (Hf eq_refl) as [Hsh _].
    exfalso. apply Hne. subst st1. now rewrite Hsh, Hrows0.
Qed.

(** Witness for [always_mode_settles]: the sample form auto-saved into an
    empty sheet. *)
Lemma always_mode_settles_witness :
  fst (_inputs_ok_for_save (sample_form 260)) = true
  /\ rows (sheet (remote (save_actions "always" true (sample_form 260)
                            record_at_10h false false (fresh_state []))))
     <> rows (sheet (remote (fresh_state [])))
  /\ save_actions "always" true (sample_form 260) record_at_11h false false
       (save_actions "always" true (sample_form 260) record_at_10h
          false false (fresh_state []))
     = save_actions "always" true (sample_form 260) record_at_10h
         false false (fresh_state []).
Proof.
  assert (H1 : fst (_inputs_ok_for_save (sample_form 260)) = true)
    by reflexivity.
  assert (H2 : rows (sheet (remote (save_actions "always" true
                                      (sample_form 260) record_at_10h
                                      false false (fresh_state []))))
               <> rows (sheet (remote (fresh_state []))))
    by (vm_compute; discriminate).
  split; [exact H1|]. split; [exact H2|].
  exact (proj2 (always_mode_settles true (sample_form 260) record_at_10h
                  record_at_11h (fresh_state []) H1 H2)).
Defined.

(** ** The score on its way through the session *)

Lemma verdict_preview_tier (sc : Z) :
  _verdict_preview (verdict sc) = tier_label sc.
Proof.
  unfold verdict, tier_label.
  destruct (7 <=? sc); [reflexivity|]. destruct (4 <=? sc); reflexivity.
Qed.

(** X12. After a run of the script, whatever the mode, the buttons and
    the outcome of the save, the session holds the score of the form of
    that run and its verdict, and the fit indicator read from it (the one
    the sidebar of the next run shows, the sidebar being drawn before the
    scoring) is the tier of that score: Strong from 7, Medium from 4, Weak
    below. Before any run the indicator is a dash. *)
Theorem run_stores_score (AUTO_SAVE_MODE : string) (worksheet : bool)
    (now : string) (f : Form) (download_clicked manual_clicked : bool)
    (st : State) :
  let sc := score (scoring f (prospects_list st)) in
  let st' := script_run AUTO_SAVE_MODE worksheet now f
               download_clicked manual_clicked st in
  session_state st' !! "_score" = Some (VInt sc)
  /\ session_state st' !! "_verdict" = Some (VStr (verdict sc))
  /\ fit_indicator st' = Some (tier_label sc)
  /\ fit_indicator (fresh_state []) = Some "—".
Proof.
  cbv zeta. unfold script_run.
  set (sc := score (scoring f (prospects_list st))).
  set (st0 := set_session "_verdict" (VStr (verdict sc))
                (set_session "_score" (VInt sc) st)).
  set (d := _build_data_dict f now _ _).
  destruct (save_actions_invariant AUTO_SAVE_MODE worksheet f d
              download_clicked manual_clicked st0)
    as (_ & _ & _ & Hk & _).
  assert (Hs : session_state
                 (save_actions AUTO_SAVE_MODE worksheet f d
                    download_clicked manual_clicked st0) !! "_score"
               = Some (VInt sc)).
  { rewrite Hk by discriminate. unfold st0. simpl.
    rewrite lookup_insert_ne by discriminate. apply lookup_insert_eq. }
  assert (Hv : session_state
                 (save_actions AUTO_SAVE_MODE worksheet f d
                    download_clicked manual_clicked st0) !! "_verdict"
               = Some (VStr (verdict sc))).
  { rewrite Hk by discriminate. unfold st0. simpl. apply lookup_insert_eq. }
  split; [exact Hs|]. split; [exact Hv|]. split; [|reflexivity].
  unfold fit_indicator. rewrite Hv. f_equal. apply verdict_preview_tier.
Qed.

(** ** The prospects editor *)

(** Reads a session key through a chain of assignments. *)
Ltac read_session :=
  simpl;
  repeat first [ rewrite lookup_insert_eq
               | rewrite lookup_insert_ne by discriminate ].

Lemma existsb_sources (s : string) :
  existsb (String.eqb s) SOURCES = true <-> List.In s SOURCES.
Proof.
  rewrite existsb_exists. split.
  - intros (x & Hx & He). apply String.eqb_eq in He. now subst.
  - intros H. exists s. split; [exact H|apply String.eqb_refl].
Qed.

Lemma check_amount_spec (errs : list string) (lv : string * pyval) :
  exists e, check_amount errs lv = (errs ++ e)%list
            /\ (e = [] <-> amount_ok (snd lv)).
Proof.
  unfold check_amount, amount_ok.
  destruct (py_float (snd lv)) as [x|].
  - destruct (PrimFloat.ltb x 0) eqn:E.
    + eexists. split; [reflexivity|]. split; [discriminate|].
      intros (y & [= <-] & Hy). congruence.
    + exists []. split; [now rewrite List.app_nil_r|]. split; eauto.
  - eexists. split; [reflexivity|]. split; [discriminate|].
    intros (y & Hy & _). discriminate.
Qed.

(** [_validate_row] in terms of the stripped name. *)
Lemma validate_row_spec (name source : string) (wealth best worst : pyval) :
  _validate_row name source wealth best worst = []
  <-> str_strip name <> ""
      /\ List.In source SOURCES
      /\ amount_ok wealth /\ amount_ok best /\ amount_ok worst.
Proof.
  unfold _validate_row. cbn [fold_left].
  set (e1 := if String.eqb name "" || String.eqb (str_strip name) ""
             then _ else _).
  set (e2 := if negb (existsb (String.eqb source) SOURCES) then _ else e1).
  destruct (check_amount_spec e2 ("Wealth (M)", wealth)) as (a1 & -> & H1).
  destruct (check_amount_spec (e2 ++ a1) ("Best NNM (M)", best))
    as (a2 & -> & H2).
  destruct (check_amount_spec ((e2 ++ a1) ++ a2) ("Worst NNM (M)", worst))
    as (a3 & -> & H3).
  simpl snd in *.
  assert (He1 : e1 = [] <-> str_strip name <> "").
  { unfold e1. destruct (String.eqb_spec name "") as [->|Hn]; simpl.
    - split; [discriminate|]. intros H. now contradiction H.
    - destruct (String.eqb_spec (str_strip name) "") as [Hs|Hs]; simpl.
      + split; [discriminate|]. intros H. contradiction.
      + split; auto. }
  assert (He2 : e2 = [] <-> e1 = [] /\ List.In source SOURCES).
  { unfold e2. rewrite <- existsb_sources.
    destruct (existsb (String.eqb source) SOURCES); simpl.
    - tauto.
    - split; [intros H; now destruct e1|intros [_ H]; discriminate]. }
  split.
  - intros H.
    apply List.app_eq_nil in H as [H Ha3].
    apply List.app_eq_nil in H as [H Ha2].
    apply List.app_eq_nil in H as [H Ha1].
    apply He2 in H as [H Hs]. apply He1 in H. tauto.
  - intros (Hn & Hs & Hw & Hb & Hx).
    apply H1 in Hw. apply H2 in Hb. apply H3 in Hx. subst a1 a2 a3.
    rewrite !List.app_nil_r. apply He2. split; [now apply He1|exact Hs].
Qed.

(** Every character of a text has a byte at least. *)
Lemma chars_bytes (s : string) :
  List.Forall (fun ch => snd ch <> "") (Py.chars s).
Proof.
  assert (H : forall n s, (String.length s <= n)%nat ->
                List.Forall (fun ch => snd ch <> "") (Py.chars s)).
  { clear s. induction n as [|n IH]; intros s Hn.
    - destruct s; [constructor|simpl in Hn; lia].
    - destruct s as [|a0 r0]; [constructor|]. cbn [Py.chars]. cbv zeta.
      repeat match goal with
             | |- context [if ?b then _ else _] => destruct b
             | |- context [match ?r with
                           | EmptyString => _
                           | String _ _ => _
                           end] => destruct r
             end;
        repeat constructor; try discriminate;
        apply IH; simpl in *; lia. }
  now apply (H (String.length s)).
Qed.

Lemma text_empty (l : list (Z * string)) :
  List.Forall (fun ch => snd ch <> "") l -> Py.text l = "" -> l = [].
Proof.
  destruct l as [|[c b] r]; [reflexivity|].
  intros H. inversion H as [|? ? Hb _]; subst. simpl in *.
  destruct b; [contradiction|discriminate].
Qed.

Lemma lstrip_chars_forall (P : Z * string -> Prop) (l : list (Z * string)) :
  List.Forall P l -> List.Forall P (Py.lstrip_chars l).
Proof.
  induction 1 as [|[c b] r Hx Hr IH]; simpl; [constructor|].
  destruct (Py.is_whitespace c); [exact IH|now constructor].
Qed.

Lemma rstrip_chars_forall (P : Z * string -> Prop) (l : list (Z * string)) :
  List.Forall P l -> List.Forall P (Py.rstrip_chars l).
Proof.
  induction 1 as [|[c b] r Hx Hr IH]; simpl; [constructor|].
  destruct (Py.rstrip_chars r).
  - destruct (Py.is_whitespace c); repeat constructor; assumption.
  - now constructor.
Qed.

Lemma lstrip_chars_blank (l : list (Z * string)) :
  forallb (fun ch => Py.is_whitespace (fst ch)) (Py.lstrip_chars l)
  = forallb (fun ch => Py.is_whitespace (fst ch)) l.
Proof.
  induction l as [|[c b] r IH]; simpl; [reflexivity|].
  destruct (Py.is_whitespace c) eqn:E; simpl; [exact IH|now rewrite E].
Qed.

Lemma rstrip_chars_blank (l : list (Z * string)) :
  Py.rstrip_chars l = []
  <-> forallb (fun ch => Py.is_whitespace (fst ch)) l = true.
Proof.
  induction l as [|[c b] r IH]; simpl; [tauto|].
  destruct (Py.rstrip_chars r) as [|x r'].
  - destruct (Py.is_whitespace c); simpl.
    + split; [intros _; now apply IH|reflexivity].
    + split; discriminate.
  - split; [discriminate|]. intros H. apply andb_prop in H as [_ H].
    apply IH in H. discriminate.
Qed.

(** [s.strip()] is empty exactly when every character of [s] is white
    space. *)
Lemma strip_empty (s : string) :
  Py.strip s = ""
  <-> forallb (fun ch => Py.is_whitespace (fst ch)) (Py.chars s) = true.
Proof.
  unfold Py.strip. rewrite <- lstrip_chars_blank, <- rstrip_chars_blank.
  split; [|now intros ->].
  apply text_empty, rstrip_chars_forall, lstrip_chars_forall, chars_bytes.
Qed.

(** X13. [_validate_row] returns no error exactly when the name has a
    character that is not white space, the source is one of the three
    sources, and each of the three amounts converts to a float that is
    not below zero. *)
Theorem validate_row_accepts (name source : string)
    (wealth best worst : pyval) :
  _validate_row name source wealth best worst = []
  <-> (exists ch, List.In ch (Py.chars name)
                  /\ Py.is_whitespace (fst ch) = false)
      /\ List.In source SOURCES
      /\ amount_ok wealth /\ amount_ok best /\ amount_ok worst.
Proof.
  rewrite validate_row_spec.
  assert (H : str_strip name <> ""
              <-> exists ch, List.In ch (Py.chars name)
                             /\ Py.is_whitespace (fst ch) = false).
  { unfold str_strip. rewrite strip_empty.
    destruct (forallb _ (Py.chars name)) eqn:E.
    - split; [intros H; now contradiction H|].
      intros (ch & Hin & Hch). rewrite forallb_forall in E.
      rewrite (E ch Hin) in Hch. discriminate.
    - split; [intros _|discriminate].
      induction (Py.chars name) as [|x r IH]; [discriminate|].
      simpl in E. destruct (Py.is_whitespace (fst x)) eqn:Ex.
      + destruct (IH E) as (ch & Hin & Hch). exists ch. split; [now right|].
        exact Hch.
      + exists x. split; [now left|exact Ex]. }
  now rewrite H.
Qed.

(** Witness for [validate_row_accepts]: the entry " Trust C " with its
    amounts; a name made of a no-break space and an ideographic space is
    refused. *)
Lemma validate_row_accepts_witness :
  _validate_row "  Trust C " "Inherited" (VFloat 60) (VFloat 3) (VFloat 0.5)
  = []
  /\ (exists ch, List.In ch (Py.chars "  Trust C ")
                 /\ Py.is_whitespace (fst ch) = false)
  /\ _validate_row wide_blanks "Inherited" (VFloat 60) (VFloat 3) (VFloat 0.5)
     = ["Name is required."].
Proof.
  assert (H : _validate_row "  Trust C " "Inherited"
                (VFloat 60) (VFloat 3) (VFloat 0.5) = [])
    by (vm_compute; reflexivity).
  split; [exact H|].
  split; [exact (proj1 (proj1 (validate_row_accepts _ _ _ _ _) H))|].
  vm_compute. reflexivity.
Defined.

(** What the entry fields hold once the widgets have been read. *)
Lemma entry_after_widgets (w : Widgets) (st : State) :
  entry_errors (editor_widgets w st)
  = Some (_validate_row (p_name_input w) (p_source_input w)
            (VFloat (p_wealth_input w)) (VFloat (p_best_input w))
            (VFloat (p_worst_input w)))
  /\ entry_prospect (editor_widgets w st)
     = Some {| p_name := str_strip (p_name_input w);
               p_source := p_source_input w;
               p_wealth := p_wealth_input w;
               p_best := p_best_input w;
               p_worst := p_worst_input w |}
  /\ edit_index (editor_widgets w st) = edit_index st
  /\ prospects_list (editor_widgets w st) = prospects_list st
  /\ ui (editor_widgets w st) = ui st.
Proof.
  unfold entry_errors, entry_prospect, edit_index, editor_widgets.
  read_session. repeat split.
Qed.

Lemma init_editor_frame (st : State) :
  prospects_list (init_editor st) = prospects_list st
  /\ ui (init_editor st) = ui st
  /\ remote (init_editor st) = remote st.
Proof.
  unfold init_editor, set_default.
  repeat match goal with
         | |- context [match ?x with Some _ => _ | None => _ end] =>
             destruct x
         end; repeat split.
Qed.

(** An entry that passes the validation makes a well-formed prospect. *)
Lemma entry_well_formed (st : State) (p : Prospect) :
  entry_errors st = Some [] -> entry_prospect st = Some p -> well_formed p.
Proof.
  unfold entry_errors, entry_prospect.
  destruct (session_state st !! "p_name") as [[n| | |]|]; try discriminate.
  destruct (session_state st !! "p_source") as [[s| | |]|]; try discriminate.
  destruct (session_state st !! "p_wealth") as [w|]; try discriminate.
  destruct (session_state st !! "p_best") as [b|]; try discriminate.
  destruct (session_state st !! "p_worst") as [x|]; try discriminate.
  intros [= Hv]. apply validate_row_spec in Hv
    as (Hn & Hs & (fw & Hw & Hw0) & (fb & Hb & Hb0) & (fx & Hx & Hx0)).
  rewrite Hw, Hb, Hx. intros [= <-]. repeat split; assumption.
Qed.

Lemma on_add_cases (st st' : State) :
  on_add st = Some st' ->
  (prospects_list st' = prospects_list st
   /\ exists errs, entry_errors st = Some errs /\ errs <> []
                   /\ ui st' = (ui st ++ [Error (bullet_list errs)])%list)
  \/ (exists p, entry_errors st = Some [] /\ entry_prospect st = Some p
                /\ prospects_list st' = (prospects_list st ++ [p])%list
                /\ ui st' = (ui st ++ [Success "Prospect added."])%list).
Proof.
  unfold on_add.
  destruct (entry_errors st) as [[|e errs]|]; [| |discriminate].
  - destruct (entry_prospect st) as [p|]; [|discriminate].
    intros [= <-]. right. exists p. repeat split.
  - intros [= <-]. left. split; [reflexivity|].
    exists (e :: errs). repeat split. discriminate.
Qed.

Lemma on_update_cases (st st' : State) :
  on_update st = Some st' ->
  prospects_list st' = prospects_list st
  \/ (exists p idx l,
        edit_index st = Some idx
        /\ entry_errors st = Some [] /\ entry_prospect st = Some p
        /\ list_setitem (prospects_list st) idx p = Some l
        /\ prospects_list st' = l
        /\ edit_index st' = Some (-1)).
Proof.
  unfold on_update.
  destruct (edit_index st) as [idx|]; [|discriminate].
  destruct (entry_errors st) as [[|e errs]|]; [| |discriminate].
  - destruct (entry_prospect st) as [p|]; [|discriminate].
    destruct (list_setitem (prospects_list st) idx p) as [l|] eqn:E;
      [|discriminate].
    intros [= <-]. right. exists p, idx, l. repeat split; try assumption.
    unfold edit_index. read_session. reflexivity.
  - intros [= <-]. now left.
Qed.

Lemma list_setitem_shape {A : Type} (l l' : list A) (idx : Z) (v : A) :
  list_setitem l idx v = Some l' ->
  exists i, (i < List.length l)%nat /\ l' = <[i := v]> l.
Proof.
  unfold list_setitem.
  destruct (_ && _) eqn:E; [|discriminate]. intros [= <-].
  apply andb_prop in E as [E1 E2].
  apply Z.leb_le in E1. apply Z.ltb_lt in E2.
  eexists. split; [|reflexivity]. lia.
Qed.

(** The import block adds rows at the end of the list and shows one
    message; it leaves the session and the sheet alone. *)
Lemma import_csv_frame (up : Upload) (st : State) :
  session_state (import_csv up st) = session_state st
  /\ prospects_list (import_csv up st)
     = (prospects_list st ++ imported up)%list
  /\ remote (import_csv up st) = remote st.
Proof.
  destruct up as [|e|cols trows]; simpl; rewrite ?List.app_nil_r; auto.
  destruct (missing_column cols); simpl; rewrite ?List.app_nil_r; auto.
Qed.

Lemma import_csv_ui (up : Upload) (st1 st2 : State) :
  ui st1 = ui st2 -> ui (import_csv up st1) = ui (import_csv up st2).
Proof.
  intros H. destruct up as [|e|cols trows]; simpl; [exact H|now rewrite H|].
  destruct (missing_column cols); simpl; now rewrite H.
Qed.

Lemma edit_index_import_csv (up : Upload) (st : State) :
  edit_index (import_csv up st) = edit_index st.
Proof.
  unfold edit_index. now rewrite (proj1 (import_csv_frame up st)).
Qed.

(** The state in which the buttons of section 3 are looked at. *)
Lemma section3_entry (up : Upload) (w : Widgets) (st : State) :
  let s := editor_widgets w (import_csv up (init_editor st)) in
  entry_errors s
  = Some (_validate_row (p_name_input w) (p_source_input w)
            (VFloat (p_wealth_input w)) (VFloat (p_best_input w))
            (VFloat (p_worst_input w)))
  /\ entry_prospect s
     = Some {| p_name := str_strip (p_name_input w);
               p_source := p_source_input w;
               p_wealth := p_wealth_input w;
               p_best := p_best_input w;
               p_worst := p_worst_input w |}
  /\ edit_index s = edit_index (init_editor st)
  /\ prospects_list s = (prospects_list st ++ imported up)%list
  /\ ui s = ui (import_csv up st).
Proof.
  cbv zeta.
  destruct (entry_after_widgets w (import_csv up (init_editor st)))
    as (He & Hp & Hi & Hl & Hu).
  destruct (import_csv_frame up (init_editor st)) as (_ & Hl1 & _).
  destruct (init_editor_frame st) as (Hl0 & Hu0 & _).
  rewrite He, Hp, Hi, Hl, Hu, Hl1, Hl0, edit_index_import_csv.
  repeat split. now apply import_csv_ui.
Qed.

(** X14. The entry form keeps the prospect list well-formed and changes
    it by one entry at most; rows come in unchecked through the import
    only. Take the list as it stands once the rows of an uploaded table
    have been added at its end: after section 3 of a run, whatever was
    typed and whichever button was pressed, the list has grown by one,
    shrunk by one, or kept its length; and if every prospect of it has a
    non-empty name, one of the three sources and no amount below zero,
    then every prospect still has. *)
Theorem section3_keeps_well_formed (up : Upload) (w : Widgets) (c : Click)
    (st st' : State) (rerun : bool) :
  section3 up w c st = Some (st', rerun) ->
  let l := (prospects_list st ++ imported up)%list in
  (List.Forall well_formed l -> List.Forall well_formed (prospects_list st'))
  /\ (List.length l - 1 <= List.length (prospects_list st')
      <= List.length l + 1)%nat.
Proof.
  cbv zeta. unfold section3.
  destruct (section3_entry up w st) as (_ & _ & _ & Hl & _).
  set (st1 := editor_widgets w (import_csv up (init_editor st))) in *.
  clearbody st1. rewrite <- Hl. clear Hl.
  destruct (edit_index st1) as [ei|]; [|discriminate].
  assert (Hh : forall st2,
            match c with
            | AddClick => if negb (ei =? -1) then Some st1 else on_add st1
            | UpdateClick =>
                if negb (ei =? -1) then on_update st1 else Some st1
            | CancelClick =>
                if negb (ei =? -1) then Some (on_cancel st1) else Some st1
            | _ => Some st1
            end = Some st2 ->
            (List.Forall well_formed (prospects_list st1) ->
             List.Forall well_formed (prospects_list st2))
            /\ (List.length (prospects_list st1)
                <= List.length (prospects_list st2)
                <= List.length (prospects_list st1) + 1)%nat
            /\ (match c with
                | EditClick _ | DeleteClick _ => st2 = st1
                | _ => True
                end)).
  { intros st2. destruct c; destruct (negb (ei =? -1));
      try (intros [= <-]; repeat split; auto; simpl; lia).
    - intros H. apply on_add_cases in H
        as [[H _]|(p & He & Hp & H & _)]; rewrite H.
      + repeat split; auto; lia.
      + split; [|split; [rewrite List.length_app; simpl; lia|exact I]].
        intros Hwf1. apply Forall_app. split; [exact Hwf1|].
        constructor; [|constructor]. now apply (entry_well_formed st1).
    - intros H. apply on_update_cases in H
        as [H|(p & idx & l & _ & He & Hp & Hs & H & _)]; rewrite H.
      + repeat split; auto; lia.
      + apply list_setitem_shape in Hs as (i & Hi & ->).
        rewrite length_insert. split; [|split; [lia|exact I]].
        intros Hwf1. apply Forall_insert; [exact Hwf1|].
        now apply (entry_well_formed st1). }
  destruct (match c with
            | AddClick => _ | UpdateClick => _ | CancelClick => _ | _ => _
            end) as [st2|] eqn:E; [|discriminate].
  destruct (Hh st2 eq_refl) as (Hwf2 & Hlen2 & Hc).
  destruct c; try (intros [= <- _]; split; [exact Hwf2|lia]).
  - subst st2. destruct (prospects_list st1 !! i);
      intros [= <- _]; split; auto; simpl; lia.
  - subst st2. destruct (prospects_list st1 !! i) eqn:Ei;
      intros [= <- _]; [|split; [auto|lia]].
    simpl. split; [intros Hwf1; now apply Forall_delete|].
    rewrite length_delete by eauto. lia.
Qed.

Lemma sample_prospects_well_formed : List.Forall well_formed sample_prospects.
Proof.
  repeat constructor; try discriminate; simpl; tauto.
Qed.

(** Witness for [section3_keeps_well_formed]: " Trust C " added to the
    sample prospects. *)
Lemma section3_keeps_well_formed_witness :
  exists st',
    section3 NoFile entry_c AddClick (fresh_state []) = Some (st', false)
    /\ List.Forall well_formed (prospects_list st').
Proof.
  eexists. split; [vm_compute; reflexivity|].
  eapply (fun H => proj1 (section3_keeps_well_formed NoFile entry_c AddClick
                            (fresh_state []) _ false H)).
  - vm_compute. reflexivity.
  - exact sample_prospects_well_formed.
Defined.

(** The rows of an uploaded table are not checked: the second row of the
    sample table comes in with a blank name, a source outside the list
    and a wealth below zero; its empty cells count as zero. *)
Example import_is_unchecked :
  option_map (fun r => List.map p_name (prospects_list (fst r)))
    (section3 sample_upload entry_blank NoClick (fresh_state []))
  = Some ["Family office A"; "Entrepreneur B"; "Pension fund D"; " "]
  /\ option_map (fun r => ui (fst r))
       (section3 sample_upload entry_blank NoClick (fresh_state []))
     = Some [Success "Imported 2 prospects."]
  /\ List.map (fun p => (p_source p, p_wealth p, p_best p, p_worst p))
       (imported sample_upload)
     = [("Inherited", 200%float, 8%float, 2.5%float);
        ("Referral", (-5)%float, 0%float, 0%float)]
  /\ imported (Table ["Name"; "Source"; "Wealth"] []) = []
  /\ ui (import_csv (Table ["Name"; "Source"; "Wealth"] []) (fresh_state []))
     = [Error "Missing column in CSV: Wealth (M)"].
Proof. vm_compute. repeat split. Qed.

Lemma set_default_lookup_ne (k k' : string) (v : pyval) (st : State) :
  k <> k' ->
  session_state (set_default k v st) !! k' = session_state st !! k'.
Proof.
  intros H. unfold set_default.
  destruct (session_state st !! k); [reflexivity|].
  simpl. now rewrite lookup_insert_ne.
Qed.

Lemma set_default_lookup_eq (k : string) (v : pyval) (st : State) :
  session_state (set_default k v st) !! k
  = Some (default v (session_state st !! k)).
Proof.
  unfold set_default.
  destruct (session_state st !! k) eqn:E; simpl; [exact E|].
  apply lookup_insert_eq.
Qed.

Lemma lookup_edit_index_init_editor (st : State) :
  session_state (init_editor st) !! "edit_index"
  = Some (default (VInt (-1)) (session_state st !! "edit_index")).
Proof.
  unfold init_editor.
  rewrite !set_default_lookup_ne by discriminate.
  apply set_default_lookup_eq.
Qed.

Lemma edit_index_init_editor (st : State) (z : Z) :
  edit_index st = Some z -> edit_index (init_editor st) = Some z.
Proof.
  unfold edit_index. rewrite lookup_edit_index_init_editor.
  destruct (session_state st !! "edit_index"); [tauto|discriminate].
Qed.

Lemma edit_index_fresh (st : State) :
  session_state st !! "edit_index" = None ->
  edit_index (init_editor st) = Some (-1).
Proof.
  intros E. unfold edit_index.
  now rewrite lookup_edit_index_init_editor, E.
Qed.

(** X15. With no edit under way, pressing Add either appends one prospect
    at the end of the list (the name stripped of surrounding white space,
    the source and the amounts as entered) and shows "Prospect added.",
    or, when [_validate_row] finds errors, leaves the list as it is and
    shows the errors as a bulleted list. The list it works on is the one
    the import block has left, and its message follows that of the
    import; it never changes the entries already in the list and never
    cuts the run short. *)
Theorem add_click_effect (up : Upload) (w : Widgets) (st : State) :
  edit_index (init_editor st) = Some (-1) ->
  let errs := _validate_row (p_name_input w) (p_source_input w)
                (VFloat (p_wealth_input w)) (VFloat (p_best_input w))
                (VFloat (p_worst_input w)) in
  exists st',
    section3 up w AddClick st = Some (st', false)
    /\ ui st'
       = (ui (import_csv up st)
          ++ [match errs with
              | [] => Success "Prospect added."
              | _ => Error (bullet_list errs)
              end])%list
    /\ prospects_list st'
       = match errs with
         | [] =>
             ((prospects_list st ++ imported up)
              ++ [{| p_name := str_strip (p_name_input w);
                     p_source := p_source_input w;
                     p_wealth := p_wealth_input w;
                     p_best := p_best_input w;
                     p_worst := p_worst_input w |}])%list
         | _ => (prospects_list st ++ imported up)%list
         end.
Proof.
  intros Hei. cbv zeta. unfold section3.
  destruct (section3_entry up w st) as (He & Hp & Hi & Hl & Hu).
  rewrite Hei in Hi.
  set (s := editor_widgets w (import_csv up (init_editor st))) in *.
  clearbody s.
  rewrite Hi. simpl negb. cbv iota.
  unfold on_add. rewrite He.
  destruct (_validate_row _ _ _ _ _) as [|e errs].
  - rewrite Hp. eexists. split; [reflexivity|]. simpl.
    now rewrite Hl, Hu.
  - eexists. split; [reflexivity|]. simpl.
    now rewrite Hl, Hu.
Qed.

(** Witness for [add_click_effect]: a blank name on a fresh session, with
    the sample table in the uploader. *)
Lemma add_click_effect_witness :
  edit_index (init_editor (fresh_state [])) = Some (-1)
  /\ exists st',
       section3 sample_upload entry_blank AddClick (fresh_state [])
       = Some (st', false)
       /\ ui st' = [Success "Imported 2 prospects.";
                    Error "• Name is required."]
       /\ prospects_list st'
          = (sample_prospects ++ imported sample_upload)%list.
Proof.
  assert (H : edit_index (init_editor (fresh_state [])) = Some (-1))
    by reflexivity.
  split; [exact H|].
  exact (add_click_effect sample_upload entry_blank (fresh_state []) H).
Defined.

(** Section 3 on a press of Edit, of Delete and of Update. *)
Lemma section3_edit (up : Upload) (w : Widgets) (st : State) (i : nat)
    (row : Prospect) (e0 : Z) :
  edit_index (init_editor st) = Some e0 ->
  (prospects_list st ++ imported up)%list !! i = Some row ->
  exists st1,
    section3 up w (EditClick i) st = Some (st1, true)
    /\ prospects_list st1 = (prospects_list st ++ imported up)%list
    /\ edit_index st1 = Some (Z.of_nat i).
Proof.
  intros Hei Hrow. unfold section3.
  destruct (section3_entry up w st) as (_ & _ & Hi & Hl & _).
  rewrite Hei in Hi.
  set (s := editor_widgets w (import_csv up (init_editor st))) in *.
  clearbody s.
  rewrite Hi, Hl, Hrow. eexists. split; [reflexivity|]. split.
  - simpl. rewrite ?Hl. reflexivity.
  - unfold edit_index, on_edit. read_session. reflexivity.
Qed.

Lemma section3_delete (up : Upload) (w : Widgets) (st : State) (j : nat)
    (row : Prospect) (z : Z) :
  edit_index st = Some z ->
  (prospects_list st ++ imported up)%list !! j = Some row ->
  exists st2,
    section3 up w (DeleteClick j) st = Some (st2, true)
    /\ prospects_list st2 = delete j (prospects_list st ++ imported up)%list
    /\ edit_index st2 = Some z.
Proof.
  intros Hei Hrow. unfold section3.
  destruct (section3_entry up w st) as (_ & _ & Hi & Hl & _).
  rewrite (edit_index_init_editor st z Hei) in Hi.
  set (s := editor_widgets w (import_csv up (init_editor st))) in *.
  clearbody s.
  rewrite Hi, Hl, Hrow. eexists. split; [reflexivity|]. split.
  - simpl. rewrite ?Hl. reflexivity.
  - exact Hi.
Qed.

Lemma section3_update (up : Upload) (w : Widgets) (st : State) (z : Z) :
  edit_index st = Some z -> z <> -1 ->
  _validate_row (p_name_input w) (p_source_input w)
    (VFloat (p_wealth_input w)) (VFloat (p_best_input w))
    (VFloat (p_worst_input w)) = [] ->
  match list_setitem (prospects_list st ++ imported up)%list z
          {| p_name := str_strip (p_name_input w);
             p_source := p_source_input w;
             p_wealth := p_wealth_input w;
             p_best := p_best_input w;
             p_worst := p_worst_input w |} with
  | Some l =>
      exists st3,
        section3 up w UpdateClick st = Some (st3, false)
        /\ prospects_list st3 = l
  | None => section3 up w UpdateClick st = None
  end.
Proof.
  intros Hei Hz Hvalid. unfold section3.
  destruct (section3_entry up w st) as (He & Hp & Hi & Hl & _).
  rewrite (edit_index_init_editor st z Hei) in Hi.
  rewrite Hvalid in He.
  set (s := editor_widgets w (import_csv up (init_editor st))) in *.
  clearbody s.
  rewrite Hi.
  destruct (Z.eqb_spec z (-1)) as [|_]; [contradiction|].
  simpl negb. cbv iota.
  unfold on_update. rewrite Hi, He, Hp, Hl.
  destruct (list_setitem (prospects_list st ++ imported up)%list z _)
    as [l|]; [|reflexivity].
  eexists. split; reflexivity.
Qed.

Lemma delete_app_l {A : Type} (j : nat) (l1 l2 : list A) :
  (j < List.length l1)%nat -> delete j (l1 ++ l2)%list = (delete j l1 ++ l2)%list.
Proof.
  revert j. induction l1 as [|x l1 IH]; intros [|j] H; simpl in *;
    try lia; [reflexivity|].
  f_equal. apply IH. lia.
Qed.

(** X16. Delete does not reset the edit under way. After Edit on row [i]
    and Delete on a row at or before it, Update does not reach the
    prospect that was being edited: when row [i] was the last one the run
    stops on an [IndexError], and otherwise the entry is written over the
    prospect that followed row [i]. Rows imported in the three runs go to
    the end of the list and change nothing to this: without them the list
    of the second run is that of the first. *)
Theorem update_after_delete_hits_next_row (up1 up2 up3 : Upload)
    (w1 w2 w3 : Widgets) (st : State)
    (i j : nat) (row : Prospect) (e0 : Z) :
  edit_index (init_editor st) = Some e0 ->
  prospects_list st !! i = Some row ->
  (j <= i)%nat ->
  _validate_row (p_name_input w3) (p_source_input w3)
    (VFloat (p_wealth_input w3)) (VFloat (p_best_input w3))
    (VFloat (p_worst_input w3)) = [] ->
  let l2 := ((prospects_list st ++ imported up1) ++ imported up2)%list in
  exists st1 st2,
    section3 up1 w1 (EditClick i) st = Some (st1, true)
    /\ prospects_list st1 = (prospects_list st ++ imported up1)%list
    /\ edit_index st1 = Some (Z.of_nat i)
    /\ section3 up2 w2 (DeleteClick j) st1 = Some (st2, true)
    /\ prospects_list st2 = delete j l2
    /\ edit_index st2 = Some (Z.of_nat i)
    /\ match (l2 ++ imported up3)%list !! S i with
       | None => section3 up3 w3 UpdateClick st2 = None
       | Some next =>
           (prospects_list st2 ++ imported up3)%list !! i = Some next
           /\ exists st3,
                section3 up3 w3 UpdateClick st2 = Some (st3, false)
                /\ prospects_list st3
                   = <[i := {| p_name := str_strip (p_name_input w3);
                               p_source := p_source_input w3;
                               p_wealth := p_wealth_input w3;
                               p_best := p_best_input w3;
                               p_worst := p_worst_input w3 |}]>
                       (delete j l2 ++ imported up3)%list
       end.
Proof.
  intros Hei Hrow Hji Hvalid. cbv zeta.
  set (l1 := (prospects_list st ++ imported up1)%list).
  set (l2 := (l1 ++ imported up2)%list).
  assert (Hi0 : (i < List.length (prospects_list st))%nat)
    by (eapply lookup_lt_Some; exact Hrow).
  assert (Hrow1 : l1 !! i = Some row)
    by (unfold l1; now apply lookup_app_l_Some).
  assert (Hi2 : (i < List.length l2)%nat).
  { unfold l2, l1. rewrite !List.length_app. lia. }
  assert (Hj : is_Some (l2 !! j)) by (apply lookup_lt_is_Some; lia).
  destruct Hj as [rowj Hrowj].
  destruct (section3_edit up1 w1 st i row e0 Hei Hrow1)
    as (st1 & R1 & L1 & E1).
  fold l1 in L1.
  assert (Hrowj1 : (prospects_list st1 ++ imported up2)%list !! j = Some rowj)
    by (rewrite L1; exact Hrowj).
  destruct (section3_delete up2 w2 st1 j rowj _ E1 Hrowj1)
    as (st2 & R2 & L2 & E2).
  rewrite L1 in L2. fold l2 in L2.
  exists st1, st2. repeat (split; [assumption|]).
  assert (Hne : Z.of_nat i <> -1) by lia.
  pose proof (section3_update up3 w3 st2 _ E2 Hne Hvalid) as R3.
  rewrite L2 in R3 |- *. unfold list_setitem in R3.
  assert (Hdel : (delete j l2 ++ imported up3)%list
                 = delete j (l2 ++ imported up3)%list)
    by (symmetry; apply delete_app_l; lia).
  assert (Hlen : List.length (delete j l2 ++ imported up3)%list
                 = (List.length (l2 ++ imported up3)%list - 1)%nat).
  { rewrite Hdel. apply length_delete.
    apply lookup_lt_is_Some. rewrite List.length_app. lia. }
  rewrite Hlen in R3.
  destruct (Z.ltb_spec (Z.of_nat i) 0) as [Hneg|_]; [lia|].
  destruct (Z.leb_spec 0 (Z.of_nat i)) as [_|Hneg]; [|lia].
  simpl andb in R3. rewrite Nat2Z.id in R3.
  destruct ((l2 ++ imported up3)%list !! S i) as [next|] eqn:Enext.
  - apply lookup_lt_Some in Enext as Hlt.
    destruct (Z.ltb_spec (Z.of_nat i)
                (Z.of_nat (List.length (l2 ++ imported up3)%list - 1)))
      as [_|Hge]; [|lia].
    split; [|exact R3].
    rewrite Hdel, list_lookup_delete_ge by exact Hji. exact Enext.
  - apply lookup_ge_None in Enext.
    destruct (Z.ltb_spec (Z.of_nat i)
                (Z.of_nat (List.length (l2 ++ imported up3)%list - 1)))
      as [Hlt|_]; [lia|]. exact R3.
Qed.

(** Witness for [update_after_delete_hits_next_row]: Edit and Delete on
    the first sample prospect, then Update with " Trust C ", which lands
    on the second. *)
Lemma update_after_delete_hits_next_row_witness :
  edit_index (init_editor (fresh_state [])) = Some (-1)
  /\ exists st1 st2 st3,
       section3 NoFile entry_blank (EditClick 0) (fresh_state [])
       = Some (st1, true)
       /\ section3 NoFile entry_blank (DeleteClick 0) st1 = Some (st2, true)
       /\ section3 NoFile entry_c UpdateClick st2 = Some (st3, false)
       /\ List.map p_name (prospects_list st3) = ["Trust C"].
Proof.
  assert (H0 : edit_index (init_editor (fresh_state [])) = Some (-1))
    by reflexivity.
  split; [exact H0|].
  destruct (update_after_delete_hits_next_row NoFile NoFile NoFile
              entry_blank entry_blank entry_c
              (fresh_state []) 0 0 _ (-1) H0 eq_refl (le_n 0) eq_refl)
    as (st1 & st2 & R1 & _ & _ & R2 & _ & _ & _ & st3 & R3 & L3).
  exists st1, st2, st3. repeat (split; [assumption|]).
  rewrite L3. reflexivity.
Defined.

(** X18. A table left in the uploader is imported again on every run:
    after two runs in which the uploader holds a table with the needed
    columns, and no button is pressed, the list ends with the rows of the
    table twice over. *)
Theorem upload_is_imported_on_every_run (columns : list string)
    (table_rows : list CsvRow) (w1 w2 : Widgets) (st : State) (e0 : Z) :
  edit_index (init_editor st) = Some e0 ->
  missing_column columns = None ->
  let up := Table columns table_rows in
  exists st1 st2,
    section3 up w1 NoClick st = Some (st1, false)
    /\ section3 up w2 NoClick st1 = Some (st2, false)
    /\ prospects_list st2
       = ((prospects_list st ++ List.map record_of table_rows)
          ++ List.map record_of table_rows)%list.
Proof.
  intros Hei Hcols. cbv zeta.
  assert (Himp : imported (Table columns table_rows)
                 = List.map record_of table_rows)
    by (simpl; now rewrite Hcols).
  assert (Hrun : forall w s z, edit_index (init_editor s) = Some z ->
            exists s', section3 (Table columns table_rows) w NoClick s
                       = Some (s', false)
                       /\ prospects_list s'
                          = (prospects_list s
                             ++ List.map record_of table_rows)%list
                       /\ edit_index s' = Some z).
  { intros w s z Hz. unfold section3.
    destruct (section3_entry (Table columns table_rows) w s)
      as (_ & _ & Hi & Hl & _).
    rewrite Hz in Hi. rewrite Himp in Hl.
    set (s1 := editor_widgets w _) in *. clearbody s1.
    rewrite Hi. eexists. split; [reflexivity|]. now split. }
  destruct (Hrun w1 st e0 Hei) as (st1 & R1 & L1 & E1).
  destruct (Hrun w2 st1 e0 (edit_index_init_editor st1 e0 E1))
    as (st2 & R2 & L2 & _).
  exists st1, st2. split; [exact R1|]. split; [exact R2|].
  now rewrite L2, L1.
Qed.

(** Witness for [upload_is_imported_on_every_run]: the sample table. *)
Lemma upload_is_imported_on_every_run_witness :
  edit_index (init_editor (fresh_state [])) = Some (-1)
  /\ exists st1 st2,
       section3 sample_upload entry_blank NoClick (fresh_state [])
       = Some (st1, false)
       /\ section3 sample_upload entry_blank NoClick st1 = Some (st2, false)
       /\ List.map p_name (prospects_list st2)
          = ["Family office A"; "Entrepreneur B"; "Pension fund D"; " ";
             "Pension fund D"; " "].
Proof.
  assert (H0 : edit_index (init_editor (fresh_state [])) = Some (-1))
    by reflexivity.
  split; [exact H0|].
  destruct (upload_is_imported_on_every_run sample_columns sample_rows
              entry_blank entry_blank (fresh_state []) (-1) H0 eq_refl)
    as (st1 & st2 & R1 & R2 & L2).
  exists st1, st2. split; [exact R1|]. split; [exact R2|].
  rewrite L2. reflexivity.
Defined.
